(** * The convergence engine of the vSphere VM provider

    A shallow embedding of [pkg/vmprovider/providers/vsphere/session_vm_update.go]:
    device reconciliation for network adapters and passthrough devices, the
    config-spec builders, the customization gate, the two reconfigure paths,
    status projection and the top-level [UpdateVirtualMachine].

    Go values are modelled as follows.
    - [string] is [string]; [int32]/[int64] are [Z] (conversions that can
      truncate are written with [wrap32]).
    - a pointer that may be [nil] is an [option]; a slice is a [list] (so the
      [nil] slice and the empty slice coincide, as they do for
      [apiEquality.Semantic.DeepEqual]).
    - a [map[string]string] is a [gmap string string].
    - an interface value with a closed set of dynamic types the code inspects
      is an inductive type with one more constructor for every other type.
    - a function that can panic (failed type assertion, index out of range,
      nil dereference) returns a [result], whose [Panic] constructor stands
      for the runtime panic; [Err] is a returned Go [error].
    - calls to the hypervisor and the other collaborators are answered by a
      record of collaborators and logged, in order, in the trace of the
      computation, next to the status record it writes. *)

From stdpp Require Import gmap strings list fin_maps pretty.
From Stdlib Require Import ZArith Lia.

(** ** Errors and results *)

(** [vimTypes] faults carried by a [task.Error]. *)
Inductive Fault :=
| CustomizationPending
| OtherFault (name : string).

(** The Go [error] values the engine creates, inspects or passes through. *)
#[warnings="-register-all"]
Inductive error :=
| TaskError (fault : Fault)          (* task.Error, as returned by a vSphere task *)
| Errorf (msg : string)              (* fmt.Errorf *)
| Aggregate (errs : list error)      (* k8serrors.NewAggregate of a non-empty list *)
| ExternalError (msg : string).      (* any other error of a collaborator *)

Inductive result (A : Type) :=
| Ok (a : A)
| Err (e : error)
| Panic.
Arguments Ok {A} a.
Arguments Err {A} e.
Arguments Panic {A}.

Global Instance result_ret : MRet result := λ A a, Ok a.
Global Instance result_bind : MBind result := λ A B f m,
  match m with
  | Ok a => f a
  | Err e => Err e
  | Panic => Panic
  end.

Global Instance result_fmap : FMap result := λ A B f m,
  match m with
  | Ok a => Ok (f a)
  | Err e => Err e
  | Panic => Panic
  end.

(** [int32(x)] for an [int] [x]: two's complement wrap-around. *)
Definition wrap32 (x : Z) : Z := ((x + 2 ^ 31) mod 2 ^ 32 - 2 ^ 31)%Z.

(** ** Virtual devices *)

Record VirtualPCIPassthroughAllowedDevice := {
  VendorId : Z;
  DeviceId : Z;
}.

(** [vimTypes.BaseVirtualDeviceBackingInfo]: the dynamic types the two matchers
    switch on, and [OtherBackingInfo] for any other backing type (named by
    its Go type). *)
Inductive BackingInfo :=
| VirtualEthernetCardNetworkBackingInfo (DeviceName : string)
| VirtualEthernetCardDistributedVirtualPortBackingInfo (SwitchUuid PortgroupKey : string)
| VirtualEthernetCardOpaqueNetworkBackingInfo (OpaqueNetworkId : string)
| VirtualPCIPassthroughVmiopBackingInfo (Vgpu : string)
| VirtualPCIPassthroughDynamicBackingInfo
    (AllowedDevice : list VirtualPCIPassthroughAllowedDevice) (CustomLabel : string)
| OtherBackingInfo (goType : string).

(** [reflect.Type] of a backing. *)
Inductive BackingType :=
| TNetworkBackingInfo
| TDistributedVirtualPortBackingInfo
| TOpaqueNetworkBackingInfo
| TVmiopBackingInfo
| TDynamicBackingInfo
| TOther (goType : string).

Record VirtualDevice := {
  Key : Z;
  Backing : option BackingInfo;
}.

Record VirtualEthernetCard := {
  ethVirtualDevice : VirtualDevice;
  AddressType : string;
  MacAddress : string;
  ExternalId : string;
}.

(** [vimTypes.BaseVirtualDevice]: every type that embeds [VirtualEthernetCard]
    (vmxnet3, e1000, ...) is an [EthernetCardDevice]. *)
Inductive BaseVirtualDevice :=
| EthernetCardDevice (card : VirtualEthernetCard)
| PCIPassthroughDevice (dev : VirtualDevice)
| DiskDevice (dev : VirtualDevice)
| OtherDevice (dev : VirtualDevice).

Inductive VirtualDeviceConfigSpecOperation :=
| VirtualDeviceConfigSpecOperationAdd
| VirtualDeviceConfigSpecOperationRemove
| VirtualDeviceConfigSpecOperationEdit.

Record VirtualDeviceConfigSpec := {
  Device : BaseVirtualDevice;
  Operation : VirtualDeviceConfigSpecOperation;
}.

Global Instance Fault_eq_dec : EqDecision Fault.
Proof. solve_decision. Defined.
Global Instance AllowedDevice_eq_dec : EqDecision VirtualPCIPassthroughAllowedDevice.
Proof. solve_decision. Defined.
Global Instance BackingInfo_eq_dec : EqDecision BackingInfo.
Proof. solve_decision. Defined.
Global Instance BackingType_eq_dec : EqDecision BackingType.
Proof. solve_decision. Defined.
Global Instance VirtualDevice_eq_dec : EqDecision VirtualDevice.
Proof. solve_decision. Defined.
Global Instance VirtualEthernetCard_eq_dec : EqDecision VirtualEthernetCard.
Proof. solve_decision. Defined.
Global Instance BaseVirtualDevice_eq_dec : EqDecision BaseVirtualDevice.
Proof. solve_decision. Defined.
Global Instance Operation_eq_dec : EqDecision VirtualDeviceConfigSpecOperation.
Proof. solve_decision. Defined.
Global Instance VirtualDeviceConfigSpec_eq_dec : EqDecision VirtualDeviceConfigSpec.
Proof. solve_decision. Defined.

(** [reflect.TypeOf(backing)]; [None] is the nil type of a nil interface. *)
Definition TypeOf (backing : option BackingInfo) : option BackingType :=
  match backing with
  | None => None
  | Some (VirtualEthernetCardNetworkBackingInfo _) => Some TNetworkBackingInfo
  | Some (VirtualEthernetCardDistributedVirtualPortBackingInfo _ _) =>
      Some TDistributedVirtualPortBackingInfo
  | Some (VirtualEthernetCardOpaqueNetworkBackingInfo _) => Some TOpaqueNetworkBackingInfo
  | Some (VirtualPCIPassthroughVmiopBackingInfo _) => Some TVmiopBackingInfo
  | Some (VirtualPCIPassthroughDynamicBackingInfo _ _) => Some TDynamicBackingInfo
  | Some (OtherBackingInfo t) => Some (TOther t)
  end.

Definition GetVirtualDevice (dev : BaseVirtualDevice) : VirtualDevice :=
  match dev with
  | EthernetCardDevice card => ethVirtualDevice card
  | PCIPassthroughDevice d | DiskDevice d | OtherDevice d => d
  end.

(** [vimTypes.VirtualEthernetCardMacTypeManual] (govmomi). *)
Definition VirtualEthernetCardMacTypeManual : string := "manual".

(** ** Network adapter matching (lines 94-197) *)

Definition ethCardMatch (newEthCard curEthCard : VirtualEthernetCard) : bool :=
  if bool_decide (AddressType newEthCard = VirtualEthernetCardMacTypeManual)
     && negb (bool_decide (MacAddress newEthCard = MacAddress curEthCard))
  then false
  else if negb (bool_decide (ExternalId newEthCard = ""))
          && negb (bool_decide (ExternalId newEthCard = ExternalId curEthCard))
  then false
  else true.

(** The body of the inner loop of [updateEthCardDeviceChanges] for one current
    card: [true] when the iteration reaches [matchingIdx = idx], [false] when
    it ends in a [continue] or with [backingMatch] still false. *)
Definition ethBackingMatch (expectedNic nic : VirtualEthernetCard) : bool :=
  let expectedBacking := Backing (ethVirtualDevice expectedNic) in
  if negb (ethCardMatch expectedNic nic) then false
  else
    match Backing (ethVirtualDevice nic) with
    | None => false
    | Some db =>
        if negb (bool_decide (TypeOf (Some db) = TypeOf expectedBacking)) then false
        else
          match db, expectedBacking with
          | VirtualEthernetCardNetworkBackingInfo aName,
            Some (VirtualEthernetCardNetworkBackingInfo bName) =>
              bool_decide (aName = bName)
          | VirtualEthernetCardDistributedVirtualPortBackingInfo aSwitch aPortgroup,
            Some (VirtualEthernetCardDistributedVirtualPortBackingInfo bSwitch bPortgroup) =>
              bool_decide (aSwitch = bSwitch) && bool_decide (aPortgroup = bPortgroup)
          | VirtualEthernetCardOpaqueNetworkBackingInfo aId,
            Some (VirtualEthernetCardOpaqueNetworkBackingInfo bId) =>
              bool_decide (aId = bId)
          | _, _ => false
          end
    end.

(** The inner loop: the index of the first current device that matches, or
    [None] for [matchingIdx == -1]. The type assertion
    [curDev.(vimTypes.BaseVirtualEthernetCard)] panics on any other device. *)
Fixpoint ethScanFrom (expectedNic : VirtualEthernetCard)
    (currentEthCards : list BaseVirtualDevice) (idx : nat) : result (option nat) :=
  match currentEthCards with
  | [] => Ok None
  | EthernetCardDevice nic :: rest =>
      if ethBackingMatch expectedNic nic then Ok (Some idx)
      else ethScanFrom expectedNic rest (S idx)
  | _ :: _ => Panic
  end.

(** One iteration of the outer loop up to the test of [matchingIdx]; the
    assertion [expectedDev.(vimTypes.BaseVirtualEthernetCard)] comes first. *)
Definition ethScan (expectedDev : BaseVirtualDevice)
    (currentEthCards : list BaseVirtualDevice) : result (option nat) :=
  match expectedDev with
  | EthernetCardDevice expectedNic => ethScanFrom expectedNic currentEthCards 0
  | _ => Panic
  end.

(** ** Passthrough device matching (lines 199-306) *)

Definition createPCIPassThroughDevice (deviceKey : Z) (backingInfo : BackingInfo)
    : BaseVirtualDevice :=
  PCIPassthroughDevice {| Key := deviceKey; Backing := Some backingInfo |}.

(** [v1alpha1.VirtualDevices] of a VM class. *)
Record DynamicDirectPathIODevice := {
  VendorID : Z;
  DeviceID : Z;
  ddpCustomLabel : string;
}.

Record VirtualDevices := {
  VGPUDevices : list string;     (* the ProfileName of each VGPUDevice *)
  DynamicDirectPathIODevices : list DynamicDirectPathIODevice;
}.

(** The two loops of [createPCIDevices]; [deviceKey--] on an [int32]. *)
Fixpoint createVGPUDevices (deviceKey : Z) (vgpus : list string)
    : list BaseVirtualDevice * Z :=
  match vgpus with
  | [] => ([], deviceKey)
  | profileName :: rest =>
      let vGPUDevice :=
        createPCIPassThroughDevice deviceKey (VirtualPCIPassthroughVmiopBackingInfo profileName) in
      let '(devs, k) := createVGPUDevices (wrap32 (deviceKey - 1)) rest in
      (vGPUDevice :: devs, k)
  end.

Fixpoint createDynamicDirectPathDevices (deviceKey : Z) (ddps : list DynamicDirectPathIODevice)
    : list BaseVirtualDevice :=
  match ddps with
  | [] => []
  | dynamicDirectPath :: rest =>
      let allowedDev := {| VendorId := wrap32 (VendorID dynamicDirectPath);
                           DeviceId := wrap32 (DeviceID dynamicDirectPath) |} in
      let backingInfo :=
        VirtualPCIPassthroughDynamicBackingInfo [allowedDev] (ddpCustomLabel dynamicDirectPath) in
      createPCIPassThroughDevice deviceKey backingInfo
        :: createDynamicDirectPathDevices (wrap32 (deviceKey - 1)) rest
  end.

Definition createPCIDevices (pciDevices : VirtualDevices) : list BaseVirtualDevice :=
  let '(vgpus, deviceKey) := createVGPUDevices (-200) (VGPUDevices pciDevices) in
  vgpus ++ createDynamicDirectPathDevices deviceKey (DynamicDirectPathIODevices pciDevices).

(** The body of the inner loop of [updatePCIDeviceChanges] for one current
    device. [b.AllowedDevice[0]] panics when the expected list is empty. *)
Definition pciBackingMatch (expectedBacking : option BackingInfo) (curDev : BaseVirtualDevice)
    : result bool :=
  match Backing (GetVirtualDevice curDev) with
  | None => Ok false
  | Some curBacking =>
      if negb (bool_decide (TypeOf (Some curBacking) = TypeOf expectedBacking)) then Ok false
      else
        match curBacking, expectedBacking with
        | VirtualPCIPassthroughVmiopBackingInfo aVgpu,
          Some (VirtualPCIPassthroughVmiopBackingInfo bVgpu) =>
            Ok (bool_decide (aVgpu = bVgpu))
        | VirtualPCIPassthroughDynamicBackingInfo currAllowedDevs aLabel,
          Some (VirtualPCIPassthroughDynamicBackingInfo bAllowed bLabel) =>
            if bool_decide (aLabel = bLabel) then
              match bAllowed with
              | [] => Panic
              | expectedAllowedDev :: _ =>
                  Ok (existsb
                        (λ cur, bool_decide (DeviceId expectedAllowedDev = DeviceId cur)
                                && bool_decide (VendorId expectedAllowedDev = VendorId cur))
                        currAllowedDevs)
              end
            else Ok false
        | _, _ => Ok false
        end
  end.

Fixpoint pciScanFrom (expectedBacking : option BackingInfo)
    (currentPciDevices : list BaseVirtualDevice) (idx : nat) : result (option nat) :=
  match currentPciDevices with
  | [] => Ok None
  | curDev :: rest =>
      backingMatch ← pciBackingMatch expectedBacking curDev;
      if backingMatch : bool then Ok (Some idx)
      else pciScanFrom expectedBacking rest (S idx)
  end.

(** The assertion of [expectedDev] to a [VirtualPCIPassthrough] pointer comes
    first. *)
Definition pciScan (expectedDev : BaseVirtualDevice)
    (currentPciDevices : list BaseVirtualDevice) : result (option nat) :=
  match expectedDev with
  | PCIPassthroughDevice expectedPci => pciScanFrom (Backing expectedPci) currentPciDevices 0
  | _ => Panic
  end.

(** ** The outer loop shared by the two matchers

    Lines 121-196 and 247-305 are the same loop around the two scans above:
    an expected device with no match appends an Add to [deviceChanges], a
    match deletes [currentDevs[matchingIdx]]; what is left of the current
    list becomes the Removes, which are put first. *)
Section DeviceChangeLoop.

Variable scan : BaseVirtualDevice → list BaseVirtualDevice → result (option nat).

Definition addChange (dev : BaseVirtualDevice) : VirtualDeviceConfigSpec :=
  {| Device := dev; Operation := VirtualDeviceConfigSpecOperationAdd |}.

Definition removeChange (dev : BaseVirtualDevice) : VirtualDeviceConfigSpec :=
  {| Device := dev; Operation := VirtualDeviceConfigSpecOperationRemove |}.

(** [append(cur[:matchingIdx], cur[matchingIdx+1:]...)] *)
Definition removeAt (matchingIdx : nat) (cur : list BaseVirtualDevice) : list BaseVirtualDevice :=
  take matchingIdx cur ++ drop (S matchingIdx) cur.

Fixpoint matchExpected (expectedDevs currentDevs : list BaseVirtualDevice)
    (deviceChanges : list VirtualDeviceConfigSpec)
    : result (list VirtualDeviceConfigSpec * list BaseVirtualDevice) :=
  match expectedDevs with
  | [] => Ok (deviceChanges, currentDevs)
  | expectedDev :: rest =>
      matching ← scan expectedDev currentDevs;
      match matching with
      | None => matchExpected rest currentDevs (deviceChanges ++ [addChange expectedDev])
      | Some matchingIdx => matchExpected rest (removeAt matchingIdx currentDevs) deviceChanges
      end
  end.

Definition updateDeviceChanges (expectedDevs currentDevs : list BaseVirtualDevice)
    : result (list VirtualDeviceConfigSpec) :=
  '(deviceChanges, remaining) ← matchExpected expectedDevs currentDevs [];
  Ok (map removeChange remaining ++ deviceChanges).

(** How many expected devices found a match (iterations with
    [matchingIdx != -1]). *)
Fixpoint matchedCount (expectedDevs currentDevs : list BaseVirtualDevice) : nat :=
  match expectedDevs with
  | [] => 0
  | expectedDev :: rest =>
      match scan expectedDev currentDevs with
      | Ok (Some matchingIdx) => S (matchedCount rest (removeAt matchingIdx currentDevs))
      | Ok None => matchedCount rest currentDevs
      | _ => 0
      end
  end.

End DeviceChangeLoop.

Definition updateEthCardDeviceChanges (expectedEthCards currentEthCards : list BaseVirtualDevice)
    : result (list VirtualDeviceConfigSpec) :=
  updateDeviceChanges ethScan expectedEthCards currentEthCards.

Definition updatePCIDeviceChanges (expectedPciDevices currentPciDevices : list BaseVirtualDevice)
    : result (list VirtualDeviceConfigSpec) :=
  updateDeviceChanges pciScan expectedPciDevices currentPciDevices.

(** ** What the two scans accept *)

Definition isEthernetCard (dev : BaseVirtualDevice) : bool :=
  match dev with EthernetCardDevice _ => true | _ => false end.

(** A passthrough device whose dynamic backing, if it has one, lists an
    allowed device, as every device of [createPCIDevices] does. *)
Definition hasAllowedDevice (dev : BaseVirtualDevice) : bool :=
  match dev with
  | PCIPassthroughDevice d =>
      match Backing d with
      | Some (VirtualPCIPassthroughDynamicBackingInfo [] _) => false
      | _ => true
      end
  | _ => false
  end.

(** The pair of an expected and a current device is one the network-adapter
    scan stops at. *)
Definition ethDeviceMatch (expectedDev curDev : BaseVirtualDevice) : bool :=
  match expectedDev, curDev with
  | EthernetCardDevice expectedNic, EthernetCardDevice nic => ethBackingMatch expectedNic nic
  | _, _ => false
  end.

(** The pair is one the passthrough scan stops at. *)
Definition pciDeviceMatch (expectedDev curDev : BaseVirtualDevice) : bool :=
  match expectedDev with
  | PCIPassthroughDevice expectedPci =>
      match pciBackingMatch (Backing expectedPci) curDev with
      | Ok backingMatch => backingMatch
      | _ => false
      end
  | _ => false
  end.

(** ** Hypervisor configuration and the config spec *)

(** [vimTypes.AnyType], the value of an option: the code asserts it to a
    [string]. *)
Inductive AnyType :=
| AnyString (s : string)
| AnyInt (n : Z)
| AnyNil.

Record OptionValue := {
  optKey : string;
  optValue : AnyType;
}.

(** [vimTypes.BaseOptionValue]: [GetOptionValue()] may return nil. *)
Abbreviation BaseOptionValue := (option OptionValue).

Record ResourceAllocationInfo := {
  Reservation : option Z;
  Limit : option Z;
}.

Record ManagedByInfo := {
  ExtensionKey : string;
  managedByType : string;
}.

Record VAppPropertyInfo := {
  propId : string;
  propValue : string;
}.

Record VmConfigInfo := {
  Property : list VAppPropertyInfo;
}.

(** [vimTypes.VmConfigSpec], as built by [GetMergedvAppConfigSpec]. *)
Record VmConfigSpec := {
  specProperty : list VAppPropertyInfo;
}.

Record VirtualHardware := {
  NumCPU : Z;
  hwMemoryMB : Z;
  hwDevice : list BaseVirtualDevice;
}.

(** [vimTypes.VirtualMachineConfigInfo]: the fields the engine reads.
    [config_VAppConfig] is an interface whose [GetVmConfigInfo()] may be nil. *)
Record VirtualMachineConfigInfo := {
  config_Uuid : string;
  config_Annotation : string;
  config_Hardware : VirtualHardware;
  config_ManagedBy : option ManagedByInfo;
  config_CpuAllocation : option ResourceAllocationInfo;
  config_MemoryAllocation : option ResourceAllocationInfo;
  config_ExtraConfig : list BaseOptionValue;
  config_VAppConfig : option (option VmConfigInfo);
  config_ChangeTrackingEnabled : option bool;
}.

(** [vimTypes.VirtualMachineConfigSpec]: the fields the engine writes. *)
Record VirtualMachineConfigSpec := {
  Annotation : string;
  NumCPUs : Z;
  MemoryMB : Z;
  ManagedBy : option ManagedByInfo;
  CpuAllocation : option ResourceAllocationInfo;
  MemoryAllocation : option ResourceAllocationInfo;
  ExtraConfig : list BaseOptionValue;
  VAppConfig : option VmConfigSpec;
  ChangeTrackingEnabled : option bool;
  DeviceChange : list VirtualDeviceConfigSpec;
}.

Global Instance AnyType_eq_dec : EqDecision AnyType.
Proof. solve_decision. Defined.
Global Instance OptionValue_eq_dec : EqDecision OptionValue.
Proof. solve_decision. Defined.
Global Instance ResourceAllocationInfo_eq_dec : EqDecision ResourceAllocationInfo.
Proof. solve_decision. Defined.
Global Instance ManagedByInfo_eq_dec : EqDecision ManagedByInfo.
Proof. solve_decision. Defined.
Global Instance VAppPropertyInfo_eq_dec : EqDecision VAppPropertyInfo.
Proof. solve_decision. Defined.
Global Instance VmConfigSpec_eq_dec : EqDecision VmConfigSpec.
Proof. solve_decision. Defined.
Global Instance VirtualMachineConfigSpec_eq_dec : EqDecision VirtualMachineConfigSpec.
Proof. solve_decision. Defined.

(** [&vimTypes.VirtualMachineConfigSpec{}] *)
Definition defaultConfigSpec : VirtualMachineConfigSpec := {|
  Annotation := "";
  NumCPUs := 0;
  MemoryMB := 0;
  ManagedBy := None;
  CpuAllocation := None;
  MemoryAllocation := None;
  ExtraConfig := [];
  VAppConfig := None;
  ChangeTrackingEnabled := None;
  DeviceChange := [];
|}.

(** [apiEquality.Semantic.DeepEqual] on two config specs: field by field,
    pointers by what they point to, an empty slice equal to a nil one. *)
Definition DeepEqual (a b : VirtualMachineConfigSpec) : bool := bool_decide (a = b).

(** ** The desired state *)

(** [resource.Quantity], in thousandths. *)
Definition Quantity := Z.

Definition IsZero (q : Quantity) : bool := bool_decide (q = 0%Z).

Record ResourceList := {
  Cpu : Quantity;
  Memory : Quantity;
}.

Record VirtualMachineClassResources := {
  Requests : ResourceList;
  Limits : ResourceList;
}.

Record VirtualMachineClassHardware := {
  Cpus : Z;
  classMemory : Quantity;
  Devices : VirtualDevices;
}.

(** [v1alpha1.VirtualMachineClassSpec]; [Resources] stands for
    [Policies.Resources]. *)
Record VirtualMachineClassSpec := {
  Hardware : VirtualMachineClassHardware;
  Resources : VirtualMachineClassResources;
}.

Inductive VirtualMachineMetadataTransport :=
| VirtualMachineMetadataExtraConfigTransport
| VirtualMachineMetadataOvfEnvTransport
| OtherTransport (name : string).

Global Instance Transport_eq_dec : EqDecision VirtualMachineMetadataTransport.
Proof. solve_decision. Defined.

(** [vmprovider.VmMetadata] *)
Record VmMetadata := {
  Data : gmap string string;
  Transport : VirtualMachineMetadataTransport;
}.

Record ClusterModuleStatus := {
  GroupName : string;
  ModuleUuid : string;
}.

(** [v1alpha1.VirtualMachineSetResourcePolicy]: its [Status.ClusterModules]. *)
Record VirtualMachineSetResourcePolicy := {
  ClusterModules : list ClusterModuleStatus;
}.

(** [vmprovider.VmConfigArgs]. Of the image the engine only asks
    [conditions.IsTrue(vmImage, VirtualMachineImageV1Alpha1CompatibleCondition)]. *)
Record VmConfigArgs := {
  VmClassSpec : VirtualMachineClassSpec;
  VmImageV1Alpha1Compatible : bool;
  VmMetadataOf : option VmMetadata;
  ResourcePolicy : option VirtualMachineSetResourcePolicy;
}.

(** [v1alpha1.VirtualMachineNetworkInterface], opaque to the engine. *)
Record VirtualMachineNetworkInterface := {
  NetworkName : string;
  NetworkType : string;
}.

Record VirtualMachineVolume := {
  volName : string;
  PersistentVolumeClaim : bool;      (* the pointer is not nil *)
}.

Record VirtualMachineVolumeStatus := {
  volStatusName : string;
  Attached : bool;
}.

(** [v1alpha1.VirtualMachinePowerState] and [vimTypes.VirtualMachinePowerState]
    are both string types with the same two constants. *)
Definition VirtualMachinePoweredOff : string := "poweredOff".
Definition VirtualMachinePoweredOn : string := "poweredOn".

Record VirtualMachineSpec := {
  PowerState : string;
  NetworkInterfaces : list VirtualMachineNetworkInterface;
  Volumes : list VirtualMachineVolume;
  (** [AdvancedOptions] and then [ChangeBlockTracking], two pointers *)
  AdvancedOptions : option (option bool);
}.

Record NetworkInterfaceStatus := {
  Connected : bool;
  nisMacAddress : string;
  IpAddresses : list string;
}.

(** [v1alpha1.Created] *)
Definition Created : string := "Created".

Record VirtualMachineStatus := {
  Phase : string;
  status_PowerState : string;
  UniqueID : string;
  BiosUUID : string;
  InstanceUUID : string;
  Host : string;
  VmIp : string;
  status_NetworkInterfaces : list NetworkInterfaceStatus;
  status_ChangeBlockTracking : option bool;
  status_Volumes : list VirtualMachineVolumeStatus;
}.

(** [vmCtx.VM] without its status, which the engine writes and which is
    therefore part of the world below. *)
Record VirtualMachine := {
  Name : string;
  Annotations : gmap string string;
  Spec : VirtualMachineSpec;
}.

(** [m[k]] on a Go map of strings: the zero value when the key is absent. *)
Definition mapGet (m : gmap string string) (k : string) : string := default "" (m !! k).

(** ** What the hypervisor reports *)

Record GuestIpAddress := {
  IpAddress : string;
  PrefixLength : Z;
}.

(** [vimTypes.GuestNicInfo]; [IpConfig] is a pointer. *)
Record GuestNicInfo := {
  nicConnected : bool;
  nicMacAddress : string;
  IpConfig : option (list GuestIpAddress);
}.

Record GuestInfo := {
  guestIpAddress : string;
  Net : list GuestNicInfo;
}.

Record VirtualMachineRuntimeInfo := {
  runtime_PowerState : string;
  ConnectionState : string;
  runtime_Host : option string;       (* a managed object reference *)
}.

Record VirtualMachineSummary := {
  summary_Runtime : VirtualMachineRuntimeInfo;
  summary_Uuid : string;              (* summary.Config.Uuid *)
  summary_InstanceUuid : string;      (* summary.Config.InstanceUuid *)
}.

(** [mo.VirtualMachine], as [GetProperties] fills it. *)
Record MoVirtualMachine := {
  mo_Config : option VirtualMachineConfigInfo;
  mo_Runtime : VirtualMachineRuntimeInfo;
  mo_Guest : option GuestInfo;
  mo_Summary : VirtualMachineSummary;
}.

(** [res.VirtualMachine]: [MoRef().Value]. *)
Record ResVirtualMachine := {
  MoRefValue : string;
}.

(** ** Network interfaces and customization *)

Inductive CustomizationIpGenerator :=
| CustomizationDhcpIpGenerator
| CustomizationFixedIp (ip : string).

Record CustomizationAdapterMapping := {
  camMacAddress : string;
  camIp : CustomizationIpGenerator;
}.

Record IPConfig := {
  ipcIP : string;
  ipcGateway : string;
}.

(** [NetworkInterfaceInfo] of the network provider. *)
Record NetworkInterfaceInfo := {
  niDevice : BaseVirtualDevice;
  niCustomization : option CustomizationAdapterMapping;
  niIPConfiguration : IPConfig;
}.

Record CustomizationSpec := {
  HostName : string;                 (* Identity.HostName, a CustomizationFixedName *)
  HwClockUTC : bool;
  DnsServerList : list string;
  NicSettingMap : list CustomizationAdapterMapping;
}.

(** [vmUpdateArgs] *)
Record vmUpdateArgs := {
  updateVmConfigArgs : VmConfigArgs;
  NetIfList : list NetworkInterfaceInfo;
  DNSServers : list string;
}.

(** ** The package around this file

    Constants, feature switches and helpers that [session_vm_update.go] uses
    and that are declared in other files of the package: they are parameters
    of the embedding. *)

Record Constants := {
  GOSCPendingExtraConfigKey : string;
  VSphereCustomizationBypassKey : string;
  VSphereCustomizationBypassDisable : string;
  ExtraConfigGuestInfoPrefix : string;
  ExtraConfigTrue : string;
  MMPowerOffVMExtraConfigKey : string;
  PCIPassthruMMIOOverrideAnnotation : string;
  PCIPassthruMMIOSizeDefault : string;
  PCIPassthruMMIOExtraConfigKey : string;
  PCIPassthruMMIOSizeExtraConfigKey : string;
  VMOperatorV1Alpha1ExtraConfigKey : string;
  VMOperatorV1Alpha1ConfigReady : string;
  VMOperatorV1Alpha1ConfigEnabled : string;
  VCVMAnnotation : string;
  ClusterModuleNameKey : string;
  ProviderTagsAnnotationKey : string;
  ProviderTagCategoryNameKey : string;
}.

(** The [Session] receiver, the feature switches of [lib], and the helpers
    of the package that the engine calls without side effects. *)
Record Session := {
  s_extraConfig : gmap string string;
  s_tagInfo : gmap string string;
  GetCpuMinMHzInCluster : Z;
  IsThunderPciDevicesFSSEnabled : bool;
  IsVMServiceV1Alpha2FSSEnabled : bool;
  CpuQuantityToMhz : Quantity → Z → Z;
  memoryQuantityToMb : Quantity → Z;
  GetMergedvAppConfigSpec : gmap string string → list VAppPropertyInfo → option VmConfigSpec;
  updateVirtualDiskDeviceChanges :
    VirtualMachine → list BaseVirtualDevice → result (list VirtualDeviceConfigSpec);
  (** [text/template]: parse [text] under [name] and execute it on the VM
      spec, or on the template data; the text itself when either step fails *)
  renderSpecTemplate : VirtualMachineSpec → string → string → string;
  renderDataTemplate : list IPConfig → list string → string → string → string;
  (** the three methods of [NetworkInterfaceInfoList] the engine calls *)
  GetVirtualDeviceList : list NetworkInterfaceInfo → list BaseVirtualDevice;
  GetInterfaceCustomizations : list NetworkInterfaceInfo → list CustomizationAdapterMapping;
  GetIPConfigs : list NetworkInterfaceInfo → list IPConfig;
}.

(** ** Collaborators, the call trace and the world *)

Inductive Call :=
| CallGetVirtualMachine
| CallGetProperties (props : list string)
| CallReconfigure (configSpec : VirtualMachineConfigSpec)
| CallSetPowerState (state : string)
| CallCustomize (customizationSpec : CustomizationSpec)
| CallInvokeFsr
| CallEnsureNetworkInterface (vif : VirtualMachineNetworkInterface)
| CallGetNameservers
| CallHostObjectName (host : string)
| CallIsVmMemberOfClusterModule (moduleUuid : string)
| CallAddVmToClusterModule (moduleUuid : string)
| CallAttachTagToVm (tagName tagCategoryName : string).

(** What each collaborator answers when called: a value, an error, or a
    panic of its own. *)
Record Collaborators := {
  GetVirtualMachine : result ResVirtualMachine;
  GetProperties : list string → result MoVirtualMachine;
  Reconfigure : VirtualMachineConfigSpec → result unit;
  SetPowerState : string → result unit;
  Customize : CustomizationSpec → result unit;
  invokeFsrVirtualMachine : result unit;
  EnsureNetworkInterface : VirtualMachineNetworkInterface → result NetworkInterfaceInfo;
  GetNameserversFromConfigMap : result (list string);
  HostObjectName : string → result string;
  IsVmMemberOfClusterModule : string → result bool;
  AddVmToClusterModule : string → result unit;
  AttachTagToVm : string → string → result unit;
}.

(** The calls of the hypervisor session that change the VM (section 6 of
    the design: Reconfigure, SetPowerState, Customize; the checkpoint
    save/restore is a task on the VM as well). *)
Definition isHypervisorWrite (c : Call) : bool :=
  match c with
  | CallReconfigure _ | CallSetPowerState _ | CallCustomize _ | CallInvokeFsr => true
  | _ => false
  end.

Definition isReconfigure (c : Call) : bool :=
  match c with CallReconfigure _ => true | _ => false end.

Definition isInvokeFsr (c : Call) : bool :=
  match c with CallInvokeFsr => true | _ => false end.

Definition isCustomize (c : Call) : bool :=
  match c with CallCustomize _ => true | _ => false end.

(** The calls of the affinity attacher. *)
Definition isAffinityCall (c : Call) : bool :=
  match c with
  | CallIsVmMemberOfClusterModule _ | CallAddVmToClusterModule _ | CallAttachTagToVm _ _ => true
  | _ => false
  end.

(** What a computation leaves behind: [vmCtx.VM.Status] as it then is, and
    the calls it issued, oldest first. *)
Record World := {
  status : VirtualMachineStatus;
  calls : list Call;
}.

(** A computation of the engine, run on the status it finds: it ends with a
    value, a returned error or a panic. *)
Definition M (A : Type) : Type := VirtualMachineStatus → result A * World.

Global Instance M_ret : MRet M := λ A a st, (Ok a, {| status := st; calls := [] |}).
Global Instance M_bind : MBind M := λ A B f m st,
  match m st with
  | (Ok a, w) =>
      let '(r, w') := f a (status w) in
      (r, {| status := status w'; calls := calls w ++ calls w' |})
  | (Err e, w) => (Err e, w)
  | (Panic, w) => (Panic, w)
  end.

(** A pure step that can fail or panic. *)
Definition liftResult {A} (r : result A) : M A := λ st, (r, {| status := st; calls := [] |}).

(** A call to a collaborator: logged, then answered. *)
Definition call {A} (c : Call) (answer : result A) : M A :=
  λ st, (answer, {| status := st; calls := [c] |}).

(** [x, err := f()] without an early return: the error becomes a value. *)
Definition attempt {A} (m : M A) : M (error + A) := λ st,
  match m st with
  | (Ok a, w) => (Ok (inr a), w)
  | (Err e, w) => (Ok (inl e), w)
  | (Panic, w) => (Panic, w)
  end.

Definition getStatus : M VirtualMachineStatus :=
  λ st, (Ok st, {| status := st; calls := [] |}).

Definition setStatus (f : VirtualMachineStatus → VirtualMachineStatus) : M unit :=
  λ st, (Ok tt, {| status := f st; calls := [] |}).

(** [return err] *)
Definition fail {A} (e : error) : M A := liftResult (Err e).

(** [k8serrors.NewAggregate]: nil for an empty list. *)
Definition NewAggregate (errs : list error) : option error :=
  match errs with
  | [] => None
  | _ => Some (Aggregate errs)
  end.

(** [return err] for an [err] that may be nil. *)
Definition returnError (err : option error) : M unit :=
  match err with
  | None => mret tt
  | Some e => fail e
  end.

(** Field updates of the config spec ([configSpec.F = v]). *)
Definition setAnnotation (v : string) (c : VirtualMachineConfigSpec) :=
  {| Annotation := v; NumCPUs := NumCPUs c; MemoryMB := MemoryMB c; ManagedBy := ManagedBy c;
     CpuAllocation := CpuAllocation c; MemoryAllocation := MemoryAllocation c;
     ExtraConfig := ExtraConfig c; VAppConfig := VAppConfig c;
     ChangeTrackingEnabled := ChangeTrackingEnabled c; DeviceChange := DeviceChange c |}.
Definition setNumCPUs (v : Z) (c : VirtualMachineConfigSpec) :=
  {| Annotation := Annotation c; NumCPUs := v; MemoryMB := MemoryMB c; ManagedBy := ManagedBy c;
     CpuAllocation := CpuAllocation c; MemoryAllocation := MemoryAllocation c;
     ExtraConfig := ExtraConfig c; VAppConfig := VAppConfig c;
     ChangeTrackingEnabled := ChangeTrackingEnabled c; DeviceChange := DeviceChange c |}.
Definition setMemoryMB (v : Z) (c : VirtualMachineConfigSpec) :=
  {| Annotation := Annotation c; NumCPUs := NumCPUs c; MemoryMB := v; ManagedBy := ManagedBy c;
     CpuAllocation := CpuAllocation c; MemoryAllocation := MemoryAllocation c;
     ExtraConfig := ExtraConfig c; VAppConfig := VAppConfig c;
     ChangeTrackingEnabled := ChangeTrackingEnabled c; DeviceChange := DeviceChange c |}.
Definition setManagedBy (v : option ManagedByInfo) (c : VirtualMachineConfigSpec) :=
  {| Annotation := Annotation c; NumCPUs := NumCPUs c; MemoryMB := MemoryMB c; ManagedBy := v;
     CpuAllocation := CpuAllocation c; MemoryAllocation := MemoryAllocation c;
     ExtraConfig := ExtraConfig c; VAppConfig := VAppConfig c;
     ChangeTrackingEnabled := ChangeTrackingEnabled c; DeviceChange := DeviceChange c |}.
Definition setCpuAllocation (v : option ResourceAllocationInfo) (c : VirtualMachineConfigSpec) :=
  {| Annotation := Annotation c; NumCPUs := NumCPUs c; MemoryMB := MemoryMB c;
     ManagedBy := ManagedBy c; CpuAllocation := v; MemoryAllocation := MemoryAllocation c;
     ExtraConfig := ExtraConfig c; VAppConfig := VAppConfig c;
     ChangeTrackingEnabled := ChangeTrackingEnabled c; DeviceChange := DeviceChange c |}.
Definition setMemoryAllocation (v : option ResourceAllocationInfo) (c : VirtualMachineConfigSpec) :=
  {| Annotation := Annotation c; NumCPUs := NumCPUs c; MemoryMB := MemoryMB c;
     ManagedBy := ManagedBy c; CpuAllocation := CpuAllocation c; MemoryAllocation := v;
     ExtraConfig := ExtraConfig c; VAppConfig := VAppConfig c;
     ChangeTrackingEnabled := ChangeTrackingEnabled c; DeviceChange := DeviceChange c |}.
Definition setExtraConfig (v : list BaseOptionValue) (c : VirtualMachineConfigSpec) :=
  {| Annotation := Annotation c; NumCPUs := NumCPUs c; MemoryMB := MemoryMB c;
     ManagedBy := ManagedBy c; CpuAllocation := CpuAllocation c;
     MemoryAllocation := MemoryAllocation c; ExtraConfig := v; VAppConfig := VAppConfig c;
     ChangeTrackingEnabled := ChangeTrackingEnabled c; DeviceChange := DeviceChange c |}.
Definition setVAppConfig (v : option VmConfigSpec) (c : VirtualMachineConfigSpec) :=
  {| Annotation := Annotation c; NumCPUs := NumCPUs c; MemoryMB := MemoryMB c;
     ManagedBy := ManagedBy c; CpuAllocation := CpuAllocation c;
     MemoryAllocation := MemoryAllocation c; ExtraConfig := ExtraConfig c; VAppConfig := v;
     ChangeTrackingEnabled := ChangeTrackingEnabled c; DeviceChange := DeviceChange c |}.
Definition setChangeTrackingEnabled (v : option bool) (c : VirtualMachineConfigSpec) :=
  {| Annotation := Annotation c; NumCPUs := NumCPUs c; MemoryMB := MemoryMB c;
     ManagedBy := ManagedBy c; CpuAllocation := CpuAllocation c;
     MemoryAllocation := MemoryAllocation c; ExtraConfig := ExtraConfig c;
     VAppConfig := VAppConfig c; ChangeTrackingEnabled := v; DeviceChange := DeviceChange c |}.
Definition setDeviceChange (v : list VirtualDeviceConfigSpec) (c : VirtualMachineConfigSpec) :=
  {| Annotation := Annotation c; NumCPUs := NumCPUs c; MemoryMB := MemoryMB c;
     ManagedBy := ManagedBy c; CpuAllocation := CpuAllocation c;
     MemoryAllocation := MemoryAllocation c; ExtraConfig := ExtraConfig c;
     VAppConfig := VAppConfig c; ChangeTrackingEnabled := ChangeTrackingEnabled c;
     DeviceChange := v |}.

(** [isCustomizationPendingError] (lines 40-47) *)
Definition isCustomizationPendingError (err : error) : bool :=
  match err with
  | TaskError CustomizationPending => true
  | _ => false
  end.

(** [object.VirtualDeviceList.SelectByType] for the three types asked for. *)
Definition isDisk (dev : BaseVirtualDevice) : bool :=
  match dev with DiskDevice _ => true | _ => false end.

Definition isPCIPassthroughType (dev : BaseVirtualDevice) : bool :=
  match dev with PCIPassthroughDevice _ => true | _ => false end.

Definition SelectByType (ofType : BaseVirtualDevice → bool) (l : list BaseVirtualDevice)
    : list BaseVirtualDevice :=
  List.filter ofType l.

(** [dev.GetVirtualDevice().Key = deviceKey] *)
Definition setDeviceKey (deviceKey : Z) (dev : BaseVirtualDevice) : BaseVirtualDevice :=
  let setKey d := {| Key := deviceKey; Backing := Backing d |} in
  match dev with
  | EthernetCardDevice card =>
      EthernetCardDevice {| ethVirtualDevice := setKey (ethVirtualDevice card);
                            AddressType := AddressType card;
                            MacAddress := MacAddress card;
                            ExternalId := ExternalId card |}
  | PCIPassthroughDevice d => PCIPassthroughDevice (setKey d)
  | DiskDevice d => DiskDevice (setKey d)
  | OtherDevice d => OtherDevice (setKey d)
  end.

(** [ipCIDRNotation] (lines 857-859) *)
Definition ipCIDRNotation (ipAddress : string) (prefix : Z) : string :=
  ipAddress +:+ "/" +:+ pretty prefix.

(** [nicInfoToNetworkIfStatus] (lines 861-872); [nicInfo.IpConfig] is
    dereferenced without a nil check. *)
Definition nicInfoToNetworkIfStatus (nicInfo : GuestNicInfo) : result NetworkInterfaceStatus :=
  match IpConfig nicInfo with
  | None => Panic
  | Some ipAddresses =>
      Ok {| Connected := nicConnected nicInfo;
            nisMacAddress := nicMacAddress nicInfo;
            IpAddresses :=
              map (λ ipAddress, ipCIDRNotation (IpAddress ipAddress) (PrefixLength ipAddress))
                  ipAddresses |}
  end.

(** The loop over [guest.Net] in [updateVMStatus]. *)
Fixpoint networkIfStatusesOf (nics : list GuestNicInfo) : result (list NetworkInterfaceStatus) :=
  match nics with
  | [] => Ok []
  | nicInfo :: rest =>
      st ← nicInfoToNetworkIfStatus nicInfo;
      sts ← networkIfStatusesOf rest;
      Ok (st :: sts)
  end.

(** The loop of [ensureCNSVolumes] (lines 692-718) over the spec's volumes,
    given the volume statuses. *)
Fixpoint findVolumeStatus (name : string) (statuses : list VirtualMachineVolumeStatus)
    : option VirtualMachineVolumeStatus :=
  match statuses with
  | [] => None
  | volumeStatus :: rest =>
      if bool_decide (volStatusName volumeStatus = name) then Some volumeStatus
      else findVolumeStatus name rest
  end.

Fixpoint checkCNSVolumes (volumes : list VirtualMachineVolume)
    (statuses : list VirtualMachineVolumeStatus) : option error :=
  match volumes with
  | [] => None
  | volume :: rest =>
      if negb (PersistentVolumeClaim volume) then checkCNSVolumes rest statuses
      else
        match findVolumeStatus (volName volume) statuses with
        | Some volumeStatus =>
            if negb (Attached volumeStatus)
            then Some (Errorf ("Persistent volume: " +:+ volName volume +:+ " not attached to VM"))
            else checkCNSVolumes rest statuses
        | None =>
            Some (Errorf ("Status update pending for persistent volume: "
                          +:+ volName volume +:+ " on VM"))
        end
  end.

(** [fakeUpClonedNetIfList] (lines 626-651) *)
Definition fakeUpClonedNetIfList (config : VirtualMachineConfigInfo) : list NetworkInterfaceInfo :=
  let currentEthCards := SelectByType isEthernetCard (hwDevice (config_Hardware config)) in
  omap (λ dev,
          match dev with
          | EthernetCardDevice card =>
              Some {| niDevice := dev;
                      niCustomization :=
                        Some {| camMacAddress := MacAddress card;
                                camIp := CustomizationDhcpIpGenerator |};
                      niIPConfiguration := {| ipcIP := ""; ipcGateway := "" |} |}
          | _ => None
          end)
       currentEthCards.

(** ** The engine *)
Section Engine.

Context (k : Constants) (s : Session) (h : Collaborators).

(** *** Customization gate (lines 29-92) *)

Fixpoint isCustomizationPendingExtraConfig (extraConfig : list BaseOptionValue) : result bool :=
  match extraConfig with
  | [] => Ok false
  | None :: rest => isCustomizationPendingExtraConfig rest
  | Some opt :: rest =>
      if bool_decide (optKey opt = GOSCPendingExtraConfigKey k) then
        match optValue opt with
        | AnyString value => Ok (negb (bool_decide (value = "")))
        | _ => Panic                 (* optValue.Value.(string) *)
        end
      else isCustomizationPendingExtraConfig rest
  end.

Definition customizationSpecOf (vm : VirtualMachine) (updateArgs : vmUpdateArgs)
    : CustomizationSpec :=
  {| HostName := Name vm;
     HwClockUTC := true;
     DnsServerList := DNSServers updateArgs;
     NicSettingMap := GetInterfaceCustomizations s (NetIfList updateArgs) |}.

Definition customizeVM (vm : VirtualMachine) (config : VirtualMachineConfigInfo)
    (updateArgs : vmUpdateArgs) : M unit :=
  if bool_decide (mapGet (Annotations vm) (VSphereCustomizationBypassKey k)
                  = VSphereCustomizationBypassDisable k)
  then mret tt
  else
    pending ← liftResult (isCustomizationPendingExtraConfig (config_ExtraConfig config));
    if pending : bool then mret tt
    else
      let customizationSpec := customizationSpecOf vm updateArgs in
      customized ← attempt (call (CallCustomize customizationSpec)
                                 (Customize h customizationSpec));
      match customized with
      | inl err => if negb (isCustomizationPendingError err) then fail err else mret tt
      | inr _ => mret tt
      end.

(** *** Config spec builders (lines 308-532) *)

(** [allocation == nil || allocation.F == nil || *allocation.F != v] *)
Definition allocationDiffers (allocation : option ResourceAllocationInfo)
    (field : ResourceAllocationInfo → option Z) (v : Z) : bool :=
  match allocation with
  | None => true
  | Some a =>
      match field a with
      | None => true
      | Some cur => negb (bool_decide (cur = v))
      end
  end.

Definition updateConfigSpecCPUAllocation (config : VirtualMachineConfigInfo)
    (configSpec : VirtualMachineConfigSpec) (vmClassSpec : VirtualMachineClassSpec)
    (minCPUFeq : Z) : VirtualMachineConfigSpec :=
  let cpuAllocation := config_CpuAllocation config in
  let cpuReservation :=
    if negb (IsZero (Cpu (Requests (Resources vmClassSpec)))) then
      let rsv := CpuQuantityToMhz s (Cpu (Requests (Resources vmClassSpec))) minCPUFeq in
      if allocationDiffers cpuAllocation Reservation rsv then Some rsv else None
    else None in
  let cpuLimit :=
    if negb (IsZero (Cpu (Limits (Resources vmClassSpec)))) then
      let lim := CpuQuantityToMhz s (Cpu (Limits (Resources vmClassSpec))) minCPUFeq in
      if allocationDiffers cpuAllocation Limit lim then Some lim else None
    else None in
  if bool_decide (cpuReservation ≠ None) || bool_decide (cpuLimit ≠ None) then
    setCpuAllocation (Some {| Reservation := cpuReservation; Limit := cpuLimit |}) configSpec
  else configSpec.

Definition updateConfigSpecMemoryAllocation (config : VirtualMachineConfigInfo)
    (configSpec : VirtualMachineConfigSpec) (vmClassSpec : VirtualMachineClassSpec)
    : VirtualMachineConfigSpec :=
  let memAllocation := config_MemoryAllocation config in
  let memoryReservation :=
    if negb (IsZero (Memory (Requests (Resources vmClassSpec)))) then
      let rsv := memoryQuantityToMb s (Memory (Requests (Resources vmClassSpec))) in
      if allocationDiffers memAllocation Reservation rsv then Some rsv else None
    else None in
  let memoryLimit :=
    if negb (IsZero (Memory (Limits (Resources vmClassSpec)))) then
      let lim := memoryQuantityToMb s (Memory (Limits (Resources vmClassSpec))) in
      if allocationDiffers memAllocation Limit lim then Some lim else None
    else None in
  if bool_decide (memoryReservation ≠ None) || bool_decide (memoryLimit ≠ None) then
    setMemoryAllocation
      (Some {| Reservation := memoryReservation; Limit := memoryLimit |}) configSpec
  else configSpec.

(** [setMMIOExtraConfig] (lines 442-451) *)
Definition setMMIOExtraConfig (vm : VirtualMachine) (extraConfig : gmap string string)
    : gmap string string :=
  let mmioSize := mapGet (Annotations vm) (PCIPassthruMMIOOverrideAnnotation k) in
  let mmioSize :=
    if bool_decide (mmioSize = "") then PCIPassthruMMIOSizeDefault k else mmioSize in
  if negb (bool_decide (mmioSize = "0")) then
    <[PCIPassthruMMIOSizeExtraConfigKey k := mmioSize]>
      (<[PCIPassthruMMIOExtraConfigKey k := ExtraConfigTrue k]> extraConfig)
  else extraConfig.

(** Lines 393-416: the desired table [extraConfig], built from the global
    table, the guest metadata and the passthrough keys. *)
Definition desiredExtraConfig (vmClassSpec : VirtualMachineClassSpec) (vm : VirtualMachine)
    (vmMetadata : option VmMetadata) (globalExtraConfig : gmap string string)
    : gmap string string :=
  let extraConfig :=
    map_imap (λ key v, Some (renderSpecTemplate s (Spec vm) key v)) globalExtraConfig in
  let extraConfig :=
    match vmMetadata with
    | Some md =>
        if bool_decide (Transport md = VirtualMachineMetadataExtraConfigTransport) then
          filter (λ kv, String.prefix (ExtraConfigGuestInfoPrefix k) kv.1 = true) (Data md)
            ∪ extraConfig
        else extraConfig
    | None => extraConfig
    end in
  if IsThunderPciDevicesFSSEnabled s then
    let virtualDevices := Devices (Hardware vmClassSpec) in
    let extraConfig :=
      if bool_decide (0 < length (DynamicDirectPathIODevices virtualDevices)) then
        <[MMPowerOffVMExtraConfigKey k := ExtraConfigTrue k]> extraConfig
      else extraConfig in
    if bool_decide (0 < length (VGPUDevices virtualDevices))
       || bool_decide (0 < length (DynamicDirectPathIODevices virtualDevices))
    then setMMIOExtraConfig vm extraConfig
    else extraConfig
  else extraConfig.

(** Lines 418-424: the map of the current extra config; a later entry of a
    key replaces an earlier one, and a value that is not a string panics. *)
Fixpoint currentExtraConfigFrom (opts : list BaseOptionValue)
    (currentExtraConfig : gmap string string) : result (gmap string string) :=
  match opts with
  | [] => Ok currentExtraConfig
  | None :: rest => currentExtraConfigFrom rest currentExtraConfig
  | Some opt :: rest =>
      match optValue opt with
      | AnyString value =>
          currentExtraConfigFrom rest (<[optKey opt := value]> currentExtraConfig)
      | _ => Panic
      end
  end.

Definition newOptionValue (key value : string) : BaseOptionValue :=
  Some {| optKey := key; optValue := AnyString value |}.

(** Lines 426-432: the entries of the desired table whose key the current
    config lacks. Go ranges over the map in an unspecified order; the model
    fixes the order of [map_to_list], and nothing below depends on it. *)
Definition missingExtraConfig (extraConfig currentExtraConfig : gmap string string)
    : list BaseOptionValue :=
  map (λ kv, newOptionValue kv.1 kv.2)
      (List.filter (λ kv, bool_decide (currentExtraConfig !! kv.1 = None))
                   (map_to_list extraConfig)).

Definition updateConfigSpecExtraConfig (config : VirtualMachineConfigInfo)
    (configSpec : VirtualMachineConfigSpec) (vmImageCompatible : bool)
    (vmClassSpec : VirtualMachineClassSpec) (vm : VirtualMachine)
    (vmMetadata : option VmMetadata) (globalExtraConfig : gmap string string)
    : result VirtualMachineConfigSpec :=
  let extraConfig := desiredExtraConfig vmClassSpec vm vmMetadata globalExtraConfig in
  currentExtraConfig ← currentExtraConfigFrom (config_ExtraConfig config) ∅;
  let configSpec :=
    setExtraConfig (ExtraConfig configSpec ++ missingExtraConfig extraConfig currentExtraConfig)
                   configSpec in
  if vmImageCompatible
     && bool_decide (mapGet currentExtraConfig (VMOperatorV1Alpha1ExtraConfigKey k)
                     = VMOperatorV1Alpha1ConfigReady k)
  then
    Ok (setExtraConfig
          (ExtraConfig configSpec
             ++ [newOptionValue (VMOperatorV1Alpha1ExtraConfigKey k)
                                (VMOperatorV1Alpha1ConfigEnabled k)])
          configSpec)
  else Ok configSpec.

Definition updateConfigSpecVAppConfig (config : VirtualMachineConfigInfo)
    (configSpec : VirtualMachineConfigSpec) (vmMetadata : option VmMetadata)
    : VirtualMachineConfigSpec :=
  match config_VAppConfig config, vmMetadata with
  | Some vAppConfig, Some md =>
      if negb (bool_decide (Transport md = VirtualMachineMetadataOvfEnvTransport))
      then configSpec
      else
        match vAppConfig with
        | None => configSpec
        | Some vAppConfigInfo =>
            match GetMergedvAppConfigSpec s (Data md) (Property vAppConfigInfo) with
            | Some vmConfigSpec => setVAppConfig (Some vmConfigSpec) configSpec
            | None => configSpec
            end
        end
  | _, _ => configSpec
  end.

Definition updateConfigSpecChangeBlockTracking (config : VirtualMachineConfigInfo)
    (configSpec : VirtualMachineConfigSpec) (vmSpec : VirtualMachineSpec)
    : VirtualMachineConfigSpec :=
  match AdvancedOptions vmSpec with
  | None | Some None => configSpec
  | Some (Some changeBlockTracking) =>
      if negb (bool_decide (config_ChangeTrackingEnabled config = Some changeBlockTracking))
      then setChangeTrackingEnabled (Some changeBlockTracking) configSpec
      else configSpec
  end.

Definition updateHardwareConfigSpec (config : VirtualMachineConfigInfo)
    (configSpec : VirtualMachineConfigSpec) (vmClassSpec : VirtualMachineClassSpec)
    : VirtualMachineConfigSpec :=
  let configSpec :=
    if negb (bool_decide (config_Annotation config = VCVMAnnotation k))
    then setAnnotation (VCVMAnnotation k) configSpec else configSpec in
  let nCPUs := wrap32 (Cpus (Hardware vmClassSpec)) in
  let configSpec :=
    if negb (bool_decide (NumCPU (config_Hardware config) = nCPUs))
    then setNumCPUs nCPUs configSpec else configSpec in
  let memMB := memoryQuantityToMb s (classMemory (Hardware vmClassSpec)) in
  let configSpec :=
    if negb (bool_decide (hwMemoryMB (config_Hardware config) = memMB))
    then setMemoryMB memMB configSpec else configSpec in
  match config_ManagedBy config with
  | None =>
      setManagedBy (Some {| ExtensionKey := "com.vmware.vcenter.wcp";
                            managedByType := "VirtualMachine" |}) configSpec
  | Some _ => configSpec
  end.

Definition updateConfigSpec (vm : VirtualMachine) (config : VirtualMachineConfigInfo)
    (vmImageCompatible : bool) (vmClassSpec : VirtualMachineClassSpec)
    (vmMetadata : option VmMetadata) (globalExtraConfig : gmap string string)
    (minCPUFreq : Z) : result VirtualMachineConfigSpec :=
  let configSpec := defaultConfigSpec in
  let configSpec := updateHardwareConfigSpec config configSpec vmClassSpec in
  let configSpec := updateConfigSpecCPUAllocation config configSpec vmClassSpec minCPUFreq in
  let configSpec := updateConfigSpecMemoryAllocation config configSpec vmClassSpec in
  configSpec ← updateConfigSpecExtraConfig config configSpec vmImageCompatible vmClassSpec vm
                 vmMetadata globalExtraConfig;
  let configSpec := updateConfigSpecVAppConfig config configSpec vmMetadata in
  let configSpec := updateConfigSpecChangeBlockTracking config configSpec (Spec vm) in
  Ok configSpec.

(** *** Pre-power-on reconfigure (lines 534-601) *)

Definition prePowerOnVMConfigSpec (vm : VirtualMachine) (config : VirtualMachineConfigInfo)
    (updateArgs : vmUpdateArgs) : result VirtualMachineConfigSpec :=
  let args := updateVmConfigArgs updateArgs in
  configSpec ← updateConfigSpec vm config (VmImageV1Alpha1Compatible args) (VmClassSpec args)
                 (VmMetadataOf args) (s_extraConfig s) (GetCpuMinMHzInCluster s);
  let virtualDevices := hwDevice (config_Hardware config) in
  let currentDisks := SelectByType isDisk virtualDevices in
  let currentEthCards := SelectByType isEthernetCard virtualDevices in
  diskDeviceChanges ← updateVirtualDiskDeviceChanges s vm currentDisks;
  let configSpec := setDeviceChange (DeviceChange configSpec ++ diskDeviceChanges) configSpec in
  let expectedEthCards := GetVirtualDeviceList s (NetIfList updateArgs) in
  ethCardDeviceChanges ← updateEthCardDeviceChanges expectedEthCards currentEthCards;
  let configSpec := setDeviceChange (DeviceChange configSpec ++ ethCardDeviceChanges) configSpec in
  if IsThunderPciDevicesFSSEnabled s then
    let currentPciDevices := SelectByType isPCIPassthroughType virtualDevices in
    let expectedPciDevices := createPCIDevices (Devices (Hardware (VmClassSpec args))) in
    pciDeviceChanges ← updatePCIDeviceChanges expectedPciDevices currentPciDevices;
    Ok (setDeviceChange (DeviceChange configSpec ++ pciDeviceChanges) configSpec)
  else Ok configSpec.

Definition prePowerOnVMReconfigure (vm : VirtualMachine) (config : VirtualMachineConfigInfo)
    (updateArgs : vmUpdateArgs) : M unit :=
  configSpec ← liftResult (prePowerOnVMConfigSpec vm config updateArgs);
  if negb (DeepEqual configSpec defaultConfigSpec) then
    call (CallReconfigure configSpec) (Reconfigure h configSpec)
  else mret tt.

(** *** Preparing the power-on (lines 603-778) *)

Fixpoint ensureNetworkInterfacesFrom (deviceKey : Z)
    (vifs : list VirtualMachineNetworkInterface) : M (list NetworkInterfaceInfo) :=
  match vifs with
  | [] => mret []
  | vif :: rest =>
      info ← call (CallEnsureNetworkInterface vif) (EnsureNetworkInterface h vif);
      let info := {| niDevice := setDeviceKey deviceKey (niDevice info);
                     niCustomization := niCustomization info;
                     niIPConfiguration := niIPConfiguration info |} in
      infos ← ensureNetworkInterfacesFrom (wrap32 (deviceKey - 1)) rest;
      mret (info :: infos)
  end.

Definition ensureNetworkInterfaces (vm : VirtualMachine) : M (list NetworkInterfaceInfo) :=
  ensureNetworkInterfacesFrom (-100) (NetworkInterfaces (Spec vm)).

(** [updateVmConfigArgsTemplates] (lines 662-690) writes the rendered values
    into the metadata map the arguments point to; the model returns the
    arguments with that map. *)
Definition updateVmConfigArgsTemplates (updateArgs : vmUpdateArgs) : vmUpdateArgs :=
  let render := renderDataTemplate s (GetIPConfigs s (NetIfList updateArgs))
                                   (DNSServers updateArgs) in
  let args := updateVmConfigArgs updateArgs in
  match VmMetadataOf args with
  | None => updateArgs
  | Some md =>
      let md := {| Data := map_imap (λ key val, Some (render key val)) (Data md);
                   Transport := Transport md |} in
      {| updateVmConfigArgs :=
           {| VmClassSpec := VmClassSpec args;
              VmImageV1Alpha1Compatible := VmImageV1Alpha1Compatible args;
              VmMetadataOf := Some md;
              ResourcePolicy := ResourcePolicy args |};
         NetIfList := NetIfList updateArgs;
         DNSServers := DNSServers updateArgs |}
  end.

Definition ensureCNSVolumes (vm : VirtualMachine) : M unit :=
  st ← getStatus;
  returnError (checkCNSVolumes (Volumes (Spec vm)) (status_Volumes st)).

Definition prepareVMForPowerOn (vm : VirtualMachine) (config : VirtualMachineConfigInfo)
    (vmConfigArgs : VmConfigArgs) : M unit :=
  netIfList ← ensureNetworkInterfaces vm;
  let netIfList :=
    if bool_decide (length netIfList = 0) then fakeUpClonedNetIfList config else netIfList in
  nameservers ← attempt (call CallGetNameservers (GetNameserversFromConfigMap h));
  let dnsServers := match nameservers with inr l => l | inl _ => [] end in
  let updateArgs := {| updateVmConfigArgs := vmConfigArgs;
                       NetIfList := netIfList;
                       DNSServers := dnsServers |} in
  let updateArgs :=
    if IsVMServiceV1Alpha2FSSEnabled s then updateVmConfigArgsTemplates updateArgs
    else updateArgs in
  _ ← prePowerOnVMReconfigure vm config updateArgs;
  _ ← customizeVM vm config updateArgs;
  ensureCNSVolumes vm.

(** *** Powered-on reconfigure (lines 780-808) *)

Definition poweredOnVMConfigSpec (vm : VirtualMachine) (config : VirtualMachineConfigInfo)
    : VirtualMachineConfigSpec :=
  updateConfigSpecChangeBlockTracking config defaultConfigSpec (Spec vm).

Definition poweredOnVMReconfigure (vm : VirtualMachine) (config : VirtualMachineConfigInfo)
    : M unit :=
  let configSpec := poweredOnVMConfigSpec vm config in
  if negb (DeepEqual configSpec defaultConfigSpec) then
    _ ← call (CallReconfigure configSpec) (Reconfigure h configSpec);
    match ChangeTrackingEnabled configSpec with
    | Some _ => call CallInvokeFsr (invokeFsrVirtualMachine h)
    | None => mret tt
    end
  else mret tt.

(** *** Affinity attachment (lines 810-855) *)

Fixpoint findModuleUuid (clusterModuleName : string) (modules : list ClusterModuleStatus)
    : string :=
  match modules with
  | [] => ""
  | clusterModule :: rest =>
      if bool_decide (GroupName clusterModule = clusterModuleName)
      then ModuleUuid clusterModule
      else findModuleUuid clusterModuleName rest
  end.

Definition attachTagsAndModules (vm : VirtualMachine) (resVM : ResVirtualMachine)
    (resourcePolicy : option VirtualMachineSetResourcePolicy) : M unit :=
  let clusterModuleName := mapGet (Annotations vm) (ClusterModuleNameKey k) in
  let providerTagsName := mapGet (Annotations vm) (ProviderTagsAnnotationKey k) in
  if bool_decide (clusterModuleName = "") || bool_decide (providerTagsName = "") then mret tt
  else
    match resourcePolicy with
    | None => liftResult Panic       (* resourcePolicy.Status of a nil pointer *)
    | Some policy =>
        let moduleUuid := findModuleUuid clusterModuleName (ClusterModules policy) in
        if bool_decide (moduleUuid = "") then
          fail (Errorf ("ClusterModule " +:+ clusterModuleName +:+ " to not found"))
        else
          isMember ← call (CallIsVmMemberOfClusterModule moduleUuid)
                          (IsVmMemberOfClusterModule h moduleUuid);
          _ ← (if negb isMember
               then call (CallAddVmToClusterModule moduleUuid) (AddVmToClusterModule h moduleUuid)
               else mret tt);
          let tagName := mapGet (s_tagInfo s) providerTagsName in
          let tagCategoryName := mapGet (s_tagInfo s) (ProviderTagCategoryNameKey k) in
          call (CallAttachTagToVm tagName tagCategoryName)
               (AttachTagToVm h tagName tagCategoryName)
    end.

(** *** Status projection (lines 874-931) *)

(** The five assignments of lines 890-894. *)
Definition setStatusIdentity (powerState uniqueID biosUUID instanceUUID : string)
    (st : VirtualMachineStatus) : VirtualMachineStatus :=
  {| Phase := Created;
     status_PowerState := powerState;
     UniqueID := uniqueID;
     BiosUUID := biosUUID;
     InstanceUUID := instanceUUID;
     Host := Host st;
     VmIp := VmIp st;
     status_NetworkInterfaces := status_NetworkInterfaces st;
     status_ChangeBlockTracking := status_ChangeBlockTracking st;
     status_Volumes := status_Volumes st |}.

Definition setStatusBiosUUID (biosUUID : string) (st : VirtualMachineStatus)
    : VirtualMachineStatus :=
  {| Phase := Phase st;
     status_PowerState := status_PowerState st;
     UniqueID := UniqueID st;
     BiosUUID := biosUUID;
     InstanceUUID := InstanceUUID st;
     Host := Host st;
     VmIp := VmIp st;
     status_NetworkInterfaces := status_NetworkInterfaces st;
     status_ChangeBlockTracking := status_ChangeBlockTracking st;
     status_Volumes := status_Volumes st |}.

Definition setStatusHost (host : string) (st : VirtualMachineStatus) : VirtualMachineStatus :=
  {| Phase := Phase st;
     status_PowerState := status_PowerState st;
     UniqueID := UniqueID st;
     BiosUUID := BiosUUID st;
     InstanceUUID := InstanceUUID st;
     Host := host;
     VmIp := VmIp st;
     status_NetworkInterfaces := status_NetworkInterfaces st;
     status_ChangeBlockTracking := status_ChangeBlockTracking st;
     status_Volumes := status_Volumes st |}.

Definition setStatusVmIp (vmIp : string) (st : VirtualMachineStatus) : VirtualMachineStatus :=
  {| Phase := Phase st;
     status_PowerState := status_PowerState st;
     UniqueID := UniqueID st;
     BiosUUID := BiosUUID st;
     InstanceUUID := InstanceUUID st;
     Host := Host st;
     VmIp := vmIp;
     status_NetworkInterfaces := status_NetworkInterfaces st;
     status_ChangeBlockTracking := status_ChangeBlockTracking st;
     status_Volumes := status_Volumes st |}.

Definition setStatusNetworkInterfaces (l : list NetworkInterfaceStatus)
    (st : VirtualMachineStatus) : VirtualMachineStatus :=
  {| Phase := Phase st;
     status_PowerState := status_PowerState st;
     UniqueID := UniqueID st;
     BiosUUID := BiosUUID st;
     InstanceUUID := InstanceUUID st;
     Host := Host st;
     VmIp := VmIp st;
     status_NetworkInterfaces := l;
     status_ChangeBlockTracking := status_ChangeBlockTracking st;
     status_Volumes := status_Volumes st |}.

Definition setStatusChangeBlockTracking (cbt : option bool) (st : VirtualMachineStatus)
    : VirtualMachineStatus :=
  {| Phase := Phase st;
     status_PowerState := status_PowerState st;
     UniqueID := UniqueID st;
     BiosUUID := BiosUUID st;
     InstanceUUID := InstanceUUID st;
     Host := Host st;
     VmIp := VmIp st;
     status_NetworkInterfaces := status_NetworkInterfaces st;
     status_ChangeBlockTracking := cbt;
     status_Volumes := status_Volumes st |}.

Definition statusProperties : list string :=
  ["config.changeTrackingEnabled"; "guest"; "summary"].

(** Lines 896-906: the host name. A failed lookup leaves [Status.Host] as
    it is and is collected in [errs]. *)
Definition projectHost (summary : VirtualMachineSummary) : M (list error) :=
  match runtime_Host (summary_Runtime summary) with
  | Some host =>
      looked ← attempt (call (CallHostObjectName host) (HostObjectName h host));
      match looked with
      | inl err => mret [err]
      | inr hostName => _ ← setStatus (setStatusHost hostName); mret []
      end
  | None => _ ← setStatus (setStatusHost ""); mret []
  end.

(** Lines 908-918: guest IP and the per-NIC statuses. *)
Definition projectGuest (guest : option GuestInfo) : M unit :=
  match guest with
  | Some guest =>
      _ ← setStatus (setStatusVmIp (guestIpAddress guest));
      networkIfStatuses ← liftResult (networkIfStatusesOf (Net guest));
      setStatus (setStatusNetworkInterfaces networkIfStatuses)
  | None =>
      _ ← setStatus (setStatusVmIp "");
      setStatus (setStatusNetworkInterfaces [])
  end.

(** Lines 920-924: change-block tracking. *)
Definition projectChangeBlockTracking (config : option VirtualMachineConfigInfo) : M unit :=
  setStatus (setStatusChangeBlockTracking
               (match config with
                | Some config => config_ChangeTrackingEnabled config
                | None => None
                end)).

Definition updateVMStatus (vm : VirtualMachine) (resVM : ResVirtualMachine) : M unit :=
  moVM ← call (CallGetProperties statusProperties) (GetProperties h statusProperties);
  let summary := mo_Summary moVM in
  _ ← setStatus (setStatusIdentity (runtime_PowerState (summary_Runtime summary))
                                   (MoRefValue resVM)
                                   (summary_Uuid summary)
                                   (summary_InstanceUuid summary));
  errs ← projectHost summary;
  _ ← projectGuest (mo_Guest moVM);
  _ ← projectChangeBlockTracking (mo_Config moVM);
  returnError (NewAggregate errs).

(** *** The convergence pass (lines 933-1000) *)

Definition configProperties : list string := ["config"; "runtime"].

Definition UpdateVirtualMachine (vm : VirtualMachine) (vmConfigArgs : VmConfigArgs) : M unit :=
  resVM ← call CallGetVirtualMachine (GetVirtualMachine h);
  moVM ← call (CallGetProperties configProperties) (GetProperties h configProperties);
  let isOff := bool_decide (runtime_PowerState (mo_Runtime moVM) = VirtualMachinePoweredOff) in
  (* vmCtx.VM.Status.BiosUUID = moVM.Config.Uuid, with no nil check on Config *)
  biosUUID ← liftResult (match mo_Config moVM with
                         | Some config => Ok (config_Uuid config)
                         | None => Panic
                         end);
  _ ← setStatus (setStatusBiosUUID biosUUID);
  _ ← (if bool_decide (PowerState (Spec vm) = VirtualMachinePoweredOff) then
         if negb isOff
         then call (CallSetPowerState VirtualMachinePoweredOff)
                   (SetPowerState h VirtualMachinePoweredOff)
         else mret tt
       else if bool_decide (PowerState (Spec vm) = VirtualMachinePoweredOn) then
         match mo_Config moVM with
         | None =>
             fail (Errorf ("VM config is not available, connectionState="
                           +:+ ConnectionState (mo_Runtime moVM)))
         | Some config =>
             if isOff then
               _ ← prepareVMForPowerOn vm config vmConfigArgs;
               call (CallSetPowerState VirtualMachinePoweredOn)
                    (SetPowerState h VirtualMachinePoweredOn)
             else poweredOnVMReconfigure vm config
         end
       else mret tt);
  _ ← updateVMStatus vm resVM;
  attachTagsAndModules vm resVM (ResourcePolicy vmConfigArgs).

End Engine.

(** The hypervisor writes among the calls of a trace. *)
Definition hypervisorWrites (trace : list Call) : list Call :=
  List.filter isHypervisorWrite trace.

(** The calls of the affinity attacher among the calls of a trace. *)
Definition affinityCalls (trace : list Call) : list Call :=
  List.filter isAffinityCall trace.

(** ** Notions used in the statements *)

(** In a change list, every Remove comes before every Add. *)
Definition RemovesBeforeAdds (changes : list VirtualDeviceConfigSpec) : Prop :=
  ∀ i j a r,
    changes !! i = Some a → changes !! j = Some r →
    Operation a = VirtualDeviceConfigSpecOperationAdd →
    Operation r = VirtualDeviceConfigSpecOperationRemove →
    j < i.

(** The shape of a matcher's change list: with [m] expected devices matched,
    [length current - m] Removes and [length expected - m] Adds; Adds come
    from the expected list, Removes from the current list, and no added
    device is one the scan would have paired with a removed device. *)
Definition MatcherSymmetry
    (scan : BaseVirtualDevice → list BaseVirtualDevice → result (option nat))
    (pairs : BaseVirtualDevice → BaseVirtualDevice → bool)
    (expected current : list BaseVirtualDevice)
    (changes : list VirtualDeviceConfigSpec) : Prop :=
  let m := matchedCount scan expected current in
  m ≤ length expected
  ∧ m ≤ length current
  ∧ length changes = (length current - m) + (length expected - m)
  ∧ (∀ c, c ∈ changes → ∃ d, c = addChange d ∨ c = removeChange d)
  ∧ (∀ d, addChange d ∈ changes → d ∈ expected)
  ∧ (∀ d, removeChange d ∈ changes → d ∈ current)
  ∧ (∀ a r, addChange a ∈ changes → removeChange r ∈ changes → pairs a r = false).

(** Two network backings of the same kind that name the same network. *)
Inductive SameNetworkBacking : option BackingInfo → option BackingInfo → Prop :=
| SameNetwork deviceName :
    SameNetworkBacking (Some (VirtualEthernetCardNetworkBackingInfo deviceName))
                       (Some (VirtualEthernetCardNetworkBackingInfo deviceName))
| SameDistributedVirtualPort switchUuid portgroupKey :
    SameNetworkBacking
      (Some (VirtualEthernetCardDistributedVirtualPortBackingInfo switchUuid portgroupKey))
      (Some (VirtualEthernetCardDistributedVirtualPortBackingInfo switchUuid portgroupKey))
| SameOpaqueNetwork opaqueNetworkId :
    SameNetworkBacking (Some (VirtualEthernetCardOpaqueNetworkBackingInfo opaqueNetworkId))
                       (Some (VirtualEthernetCardOpaqueNetworkBackingInfo opaqueNetworkId)).

(** ** Concrete inputs of the examples *)

Definition exampleNic (key : Z) (addressType mac externalId : string)
    (backing : option BackingInfo) : VirtualEthernetCard :=
  {| ethVirtualDevice := {| Key := key; Backing := backing |};
     AddressType := addressType;
     MacAddress := mac;
     ExternalId := externalId |}.

(** A card the hypervisor reports without a backing. *)
Definition nicWithoutBacking : BaseVirtualDevice :=
  EthernetCardDevice (exampleNic 4000 "generated" "00:50:56:00:00:01" "" None).

Definition nicOnNetA : VirtualEthernetCard :=
  exampleNic (-100) "manual" "aa:bb" "" (Some (VirtualEthernetCardNetworkBackingInfo "net-a")).

Definition nicOnNetB : VirtualEthernetCard :=
  exampleNic 4000 "assigned" "aa:bb" "" (Some (VirtualEthernetCardNetworkBackingInfo "net-b")).

Definition nicOnNetA' : VirtualEthernetCard :=
  exampleNic 4000 "assigned" "aa:bb" "" (Some (VirtualEthernetCardNetworkBackingInfo "net-a")).

Definition vgpuProfileA (key : Z) : BaseVirtualDevice :=
  PCIPassthroughDevice
    {| Key := key; Backing := Some (VirtualPCIPassthroughVmiopBackingInfo "profileA") |}.

(** The package's constants, with the values the examples run on. *)
Definition exampleConstants : Constants := {|
  GOSCPendingExtraConfigKey := "tools.deployPkg.fileName";
  VSphereCustomizationBypassKey := "vmoperator.vmware.com/vsphere-customization";
  VSphereCustomizationBypassDisable := "disable";
  ExtraConfigGuestInfoPrefix := "guestinfo.";
  ExtraConfigTrue := "TRUE";
  MMPowerOffVMExtraConfigKey := "maintenance.vm.evacuation.poweroff";
  PCIPassthruMMIOOverrideAnnotation := "vmoperator.vmware.com/pci-passthru-64bit-mmio-size";
  PCIPassthruMMIOSizeDefault := "512";
  PCIPassthruMMIOExtraConfigKey := "pciPassthru.use64bitMMIO";
  PCIPassthruMMIOSizeExtraConfigKey := "pciPassthru.64bitMMIOSizeGB";
  VMOperatorV1Alpha1ExtraConfigKey := "guestinfo.vmservice.defer-cloud-init";
  VMOperatorV1Alpha1ConfigReady := "ready";
  VMOperatorV1Alpha1ConfigEnabled := "enabled";
  VCVMAnnotation := "Virtual Machine managed by the vSphere Virtual Machine service";
  ClusterModuleNameKey := "vsphere-cluster-module-group";
  ProviderTagsAnnotationKey := "vsphere-tag";
  ProviderTagCategoryNameKey := "ProviderTagCategoryName";
|}.

(** A session with the given global table, templates that render to their
    own text, no disk change to make, nothing to merge into the vApp
    properties, and interface lists that hand out their devices,
    customizations and IP configurations in order. *)
Definition exampleSession (pciDevicesEnabled : bool) (globalExtraConfig : gmap string string)
    : Session := {|
  s_extraConfig := globalExtraConfig;
  s_tagInfo := {[ "WorkerVmVmAATag" := "worker-tag";
                   "ProviderTagCategoryName" := "worker-category" ]};
  GetCpuMinMHzInCluster := 2000;
  IsThunderPciDevicesFSSEnabled := pciDevicesEnabled;
  IsVMServiceV1Alpha2FSSEnabled := false;
  CpuQuantityToMhz := λ q freq, (q * freq / 1000)%Z;
  memoryQuantityToMb := λ q, (q / 1000)%Z;
  GetMergedvAppConfigSpec := λ _ _, None;
  updateVirtualDiskDeviceChanges := λ _ _, Ok [];
  renderSpecTemplate := λ _ _ text, text;
  renderDataTemplate := λ _ _ _ text, text;
  GetVirtualDeviceList := map niDevice;
  GetInterfaceCustomizations := omap niCustomization;
  GetIPConfigs := map niIPConfiguration;
|}.

(** A class of 2 CPUs and 1024 MB with no resource policy and no device. *)
Definition exampleClassSpec (devices : VirtualDevices) : VirtualMachineClassSpec := {|
  Hardware := {| Cpus := 2; classMemory := 1024000%Z; Devices := devices |};
  Resources := {| Requests := {| Cpu := 0%Z; Memory := 0%Z |};
                  Limits := {| Cpu := 0%Z; Memory := 0%Z |} |};
|}.

Definition exampleArgs (compatible : bool) (devices : VirtualDevices) : VmConfigArgs := {|
  VmClassSpec := exampleClassSpec devices;
  VmImageV1Alpha1Compatible := compatible;
  VmMetadataOf := None;
  ResourcePolicy := Some {| ClusterModules := [{| GroupName := "workers";
                                                  ModuleUuid := "module-1" |}] |};
|}.

Definition exampleVM (powerState : string) (annotations : gmap string string)
    (changeBlockTracking : option (option bool)) : VirtualMachine := {|
  Name := "vm-1";
  Annotations := annotations;
  Spec := {| PowerState := powerState;
             NetworkInterfaces := [];
             Volumes := [];
             AdvancedOptions := changeBlockTracking |};
|}.

(** A config that already carries the class's hardware and the managed-by
    marker. *)
Definition exampleConfig (devices : list BaseVirtualDevice)
    (extraConfig : list BaseOptionValue) (changeTracking : option bool)
    : VirtualMachineConfigInfo := {|
  config_Uuid := "4210-bios";
  config_Annotation := VCVMAnnotation exampleConstants;
  config_Hardware := {| NumCPU := 2; hwMemoryMB := 1024; hwDevice := devices |};
  config_ManagedBy := Some {| ExtensionKey := "com.vmware.vcenter.wcp";
                              managedByType := "VirtualMachine" |};
  config_CpuAllocation := None;
  config_MemoryAllocation := None;
  config_ExtraConfig := extraConfig;
  config_VAppConfig := None;
  config_ChangeTrackingEnabled := changeTracking;
|}.

Definition exampleStatus : VirtualMachineStatus := {|
  Phase := "";
  status_PowerState := "";
  UniqueID := "";
  BiosUUID := "";
  InstanceUUID := "";
  Host := "host-old";
  VmIp := "";
  status_NetworkInterfaces := [];
  status_ChangeBlockTracking := None;
  status_Volumes := [];
|}.

(** [m] issues no call that satisfies [P], whatever status it starts from. *)
Definition Avoids {A} (P : Call → bool) (m : M A) : Prop :=
  ∀ st, List.filter P (calls (m st).2) = [].

(** The keys of the entries of an extra config. *)
Definition extraConfigKeys (extraConfig : list BaseOptionValue) : list string :=
  omap (λ opt : BaseOptionValue, optKey <$> opt) extraConfig.

Definition exampleMoVM (config : option VirtualMachineConfigInfo) (powerState : string)
    (host : option string) (guest : option GuestInfo) : MoVirtualMachine := {|
  mo_Config := config;
  mo_Runtime := {| runtime_PowerState := powerState;
                   ConnectionState := "connected";
                   runtime_Host := host |};
  mo_Guest := guest;
  mo_Summary := {| summary_Runtime := {| runtime_PowerState := powerState;
                                         ConnectionState := "connected";
                                         runtime_Host := host |};
                   summary_Uuid := "4210-bios";
                   summary_InstanceUuid := "5010-instance" |};
|}.

(** Collaborators that answer the two property fetches, the host-name
    lookup, the reconfigure and the customization as given, and succeed
    otherwise. *)
Definition exampleCollaborators (configRuntime statusFetch : result MoVirtualMachine)
    (hostName : result string) (reconfigure customize : result unit) : Collaborators := {|
  GetVirtualMachine := Ok {| MoRefValue := "vm-42" |};
  GetProperties := λ props,
    if bool_decide (props = ["config"; "runtime"]) then configRuntime else statusFetch;
  Reconfigure := λ _, reconfigure;
  SetPowerState := λ _, Ok tt;
  Customize := λ _, customize;
  invokeFsrVirtualMachine := Ok tt;
  EnsureNetworkInterface := λ _, Err (ExternalError "no network provider");
  GetNameserversFromConfigMap := Ok ["10.0.0.2"];
  HostObjectName := λ _, hostName;
  IsVmMemberOfClusterModule := λ _, Ok false;
  AddVmToClusterModule := λ _, Ok tt;
  AttachTagToVm := λ _ _, Ok tt;
|}.

Definition exampleUpdateArgs : vmUpdateArgs := {|
  updateVmConfigArgs := exampleArgs false {| VGPUDevices := [];
                                             DynamicDirectPathIODevices := [] |};
  NetIfList := [];
  DNSServers := ["10.0.0.2"];
|}.

(** Lines 937-989 of [UpdateVirtualMachine]: everything before the status
    projection, returning the VM it looked up. *)
Definition convergePowerState (k : Constants) (s : Session) (h : Collaborators)
    (vm : VirtualMachine) (vmConfigArgs : VmConfigArgs) : M ResVirtualMachine :=
  resVM ← call CallGetVirtualMachine (GetVirtualMachine h);
  moVM ← call (CallGetProperties configProperties) (GetProperties h configProperties);
  let isOff := bool_decide (runtime_PowerState (mo_Runtime moVM) = VirtualMachinePoweredOff) in
  biosUUID ← liftResult (match mo_Config moVM with
                         | Some config => Ok (config_Uuid config)
                         | None => Panic
                         end);
  _ ← setStatus (setStatusBiosUUID biosUUID);
  _ ← (if bool_decide (PowerState (Spec vm) = VirtualMachinePoweredOff) then
         if negb isOff
         then call (CallSetPowerState VirtualMachinePoweredOff)
                   (SetPowerState h VirtualMachinePoweredOff)
         else mret tt
       else if bool_decide (PowerState (Spec vm) = VirtualMachinePoweredOn) then
         match mo_Config moVM with
         | None =>
             fail (Errorf ("VM config is not available, connectionState="
                           +:+ ConnectionState (mo_Runtime moVM)))
         | Some config =>
             if isOff then
               _ ← prepareVMForPowerOn k s h vm config vmConfigArgs;
               call (CallSetPowerState VirtualMachinePoweredOn)
                    (SetPowerState h VirtualMachinePoweredOn)
             else poweredOnVMReconfigure h vm config
         end
       else mret tt);
  mret resVM.

(** What status projection writes when the host-name lookup has failed:
    everything but [Host]. *)
Definition projectedWithoutHost (resVM : ResVirtualMachine) (moVM : MoVirtualMachine)
    (networkIfStatuses : list NetworkInterfaceStatus) (st : VirtualMachineStatus)
    : VirtualMachineStatus :=
  {| Phase := Created;
     status_PowerState := runtime_PowerState (summary_Runtime (mo_Summary moVM));
     UniqueID := MoRefValue resVM;
     BiosUUID := summary_Uuid (mo_Summary moVM);
     InstanceUUID := summary_InstanceUuid (mo_Summary moVM);
     Host := Host st;
     VmIp := match mo_Guest moVM with Some guest => guestIpAddress guest | None => "" end;
     status_NetworkInterfaces := networkIfStatuses;
     status_ChangeBlockTracking :=
       match mo_Config moVM with
       | Some config => config_ChangeTrackingEnabled config
       | None => None
       end;
     status_Volumes := status_Volumes st |}.

(** The per-NIC statuses of the guest, when every NIC has an IP
    configuration. *)
Definition guestNetworkIfStatuses (guest : option GuestInfo)
    : result (list NetworkInterfaceStatus) :=
  match guest with
  | Some guest => networkIfStatusesOf (Net guest)
  | None => Ok []
  end.

(** ** The desired state already reached *)

(** The class asks for no reservation or limit, or the allocation has it. *)
Definition AllocationSatisfied (allocation : option ResourceAllocationInfo)
    (request limit : Quantity) (convert : Quantity → Z) : Prop :=
  (request = 0%Z ∨ ∃ a, allocation = Some a ∧ Reservation a = Some (convert request))
  ∧ (limit = 0%Z ∨ ∃ a, allocation = Some a ∧ Limit a = Some (convert limit)).

(** The desired change-block tracking is unset, or is the current value. *)
Definition ChangeBlockTrackingSettled (vm : VirtualMachine) (config : VirtualMachineConfigInfo)
    : Prop :=
  AdvancedOptions (Spec vm) = None
  ∨ AdvancedOptions (Spec vm) = Some None
  ∨ AdvancedOptions (Spec vm) = Some (config_ChangeTrackingEnabled config).

(** The current config, as a powered-off VM about to be powered on has it,
    already equals the desired state: hardware and managed-by marker,
    allocations, every key of the desired extra-config table (and the
    compatibility key not waiting with its ready marker), vApp properties
    with nothing to merge, change-block tracking, disks with nothing to
    change, and, position by position, a current network adapter for every
    expected one and a current passthrough device for every one of the
    class, as the matchers pair them. *)
Record PrePowerOnConverged (k : Constants) (s : Session) (vm : VirtualMachine)
    (config : VirtualMachineConfigInfo) (updateArgs : vmUpdateArgs) : Prop := {
  converged_Annotation : config_Annotation config = VCVMAnnotation k;
  converged_NumCPU :
    NumCPU (config_Hardware config)
    = wrap32 (Cpus (Hardware (VmClassSpec (updateVmConfigArgs updateArgs))));
  converged_MemoryMB :
    hwMemoryMB (config_Hardware config)
    = memoryQuantityToMb s (classMemory (Hardware (VmClassSpec (updateVmConfigArgs updateArgs))));
  converged_ManagedBy : is_Some (config_ManagedBy config);
  converged_CpuAllocation :
    let resources := Resources (VmClassSpec (updateVmConfigArgs updateArgs)) in
    AllocationSatisfied (config_CpuAllocation config)
      (Cpu (Requests resources)) (Cpu (Limits resources))
      (λ q, CpuQuantityToMhz s q (GetCpuMinMHzInCluster s));
  converged_MemoryAllocation :
    let resources := Resources (VmClassSpec (updateVmConfigArgs updateArgs)) in
    AllocationSatisfied (config_MemoryAllocation config)
      (Memory (Requests resources)) (Memory (Limits resources))
      (memoryQuantityToMb s);
  converged_ExtraConfig_strings :
    ∀ opt, Some opt ∈ config_ExtraConfig config → ∃ value, optValue opt = AnyString value;
  converged_ExtraConfig_keys :
    ∀ key,
      is_Some (desiredExtraConfig k s (VmClassSpec (updateVmConfigArgs updateArgs)) vm
                 (VmMetadataOf (updateVmConfigArgs updateArgs)) (s_extraConfig s) !! key) →
      key ∈ extraConfigKeys (config_ExtraConfig config);
  converged_ExtraConfig_compatibility :
    VmImageV1Alpha1Compatible (updateVmConfigArgs updateArgs) = true →
    ∀ currentExtraConfig,
      currentExtraConfigFrom (config_ExtraConfig config) ∅ = Ok currentExtraConfig →
      mapGet currentExtraConfig (VMOperatorV1Alpha1ExtraConfigKey k)
      ≠ VMOperatorV1Alpha1ConfigReady k;
  converged_VAppConfig :
    ∀ vAppConfigInfo md,
      config_VAppConfig config = Some (Some vAppConfigInfo) →
      VmMetadataOf (updateVmConfigArgs updateArgs) = Some md →
      Transport md = VirtualMachineMetadataOvfEnvTransport →
      GetMergedvAppConfigSpec s (Data md) (Property vAppConfigInfo) = None;
  converged_ChangeBlockTracking : ChangeBlockTrackingSettled vm config;
  converged_disks :
    updateVirtualDiskDeviceChanges s vm
      (SelectByType isDisk (hwDevice (config_Hardware config))) = Ok [];
  converged_ethCards :
    Forall2 (λ expectedDev curDev, ethDeviceMatch expectedDev curDev = true)
      (GetVirtualDeviceList s (NetIfList updateArgs))
      (SelectByType isEthernetCard (hwDevice (config_Hardware config)));
  converged_pciDevices :
    IsThunderPciDevicesFSSEnabled s = true →
    Forall2 (λ expectedDev curDev, pciDeviceMatch expectedDev curDev = true)
      (createPCIDevices (Devices (Hardware (VmClassSpec (updateVmConfigArgs updateArgs)))))
      (SelectByType isPCIPassthroughType (hwDevice (config_Hardware config)));
}.

(** The power state the hypervisor reports is the desired one, and for a VM
    wanted on and found on the change-block tracking is settled. *)
Definition PowerStateConverged (vm : VirtualMachine) (moVM : MoVirtualMachine) : Prop :=
  (PowerState (Spec vm) = VirtualMachinePoweredOff →
   runtime_PowerState (mo_Runtime moVM) = VirtualMachinePoweredOff)
  ∧ (PowerState (Spec vm) = VirtualMachinePoweredOn →
     runtime_PowerState (mo_Runtime moVM) ≠ VirtualMachinePoweredOff
     ∧ ∀ config, mo_Config moVM = Some config → ChangeBlockTrackingSettled vm config).

(** ** Two passes in a row *)

(** Of a call that succeeds, what the next pass can observe in the power
    state and the change-tracking flag the hypervisor reports: a power
    operation sets the first, a reconfigure whose delta carries the flag
    sets the second. *)
Definition afterCall (seen : string * option bool) (c : Call) : string * option bool :=
  match c with
  | CallSetPowerState state => (state, seen.2)
  | CallReconfigure configSpec =>
      (seen.1, match ChangeTrackingEnabled configSpec with
               | Some enabled => Some enabled
               | None => seen.2
               end)
  | _ => seen
  end.

Definition afterCalls (seen : string * option bool) (trace : list Call) : string * option bool :=
  foldl afterCall seen trace.

Definition isObservedWrite (c : Call) : bool :=
  match c with
  | CallSetPowerState _ | CallReconfigure _ => true
  | _ => false
  end.

(** [moVM'] is what the hypervisor reports for a VM it reported as [moVM]
    before the calls of [trace], all successful, when nothing else has
    changed the VM in between. *)
Definition ReportedAfter (moVM : MoVirtualMachine) (trace : list Call)
    (moVM' : MoVirtualMachine) : Prop :=
  ∀ config,
    mo_Config moVM = Some config →
    let seen := afterCalls (runtime_PowerState (mo_Runtime moVM),
                            config_ChangeTrackingEnabled config) trace in
    runtime_PowerState (mo_Runtime moVM') = seen.1
    ∧ ∀ config', mo_Config moVM' = Some config' →
                 config_ChangeTrackingEnabled config' = seen.2.

(** The change-tracking flag once the desired one, if set, is in place. *)
Definition settledChangeTracking (vm : VirtualMachine) (config : VirtualMachineConfigInfo)
    : option bool :=
  match AdvancedOptions (Spec vm) with
  | Some (Some changeBlockTracking) => Some changeBlockTracking
  | _ => config_ChangeTrackingEnabled config
  end.

(** ** Notions used in the further properties *)

(** A passthrough device backed by the vGPU profile [profile]. *)
Definition isVGPU (profile : string) (dev : BaseVirtualDevice) : bool :=
  match dev with
  | PCIPassthroughDevice d =>
      bool_decide (Backing d = Some (VirtualPCIPassthroughVmiopBackingInfo profile))
  | _ => false
  end.

(** An Ethernet card on one of the three backings the network matcher
    compares. *)
Definition hasNetworkBacking (dev : BaseVirtualDevice) : bool :=
  match dev with
  | EthernetCardDevice card =>
      match Backing (ethVirtualDevice card) with
      | Some (VirtualEthernetCardNetworkBackingInfo _)
      | Some (VirtualEthernetCardDistributedVirtualPortBackingInfo _ _)
      | Some (VirtualEthernetCardOpaqueNetworkBackingInfo _) => true
      | _ => false
      end
  | _ => false
  end.

(** [dev.GetVirtualDevice().Key] *)
Definition deviceKey (dev : BaseVirtualDevice) : Z := Key (GetVirtualDevice dev).


(** [dev.GetVirtualDevice().Backing] *)
Definition backingOf (dev : BaseVirtualDevice) : option BackingInfo :=
  Backing (GetVirtualDevice dev).

(** The two shapes of backing [createPCIDevices] gives a device: a vGPU
    profile, or a dynamic backing with exactly one allowed device. *)
Definition isCreatedBacking (backing : option BackingInfo) : bool :=
  match backing with
  | Some (VirtualPCIPassthroughVmiopBackingInfo _)
  | Some (VirtualPCIPassthroughDynamicBackingInfo [_] _) => true
  | _ => false
  end.


(** [info.Device.GetVirtualDevice().Key = deviceKey] on what the network
    provider returned (lines 616-617). *)
Definition withDeviceKey (deviceKey : Z) (info : NetworkInterfaceInfo) : NetworkInterfaceInfo :=
  {| niDevice := setDeviceKey deviceKey (niDevice info);
     niCustomization := niCustomization info;
     niIPConfiguration := niIPConfiguration info |}.

(** The collaborators [h] with another network provider. *)
Definition withNetworkProvider
    (ensure : VirtualMachineNetworkInterface → result NetworkInterfaceInfo)
    (h : Collaborators) : Collaborators := {|
  GetVirtualMachine := GetVirtualMachine h;
  GetProperties := GetProperties h;
  Reconfigure := Reconfigure h;
  SetPowerState := SetPowerState h;
  Customize := Customize h;
  invokeFsrVirtualMachine := invokeFsrVirtualMachine h;
  EnsureNetworkInterface := ensure;
  GetNameserversFromConfigMap := GetNameserversFromConfigMap h;
  HostObjectName := HostObjectName h;
  IsVmMemberOfClusterModule := IsVmMemberOfClusterModule h;
  AddVmToClusterModule := AddVmToClusterModule h;
  AttachTagToVm := AttachTagToVm h;
|}.

(** The collaborators [h] with another answer of the DNS lookup. *)
Definition withNameservers (nameservers : result (list string)) (h : Collaborators)
    : Collaborators := {|
  GetVirtualMachine := GetVirtualMachine h;
  GetProperties := GetProperties h;
  Reconfigure := Reconfigure h;
  SetPowerState := SetPowerState h;
  Customize := Customize h;
  invokeFsrVirtualMachine := invokeFsrVirtualMachine h;
  EnsureNetworkInterface := EnsureNetworkInterface h;
  GetNameserversFromConfigMap := nameservers;
  HostObjectName := HostObjectName h;
  IsVmMemberOfClusterModule := IsVmMemberOfClusterModule h;
  AddVmToClusterModule := AddVmToClusterModule h;
  AttachTagToVm := AttachTagToVm h;
|}.

(** A network provider that knows the networks net-a and net-b and gives
    each card a key of its own choosing. *)
Definition exampleNetworkProvider (vif : VirtualMachineNetworkInterface)
    : result NetworkInterfaceInfo :=
  if bool_decide (NetworkName vif = "net-a") then
    Ok {| niDevice := EthernetCardDevice nicOnNetA';
          niCustomization := None;
          niIPConfiguration := {| ipcIP := "10.0.0.5"; ipcGateway := "10.0.0.1" |} |}
  else if bool_decide (NetworkName vif = "net-b") then
    Ok {| niDevice := EthernetCardDevice nicOnNetB;
          niCustomization := None;
          niIPConfiguration := {| ipcIP := "10.0.1.5"; ipcGateway := "10.0.1.1" |} |}
  else Err (ExternalError "network not found").

Definition exampleVif (networkName : string) : VirtualMachineNetworkInterface :=
  {| NetworkName := networkName; NetworkType := "vsphere-distributed" |}.

(** The example VM with the given interfaces and volumes in its spec. *)
Definition exampleVMWith (powerState : string)
    (vifs : list VirtualMachineNetworkInterface) (volumes : list VirtualMachineVolume)
    : VirtualMachine := {|
  Name := "vm-1";
  Annotations := ∅;
  Spec := {| PowerState := powerState;
             NetworkInterfaces := vifs;
             Volumes := volumes;
             AdvancedOptions := None |};
|}.


(** The volume status that counts for the volume [name]: the first one of
    that name says it is attached. *)
Definition AttachedByStatus (name : string) (statuses : list VirtualMachineVolumeStatus)
    : Prop :=
  ∃ i volumeStatus,
    statuses !! i = Some volumeStatus
    ∧ volStatusName volumeStatus = name
    ∧ Attached volumeStatus = true
    ∧ ∀ j earlier, j < i → statuses !! j = Some earlier → volStatusName earlier ≠ name.

(** What the host-name lookup of status projection gives: the name of the
    host the summary refers to, or the empty name when it refers to none. *)
Definition resolvedHost (h : Collaborators) (summary : VirtualMachineSummary) : result string :=
  match runtime_Host (summary_Runtime summary) with
  | Some host => HostObjectName h host
  | None => Ok ""
  end.

Definition hostLookups (summary : VirtualMachineSummary) : list Call :=
  match runtime_Host (summary_Runtime summary) with
  | Some host => [CallHostObjectName host]
  | None => []
  end.


Definition isSetPowerState (c : Call) : bool :=
  match c with CallSetPowerState _ => true | _ => false end.

(** [m] leaves the status as it found it, however it ends. *)
Definition KeepsStatus {A} (m : M A) : Prop := ∀ st, status (m st).2 = st.

(** A VM whose first volume is a persistent volume claim named data. *)
Definition exampleVMWithClaim : VirtualMachine :=
  exampleVMWith VirtualMachinePoweredOn []
                [{| volName := "data"; PersistentVolumeClaim := true |}].


(** What the delta says about an allocation: nothing when the class's
    request and limit are met, and otherwise only the fields that differ,
    each with the class's value. A field the class leaves at zero, or one
    the VM already has at the class's value, stays unset. *)
Definition AllocationDelta (current : option ResourceAllocationInfo)
    (request limit : Quantity) (convert : Quantity → Z)
    (delta : option ResourceAllocationInfo) : Prop :=
  (delta = None ↔ AllocationSatisfied current request limit convert)
  ∧ ∀ a, delta = Some a →
      (Reservation a = None ∨ Reservation a = Some (convert request))
      ∧ (Reservation a = None
         ↔ request = 0%Z ∨ ∃ c, current = Some c ∧ Reservation c = Some (convert request))
      ∧ (Limit a = None ∨ Limit a = Some (convert limit))
      ∧ (Limit a = None
         ↔ limit = 0%Z ∨ ∃ c, current = Some c ∧ Limit c = Some (convert limit)).

(** A class that reserves 1000 millicores and 512000 units of memory, with
    no limits. *)
Definition exampleReservingClassSpec : VirtualMachineClassSpec := {|
  Hardware := {| Cpus := 2; classMemory := 1024000%Z;
                 Devices := {| VGPUDevices := []; DynamicDirectPathIODevices := [] |} |};
  Resources := {| Requests := {| Cpu := 1000%Z; Memory := 512000%Z |};
                  Limits := {| Cpu := 0%Z; Memory := 0%Z |} |};
|}.

(** * Properties *)

(** ** Facts about the shared loop *)

Lemma removeAt_sublist i (cur : list BaseVirtualDevice) : removeAt i cur `sublist_of` cur.
Proof.
  unfold removeAt. rewrite <- (take_drop i cur) at 3.
  apply sublist_app; [done|]. change (S i) with (1 + i). rewrite Nat.add_comm.
  rewrite <- drop_drop. apply sublist_drop.
Qed.

Lemma removeAt_length i (cur : list BaseVirtualDevice) :
  i < length cur → S (length (removeAt i cur)) = length cur.
Proof.
  intros Hi. unfold removeAt. rewrite length_app, length_take, length_drop. lia.
Qed.

Lemma addChange_inj d d' : addChange d = addChange d' → d = d'.
Proof. by intros [= ->]. Qed.

Lemma removeChange_inj d d' : removeChange d = removeChange d' → d = d'.
Proof. by intros [= ->]. Qed.

Lemma elem_of_map_removeChange c (rem : list BaseVirtualDevice) :
  c ∈ map removeChange rem ↔ ∃ r, c = removeChange r ∧ r ∈ rem.
Proof. apply (list_elem_of_fmap removeChange). Qed.

Lemma elem_of_map_addChange c (adds : list BaseVirtualDevice) :
  c ∈ map addChange adds ↔ ∃ a, c = addChange a ∧ a ∈ adds.
Proof. apply (list_elem_of_fmap addChange). Qed.

Section DeviceChangeLoopFacts.

Variable scan : BaseVirtualDevice → list BaseVirtualDevice → result (option nat).

(** [pairs e c]: the pair is one the scan accepts. *)
Variable pairs : BaseVirtualDevice → BaseVirtualDevice → bool.

Hypothesis scan_in_range :
  ∀ e cur i, scan e cur = Ok (Some i) → i < length cur.
Hypothesis scan_none :
  ∀ e cur c, scan e cur = Ok None → c ∈ cur → pairs e c = false.

(** What one run of the outer loop computes: the Adds are appended in the
    order of the expected list, the survivors are a sublist of the current
    list, and both counts are what the matched pairs leave. *)
Lemma matchExpected_inv expected : ∀ current acc changes remaining,
  matchExpected scan expected current acc = Ok (changes, remaining) →
  ∃ adds,
    changes = acc ++ map addChange adds
    ∧ adds `sublist_of` expected
    ∧ remaining `sublist_of` current
    ∧ length adds + matchedCount scan expected current = length expected
    ∧ length remaining + matchedCount scan expected current = length current
    ∧ (∀ a r, a ∈ adds → r ∈ remaining → pairs a r = false).
Proof.
  induction expected as [|e es IH]; intros current acc changes remaining; simpl.
  - intros [= <- <-]. exists []. rewrite app_nil_r. repeat split; try done.
    intros a r Ha. by apply elem_of_nil in Ha.
  - destruct (scan e current) as [[i|]| |] eqn:Hscan; simpl; try done.
    + intros Hrun. apply IH in Hrun as (adds & -> & Hadds & Hrem & Hla & Hlr & Hpairs).
      apply scan_in_range in Hscan as Hi. apply removeAt_length in Hi.
      exists adds. repeat split; try done.
      * by apply sublist_cons.
      * etrans; [exact Hrem|apply removeAt_sublist].
      * lia.
      * lia.
    + intros Hrun. apply IH in Hrun as (adds & -> & Hadds & Hrem & Hla & Hlr & Hpairs).
      exists (e :: adds). rewrite <- app_assoc. repeat split; try done.
      * by apply sublist_skip.
      * simpl. lia.
      * intros a r [->|Ha]%elem_of_cons Hr; [|by apply Hpairs].
        apply (scan_none _ _ _ Hscan). by eapply elem_of_sublist.
Qed.

(** The change list is the Removes of the survivors followed by the Adds. *)
Lemma updateDeviceChanges_inv expected current changes :
  updateDeviceChanges scan expected current = Ok changes →
  ∃ remaining adds,
    changes = map removeChange remaining ++ map addChange adds
    ∧ adds `sublist_of` expected
    ∧ remaining `sublist_of` current
    ∧ length adds + matchedCount scan expected current = length expected
    ∧ length remaining + matchedCount scan expected current = length current
    ∧ (∀ a r, a ∈ adds → r ∈ remaining → pairs a r = false).
Proof.
  unfold updateDeviceChanges.
  destruct (matchExpected scan expected current []) as [[chg rem]| |] eqn:Hrun; simpl; try done.
  intros [= <-]. apply matchExpected_inv in Hrun as (adds & -> & H).
  by exists rem, adds.
Qed.

(** The loop returns whenever every scan it runs does. *)
Lemma matchExpected_total expected : ∀ current acc,
  (∀ e cur, e ∈ expected → cur `sublist_of` current → ∃ r, scan e cur = Ok r) →
  ∃ out, matchExpected scan expected current acc = Ok out.
Proof.
  induction expected as [|e es IH]; intros current acc Hscan; simpl; [by eexists|].
  destruct (Hscan e current) as [[i|] ->]; [by left|done| |]; simpl.
  - apply IH. intros e' cur He' Hcur. apply Hscan; [by right|].
    etrans; [exact Hcur|apply removeAt_sublist].
  - apply IH. intros e' cur He' Hcur. apply Hscan; [by right|done].
Qed.

Lemma updateDeviceChanges_total expected current :
  (∀ e cur, e ∈ expected → cur `sublist_of` current → ∃ r, scan e cur = Ok r) →
  ∃ changes, updateDeviceChanges scan expected current = Ok changes.
Proof.
  intros Hscan. unfold updateDeviceChanges.
  destruct (matchExpected_total expected current [] Hscan) as [[chg rem] ->].
  simpl. by eexists.
Qed.

End DeviceChangeLoopFacts.

(** ** The two scans *)

Lemma ethScanFrom_in_range expectedNic cur : ∀ idx i,
  ethScanFrom expectedNic cur idx = Ok (Some i) → idx ≤ i < idx + length cur.
Proof.
  induction cur as [|[nic|d|d|d] cur IH]; intros idx i; simpl; try done.
  destruct (ethBackingMatch expectedNic nic).
  - intros [= <-]. lia.
  - intros H%IH. lia.
Qed.

Lemma ethScanFrom_none expectedNic cur : ∀ idx c,
  ethScanFrom expectedNic cur idx = Ok None → c ∈ cur →
  ethDeviceMatch (EthernetCardDevice expectedNic) c = false.
Proof.
  induction cur as [|[nic|d|d|d] cur IH]; intros idx c; simpl; try done.
  - by intros _ ?%elem_of_nil.
  - destruct (ethBackingMatch expectedNic nic) eqn:Hm; [done|].
    intros Hrun [->|Hc]%elem_of_cons; [done|]. by eapply IH.
Qed.

Lemma ethScanFrom_total expectedNic cur : ∀ idx,
  Forall (λ d, isEthernetCard d = true) cur → ∃ r, ethScanFrom expectedNic cur idx = Ok r.
Proof.
  induction cur as [|[nic|d|d|d] cur IH]; intros idx Hcur; simpl;
    try (by eexists); try (by apply Forall_cons_1 in Hcur as [? _]).
  apply Forall_cons_1 in Hcur as [_ Hcur].
  destruct (ethBackingMatch expectedNic nic); [by eexists|by apply IH].
Qed.

Lemma ethScan_in_range e cur i : ethScan e cur = Ok (Some i) → i < length cur.
Proof. destruct e; simpl; try done. intros H%ethScanFrom_in_range. lia. Qed.

Lemma ethScan_none e cur c : ethScan e cur = Ok None → c ∈ cur → ethDeviceMatch e c = false.
Proof. destruct e; simpl; try done. apply ethScanFrom_none. Qed.

Lemma ethScan_total e cur :
  isEthernetCard e = true → Forall (λ d, isEthernetCard d = true) cur →
  ∃ r, ethScan e cur = Ok r.
Proof. destruct e; simpl; try done. intros _. apply ethScanFrom_total. Qed.

Lemma pciScanFrom_in_range expectedBacking cur : ∀ idx i,
  pciScanFrom expectedBacking cur idx = Ok (Some i) → idx ≤ i < idx + length cur.
Proof.
  induction cur as [|c cur IH]; intros idx i; simpl; try done.
  destruct (pciBackingMatch expectedBacking c) as [[]| |]; simpl; try done.
  - intros [= <-]. lia.
  - intros H%IH. lia.
Qed.

Lemma pciScanFrom_none expectedBacking cur : ∀ idx c,
  pciScanFrom expectedBacking cur idx = Ok None → c ∈ cur →
  pciBackingMatch expectedBacking c = Ok false.
Proof.
  induction cur as [|c' cur IH]; intros idx c; simpl.
  - by intros _ ?%elem_of_nil.
  - destruct (pciBackingMatch expectedBacking c') as [[]| |] eqn:Hm; simpl; try done.
    intros Hrun [->|Hc]%elem_of_cons; [done|]. by eapply IH.
Qed.

Lemma pciBackingMatch_total d c :
  hasAllowedDevice (PCIPassthroughDevice d) = true → ∃ b, pciBackingMatch (Backing d) c = Ok b.
Proof.
  unfold pciBackingMatch. simpl. intros Hd.
  destruct (Backing (GetVirtualDevice c)) as [cb|]; [|by exists false].
  match goal with |- context [negb ?b] => destruct (negb b) end; [by exists false|].
  destruct cb, (Backing d) as [[| | | |[|allowed rest] label|]|];
    try (by exists false); try done; try (by eexists).
  match goal with |- context [bool_decide ?P] => destruct (bool_decide P) end; by eexists.
Qed.

Lemma pciScanFrom_total d cur : ∀ idx,
  hasAllowedDevice (PCIPassthroughDevice d) = true →
  ∃ r, pciScanFrom (Backing d) cur idx = Ok r.
Proof.
  induction cur as [|c cur IH]; intros idx Hd; simpl; [by eexists|].
  destruct (pciBackingMatch_total d c Hd) as [[] ->]; simpl; [by eexists|by apply IH].
Qed.

Lemma pciScan_in_range e cur i : pciScan e cur = Ok (Some i) → i < length cur.
Proof. destruct e; simpl; try done. intros H%pciScanFrom_in_range. lia. Qed.

Lemma pciScan_none e cur c : pciScan e cur = Ok None → c ∈ cur → pciDeviceMatch e c = false.
Proof.
  destruct e; simpl; try done. intros H Hc.
  by rewrite (pciScanFrom_none _ _ _ _ H Hc).
Qed.

Lemma pciScan_total e cur : hasAllowedDevice e = true → ∃ r, pciScan e cur = Ok r.
Proof. destruct e; simpl; try done. intros Hd. by apply pciScanFrom_total. Qed.

(** ** The two matchers *)

Lemma MatcherSymmetry_intro scan pairs expected current changes :
  (∀ e cur i, scan e cur = Ok (Some i) → i < length cur) →
  (∀ e cur c, scan e cur = Ok None → c ∈ cur → pairs e c = false) →
  updateDeviceChanges scan expected current = Ok changes →
  MatcherSymmetry scan pairs expected current changes.
Proof.
  intros Hrange Hnone Hrun.
  destruct (updateDeviceChanges_inv scan pairs Hrange Hnone _ _ _ Hrun)
    as (rem & adds & -> & Hadds & Hrem & Hla & Hlr & Hpairs).
  unfold MatcherSymmetry. repeat split.
  - lia.
  - lia.
  - rewrite length_app, !length_map. lia.
  - intros c [Hc|Hc]%elem_of_app.
    + apply elem_of_map_removeChange in Hc as (r & -> & _). eauto.
    + apply elem_of_map_addChange in Hc as (a & -> & _). eauto.
  - intros d [Hd|Hd]%elem_of_app.
    + by apply elem_of_map_removeChange in Hd as (r & [=] & _).
    + apply elem_of_map_addChange in Hd as (a & ->%addChange_inj & Ha).
      by eapply elem_of_sublist.
  - intros d [Hd|Hd]%elem_of_app.
    + apply elem_of_map_removeChange in Hd as (r & ->%removeChange_inj & Hr).
      by eapply elem_of_sublist.
    + by apply elem_of_map_addChange in Hd as (a & [=] & _).
  - intros a r [Ha|Ha]%elem_of_app [Hr|Hr]%elem_of_app.
    + by apply elem_of_map_removeChange in Ha as (? & [=] & _).
    + by apply elem_of_map_removeChange in Ha as (? & [=] & _).
    + apply elem_of_map_addChange in Ha as (a' & ->%addChange_inj & Ha).
      apply elem_of_map_removeChange in Hr as (r' & ->%removeChange_inj & Hr).
      by apply Hpairs.
    + by apply elem_of_map_addChange in Hr as (? & [=] & _).
Qed.

Lemma updateEthCardDeviceChanges_total expected current :
  Forall (λ d, isEthernetCard d = true) expected →
  Forall (λ d, isEthernetCard d = true) current →
  ∃ changes, updateEthCardDeviceChanges expected current = Ok changes.
Proof.
  intros Hexp Hcur. apply updateDeviceChanges_total. intros e cur He Hsub.
  apply ethScan_total.
  - by eapply Forall_forall in Hexp.
  - apply Forall_forall. intros c Hc. eapply Forall_forall in Hcur; [done|].
    by eapply elem_of_sublist.
Qed.

Lemma updatePCIDeviceChanges_total expected current :
  Forall (λ d, hasAllowedDevice d = true) expected →
  ∃ changes, updatePCIDeviceChanges expected current = Ok changes.
Proof.
  intros Hexp. apply updateDeviceChanges_total. intros e cur He Hsub.
  apply pciScan_total. by eapply Forall_forall in Hexp.
Qed.

Lemma createVGPUDevices_hasAllowedDevice vgpus : ∀ deviceKey,
  Forall (λ d, hasAllowedDevice d = true) (createVGPUDevices deviceKey vgpus).1.
Proof.
  induction vgpus as [|profileName rest IH]; intros deviceKey; simpl; [done|].
  specialize (IH (wrap32 (deviceKey - 1))).
  destruct (createVGPUDevices (wrap32 (deviceKey - 1)) rest) as [devs key]. simpl in *.
  by constructor.
Qed.

Lemma createDynamicDirectPathDevices_hasAllowedDevice ddps : ∀ deviceKey,
  Forall (λ d, hasAllowedDevice d = true) (createDynamicDirectPathDevices deviceKey ddps).
Proof.
  induction ddps as [|ddp rest IH]; intros deviceKey; simpl; [done|]. by constructor.
Qed.

(** The expected passthrough devices of a class never make the matcher
    panic. *)
Lemma createPCIDevices_hasAllowedDevice pciDevices :
  Forall (λ d, hasAllowedDevice d = true) (createPCIDevices pciDevices).
Proof.
  unfold createPCIDevices.
  pose proof (createVGPUDevices_hasAllowedDevice (VGPUDevices pciDevices) (-200)) as Hvgpus.
  destruct (createVGPUDevices (-200) (VGPUDevices pciDevices)) as [vgpus deviceKey].
  apply Forall_app. split; [done|apply createDynamicDirectPathDevices_hasAllowedDevice].
Qed.

(** ** A device that pairs with nothing *)

Lemma elem_of_removeAt d c i (cur : list BaseVirtualDevice) :
  cur !! i = Some c → d ∈ cur → d ≠ c → d ∈ removeAt i cur.
Proof.
  intros Hi Hd Hne. unfold removeAt. rewrite <- (take_drop_middle cur i c Hi) in Hd.
  apply elem_of_app in Hd as [Hd|Hd]; [apply elem_of_app; by left|].
  apply elem_of_cons in Hd as [->|Hd]; [done|]. apply elem_of_app. by right.
Qed.

Section UnpairedDevice.

Variable scan : BaseVirtualDevice → list BaseVirtualDevice → result (option nat).
Variable pairs : BaseVirtualDevice → BaseVirtualDevice → bool.

Hypothesis scan_some :
  ∀ e cur i, scan e cur = Ok (Some i) → ∃ c, cur !! i = Some c ∧ pairs e c = true.

(** A current device no expected device pairs with survives the loop. *)
Lemma matchExpected_keeps d expected : ∀ current acc changes remaining,
  matchExpected scan expected current acc = Ok (changes, remaining) →
  (∀ e, e ∈ expected → pairs e d = false) →
  d ∈ current → d ∈ remaining.
Proof.
  induction expected as [|e es IH]; intros current acc changes remaining; simpl.
  - by intros [= <- <-].
  - destruct (scan e current) as [[i|]| |] eqn:Hscan; simpl; try done.
    + intros Hrun Hpairs Hd. apply (IH _ _ _ _ Hrun).
      * intros e' He'. apply Hpairs. by right.
      * apply scan_some in Hscan as (c & Hc & Hmatch).
        apply (elem_of_removeAt d c); [done|done|].
        intros ->. rewrite Hpairs in Hmatch by left. done.
    + intros Hrun Hpairs Hd. apply (IH _ _ _ _ Hrun); [|done].
      intros e' He'. apply Hpairs. by right.
Qed.

(** An expected device that pairs with no device is added. *)
Lemma matchExpected_adds d expected : ∀ current acc changes remaining,
  matchExpected scan expected current acc = Ok (changes, remaining) →
  (∀ c, pairs d c = false) →
  d ∈ expected ∨ addChange d ∈ acc → addChange d ∈ changes.
Proof.
  induction expected as [|e es IH]; intros current acc changes remaining; simpl.
  - intros [= <- <-] _ [Hd|Hd]; [by apply elem_of_nil in Hd|done].
  - destruct (scan e current) as [[i|]| |] eqn:Hscan; simpl; try done.
    + intros Hrun Hpairs Hd. apply (IH _ _ _ _ Hrun Hpairs).
      destruct Hd as [[->|Hd]%elem_of_cons|Hd]; [|by left|by right].
      apply scan_some in Hscan as (c & _ & Hmatch). by rewrite Hpairs in Hmatch.
    + intros Hrun Hpairs Hd. apply (IH _ _ _ _ Hrun Hpairs).
      destruct Hd as [[->|Hd]%elem_of_cons|Hd]; [|by left|].
      * right. apply elem_of_app. right. left.
      * right. apply elem_of_app. by left.
Qed.

(** The loop has run the scan of every expected device. *)
Lemma matchExpected_scanned d expected : ∀ current acc out,
  matchExpected scan expected current acc = Ok out →
  d ∈ expected → ∃ cur r, scan d cur = Ok r.
Proof.
  induction expected as [|e es IH]; intros current acc out; simpl.
  - by intros _ ?%elem_of_nil.
  - destruct (scan e current) as [[i|]| |] eqn:Hscan; simpl; try done.
    + intros Hrun [->|Hd]%elem_of_cons; [by eexists _, _|by eapply IH].
    + intros Hrun [->|Hd]%elem_of_cons; [by eexists _, _|by eapply IH].
Qed.

(** A device that pairs with nothing, on either side, and sits in both
    lists is added and removed. *)
Lemma updateDeviceChanges_unpaired d expected current changes :
  updateDeviceChanges scan expected current = Ok changes →
  (∀ c, pairs d c = false) → (∀ e, pairs e d = false) →
  d ∈ expected → d ∈ current →
  addChange d ∈ changes ∧ removeChange d ∈ changes.
Proof.
  unfold updateDeviceChanges.
  destruct (matchExpected scan expected current []) as [[chg rem]| |] eqn:Hrun; simpl; try done.
  intros [= <-] Hexpected Hcurrent Hd Hd'. split.
  - apply elem_of_app. right. eapply matchExpected_adds; [exact Hrun|done|by left].
  - apply elem_of_app. left. apply elem_of_map_removeChange. exists d. split; [done|].
    eapply matchExpected_keeps; [exact Hrun| |done]. intros e _. apply Hcurrent.
Qed.

End UnpairedDevice.

Lemma ethScanFrom_Some expectedNic cur : ∀ idx i,
  ethScanFrom expectedNic cur idx = Ok (Some i) →
  ∃ nic, cur !! (i - idx) = Some (EthernetCardDevice nic)
         ∧ ethBackingMatch expectedNic nic = true.
Proof.
  induction cur as [|[nic|d|d|d] cur IH]; intros idx i; simpl; try done.
  destruct (ethBackingMatch expectedNic nic) eqn:Hmatch.
  - intros [= <-]. exists nic. by rewrite Nat.sub_diag.
  - intros Hscan. pose proof (ethScanFrom_in_range _ _ _ _ Hscan) as Hrange.
    apply IH in Hscan as (nic' & Hlookup & Hm). exists nic'. split; [|done].
    replace (i - idx) with (S (i - S idx)) by lia. done.
Qed.

Lemma ethScan_Some e cur i :
  ethScan e cur = Ok (Some i) → ∃ c, cur !! i = Some c ∧ ethDeviceMatch e c = true.
Proof.
  destruct e as [nic| | |]; simpl; try done.
  intros (c & Hc & Hm)%ethScanFrom_Some. rewrite Nat.sub_0_r in Hc.
  by exists (EthernetCardDevice c).
Qed.

Lemma pciScanFrom_Some expectedBacking cur : ∀ idx i,
  pciScanFrom expectedBacking cur idx = Ok (Some i) →
  ∃ c, cur !! (i - idx) = Some c ∧ pciBackingMatch expectedBacking c = Ok true.
Proof.
  induction cur as [|c cur IH]; intros idx i; simpl; try done.
  destruct (pciBackingMatch expectedBacking c) as [[|]| |] eqn:Hmatch; simpl; try done.
  - intros [= <-]. exists c. by rewrite Nat.sub_diag.
  - intros Hscan. pose proof (pciScanFrom_in_range _ _ _ _ Hscan) as Hrange.
    apply IH in Hscan as (c' & Hlookup & Hm). exists c'. split; [|done].
    replace (i - idx) with (S (i - S idx)) by lia. done.
Qed.

Lemma pciScan_Some e cur i :
  pciScan e cur = Ok (Some i) → ∃ c, cur !! i = Some c ∧ pciDeviceMatch e c = true.
Proof.
  destruct e as [|pci| |]; simpl; try done.
  intros (c & Hc & Hm)%pciScanFrom_Some. rewrite Nat.sub_0_r in Hc.
  exists c. by rewrite Hm.
Qed.

Lemma ethCardMatch_refl card : ethCardMatch card card = true.
Proof.
  unfold ethCardMatch. rewrite !(bool_decide_eq_true_2 (_ = _) eq_refl).
  by rewrite !andb_false_r.
Qed.

(** An adapter that does not match itself has no backing, or one of a kind
    the matcher does not compare: it matches no adapter and no adapter
    matches it. *)
Lemma ethDeviceMatch_self d :
  ethDeviceMatch d d = false →
  (∀ c, ethDeviceMatch d c = false) ∧ (∀ e, ethDeviceMatch e d = false).
Proof.
  destruct d as [card|d|d|d]; simpl; [|split; [done|by intros []]..].
  unfold ethBackingMatch at 1. rewrite ethCardMatch_refl. simpl.
  destruct (Backing (ethVirtualDevice card)) as [backing|] eqn:Hbacking.
  - rewrite (bool_decide_eq_true_2 _ eq_refl). simpl.
    destruct backing; rewrite ?(bool_decide_eq_true_2 _ eq_refl); simpl; try done; intros _;
      (split; [intros [nic| | |]|intros [nic| | |]]); simpl; try done;
      unfold ethBackingMatch; rewrite Hbacking;
      destruct (ethCardMatch _ _); simpl; try done;
      destruct (Backing (ethVirtualDevice nic)) as [[]|]; simpl; try done;
      by repeat case_bool_decide.
  - intros _. split; intros [nic| | |]; simpl; try done;
      unfold ethBackingMatch; rewrite Hbacking;
      destruct (ethCardMatch _ _); simpl; try done;
      destruct (Backing (ethVirtualDevice nic)) as [[]|]; simpl; try done;
      by repeat case_bool_decide.
Qed.

(** The same for a passthrough device: it has no backing, a backing of
    another kind, or a dynamic backing without an allowed device. *)
Lemma pciDeviceMatch_self pci :
  pciDeviceMatch (PCIPassthroughDevice pci) (PCIPassthroughDevice pci) = false →
  (∀ c, pciDeviceMatch (PCIPassthroughDevice pci) c = false)
  ∧ (∀ e, pciDeviceMatch e (PCIPassthroughDevice pci) = false).
Proof.
  unfold pciDeviceMatch, pciBackingMatch. simpl.
  destruct (Backing pci) as [[| | |vgpu|[|allowed rest] label|]|] eqn:Hbacking; simpl;
    rewrite ?(bool_decide_eq_true_2 _ eq_refl); simpl; try done; intros _;
    (split; [intros c; destruct (Backing (GetVirtualDevice c)) as [[| | | |[|a r] l|]|]
            |intros [|e| |]; try done;
             destruct (Backing e) as [[| | | |[|a r] l|]|]]);
    simpl; try done; by repeat case_bool_decide.
Qed.

(** C2 (as amended). Whenever a matcher returns a change list, the list has
    [(length current - m) + (length expected - m)] entries for the [m]
    expected devices that found a match, each an Add of an expected device
    or a Remove of a current device, and no device of an Add is one the
    matcher's rule pairs with a device of a Remove; in particular a device
    that matches itself is never both added and removed. The network
    matcher returns for lists of Ethernet cards, the passthrough matcher for
    expected passthrough devices whose dynamic backing names an allowed
    device, as those built from a class do. A device that does not match
    itself (its backing is nil or of a kind the matcher does not compare)
    and sits in both lists is both added and removed. *)
Theorem device_matcher_symmetry (expected current : list BaseVirtualDevice) :
  (∀ changes, updateEthCardDeviceChanges expected current = Ok changes →
     MatcherSymmetry ethScan ethDeviceMatch expected current changes)
  ∧ (∀ changes, updatePCIDeviceChanges expected current = Ok changes →
       MatcherSymmetry pciScan pciDeviceMatch expected current changes)
  ∧ (Forall (λ d, isEthernetCard d = true) expected →
     Forall (λ d, isEthernetCard d = true) current →
     ∃ changes, updateEthCardDeviceChanges expected current = Ok changes)
  ∧ (Forall (λ d, hasAllowedDevice d = true) expected →
     ∃ changes, updatePCIDeviceChanges expected current = Ok changes)
  ∧ (∀ pciDevices,
       ∃ changes, updatePCIDeviceChanges (createPCIDevices pciDevices) current = Ok changes)
  ∧ (∀ changes d,
       updateEthCardDeviceChanges expected current = Ok changes →
       d ∈ expected → d ∈ current → ethDeviceMatch d d = false →
       addChange d ∈ changes ∧ removeChange d ∈ changes)
  ∧ (∀ changes d,
       updatePCIDeviceChanges expected current = Ok changes →
       d ∈ expected → d ∈ current → pciDeviceMatch d d = false →
       addChange d ∈ changes ∧ removeChange d ∈ changes).
Proof.
  split_and!.
  - intros changes. apply MatcherSymmetry_intro; [apply ethScan_in_range|apply ethScan_none].
  - intros changes. apply MatcherSymmetry_intro; [apply pciScan_in_range|apply pciScan_none].
  - apply updateEthCardDeviceChanges_total.
  - apply updatePCIDeviceChanges_total.
  - intros pciDevices. apply updatePCIDeviceChanges_total, createPCIDevices_hasAllowedDevice.
  - intros changes d Hrun Hexpected Hcurrent [Hnone Hnobody]%ethDeviceMatch_self.
    by apply (updateDeviceChanges_unpaired ethScan ethDeviceMatch ethScan_Some
                d expected current changes).
  - intros changes d Hrun Hexpected Hcurrent Hself.
    assert (∃ pci, d = PCIPassthroughDevice pci) as [pci ->].
    { unfold updatePCIDeviceChanges, updateDeviceChanges in Hrun.
      destruct (matchExpected pciScan expected current []) as [out| |] eqn:Hloop; try done.
      destruct (matchExpected_scanned pciScan d expected current [] out Hloop Hexpected)
        as (cur & r & Hscan).
      destruct d as [|pci| |]; try done. by exists pci. }
    apply pciDeviceMatch_self in Hself as [Hnone Hnobody].
    by apply (updateDeviceChanges_unpaired pciScan pciDeviceMatch pciScan_Some
                (PCIPassthroughDevice pci) expected current changes).
Qed.

(** Scenario C of the design: of two current devices with the vGPU profile
    the one expected device asks for, the second is removed and nothing is
    added. *)
Lemma device_matcher_symmetry_witness :
  updatePCIDeviceChanges [vgpuProfileA (-200)] [vgpuProfileA 13000; vgpuProfileA 13001]
    = Ok [removeChange (vgpuProfileA 13001)]
  ∧ MatcherSymmetry pciScan pciDeviceMatch
      [vgpuProfileA (-200)] [vgpuProfileA 13000; vgpuProfileA 13001]
      [removeChange (vgpuProfileA 13001)]
  ∧ ∃ changes,
      updateEthCardDeviceChanges [nicWithoutBacking] [nicWithoutBacking] = Ok changes
      ∧ addChange nicWithoutBacking ∈ changes
      ∧ removeChange nicWithoutBacking ∈ changes.
Proof.
  split; [reflexivity|]. split.
  - apply (device_matcher_symmetry [vgpuProfileA (-200)]
             [vgpuProfileA 13000; vgpuProfileA 13001]).
    reflexivity.
  - eexists. split; [reflexivity|].
    destruct (device_matcher_symmetry [nicWithoutBacking] [nicWithoutBacking])
      as (_ & _ & _ & _ & _ & Hunpaired & _).
    apply Hunpaired; [reflexivity|left|left|reflexivity].
Defined.

(** C2, as stated, fails: a card without a backing never matches, not even
    itself, so when it is both expected and current (as in the list
    [fakeUpClonedNetIfList] builds from the current cards) it is removed and
    added in one change list. *)
Lemma device_matcher_symmetry_counterexample :
  let config := {| config_Uuid := "4210";
                   config_Annotation := "";
                   config_Hardware := {| NumCPU := 2; hwMemoryMB := 1024;
                                         hwDevice := [nicWithoutBacking] |};
                   config_ManagedBy := None;
                   config_CpuAllocation := None;
                   config_MemoryAllocation := None;
                   config_ExtraConfig := [];
                   config_VAppConfig := None;
                   config_ChangeTrackingEnabled := None |} in
  GetVirtualDeviceList (exampleSession false ∅) (fakeUpClonedNetIfList config)
  = [nicWithoutBacking]
  ∧ SelectByType isEthernetCard (hwDevice (config_Hardware config)) = [nicWithoutBacking]
  ∧ updateEthCardDeviceChanges [nicWithoutBacking] [nicWithoutBacking]
    = Ok [removeChange nicWithoutBacking; addChange nicWithoutBacking].
Proof. by vm_compute. Qed.

(** ** Order of the change lists *)

Lemma RemovesBeforeAdds_removes_adds (remaining adds : list BaseVirtualDevice) :
  RemovesBeforeAdds (map removeChange remaining ++ map addChange adds).
Proof.
  intros i j a r Hi Hj Ha Hr.
  destruct (decide (i < length (map removeChange remaining))) as [Hlt|Hge].
  - rewrite lookup_app_l in Hi by done.
    apply list_elem_of_lookup_2, elem_of_map_removeChange in Hi as (d & -> & _). done.
  - apply lookup_lt_Some in Hj as Hjlt.
    destruct (decide (j < length (map removeChange remaining))) as [Hjl|Hjg]; [lia|].
    rewrite lookup_app_r in Hj by lia.
    apply list_elem_of_lookup_2, elem_of_map_addChange in Hj as (d & -> & _). done.
Qed.

Lemma updateDeviceChanges_RemovesBeforeAdds scan expected current changes :
  updateDeviceChanges scan expected current = Ok changes → RemovesBeforeAdds changes.
Proof.
  unfold updateDeviceChanges.
  destruct (matchExpected scan expected current []) as [[chg rem]| |] eqn:Hrun;
    simpl; try done.
  intros [= <-]. revert Hrun.
  assert (∀ exp cur acc chg' rem',
            matchExpected scan exp cur acc = Ok (chg', rem') →
            ∃ adds, chg' = acc ++ map addChange adds) as Hshape.
  { induction exp as [|e es IH]; intros cur acc chg' rem'; simpl.
    - intros [= <- <-]. exists []. by rewrite app_nil_r.
    - destruct (scan e cur) as [[i|]| |]; simpl; try done.
      + apply IH.
      + intros (adds & ->)%IH. exists (e :: adds). by rewrite <- app_assoc. }
  intros (adds & ->)%Hshape. apply RemovesBeforeAdds_removes_adds.
Qed.

(** The builders of [updateConfigSpec] leave the device changes alone. *)
Section BuildersKeepDeviceChange.

Context (k : Constants) (s : Session).

Lemma DeviceChange_updateHardwareConfigSpec config configSpec cls :
  DeviceChange (updateHardwareConfigSpec k s config configSpec cls) = DeviceChange configSpec.
Proof. unfold updateHardwareConfigSpec. by repeat case_match. Qed.

Lemma DeviceChange_updateConfigSpecCPUAllocation config configSpec cls freq :
  DeviceChange (updateConfigSpecCPUAllocation s config configSpec cls freq)
  = DeviceChange configSpec.
Proof. unfold updateConfigSpecCPUAllocation. by case_match. Qed.

Lemma DeviceChange_updateConfigSpecMemoryAllocation config configSpec cls :
  DeviceChange (updateConfigSpecMemoryAllocation s config configSpec cls)
  = DeviceChange configSpec.
Proof. unfold updateConfigSpecMemoryAllocation. by case_match. Qed.

Lemma DeviceChange_updateConfigSpecExtraConfig config configSpec compat cls vm md global out :
  updateConfigSpecExtraConfig k s config configSpec compat cls vm md global = Ok out →
  DeviceChange out = DeviceChange configSpec.
Proof.
  unfold updateConfigSpecExtraConfig.
  destruct (currentExtraConfigFrom _ _) as [cur| |]; simpl; try done.
  case_match; by intros [= <-].
Qed.

Lemma DeviceChange_updateConfigSpecVAppConfig config configSpec md :
  DeviceChange (updateConfigSpecVAppConfig s config configSpec md) = DeviceChange configSpec.
Proof. unfold updateConfigSpecVAppConfig. by repeat case_match. Qed.

Lemma DeviceChange_updateConfigSpecChangeBlockTracking config configSpec vmSpec :
  DeviceChange (updateConfigSpecChangeBlockTracking config configSpec vmSpec)
  = DeviceChange configSpec.
Proof. unfold updateConfigSpecChangeBlockTracking. by repeat case_match. Qed.

Lemma DeviceChange_updateConfigSpec vm config compat cls md global freq out :
  updateConfigSpec k s vm config compat cls md global freq = Ok out → DeviceChange out = [].
Proof.
  unfold updateConfigSpec.
  destruct (updateConfigSpecExtraConfig _ _ _ _ _ _ _ _ _) as [spec| |] eqn:Hextra;
    simpl; try done.
  intros [= <-].
  rewrite DeviceChange_updateConfigSpecChangeBlockTracking,
    DeviceChange_updateConfigSpecVAppConfig.
  rewrite (DeviceChange_updateConfigSpecExtraConfig _ _ _ _ _ _ _ _ Hextra).
  by rewrite DeviceChange_updateConfigSpecMemoryAllocation,
    DeviceChange_updateConfigSpecCPUAllocation, DeviceChange_updateHardwareConfigSpec.
Qed.

(** The device changes of the full delta: the disk changes, then the
    network-adapter changes, then, behind the feature switch, the
    passthrough changes. *)
Lemma prePowerOnVMConfigSpec_DeviceChange vm config updateArgs configSpec :
  prePowerOnVMConfigSpec k s vm config updateArgs = Ok configSpec →
  let virtualDevices := hwDevice (config_Hardware config) in
  ∃ disk eth pci,
    updateVirtualDiskDeviceChanges s vm (SelectByType isDisk virtualDevices) = Ok disk
    ∧ updateEthCardDeviceChanges (GetVirtualDeviceList s (NetIfList updateArgs))
                                 (SelectByType isEthernetCard virtualDevices) = Ok eth
    ∧ (if IsThunderPciDevicesFSSEnabled s
       then updatePCIDeviceChanges
              (createPCIDevices (Devices (Hardware (VmClassSpec (updateVmConfigArgs updateArgs)))))
              (SelectByType isPCIPassthroughType virtualDevices) = Ok pci
       else pci = [])
    ∧ DeviceChange configSpec = disk ++ eth ++ pci.
Proof.
  unfold prePowerOnVMConfigSpec.
  destruct (updateConfigSpec _ _ _ _ _ _ _ _ _) as [base| |] eqn:Hbase; simpl; try done.
  apply DeviceChange_updateConfigSpec in Hbase.
  destruct (updateVirtualDiskDeviceChanges _ _ _) as [disk| |]; simpl; try done.
  destruct (updateEthCardDeviceChanges _ _) as [eth| |]; simpl; try done.
  destruct (IsThunderPciDevicesFSSEnabled s).
  - destruct (updatePCIDeviceChanges _ _) as [pci| |]; simpl; try done.
    intros [= <-]. exists disk, eth, pci. simpl. rewrite Hbase. by rewrite <- app_assoc.
  - intros [= <-]. exists disk, eth, []. simpl. rewrite Hbase. by rewrite app_nil_r.
Qed.

End BuildersKeepDeviceChange.

(** C3 (as amended). Each matcher puts all its Removes before all its Adds.
    The device changes of the full pre-power-on delta are the disk changes,
    then what the network matcher returns for the interfaces' devices and
    the current Ethernet cards, then, behind the feature switch, what the
    passthrough matcher returns for the class's devices and the current
    passthrough devices: the ordering holds inside the network segment and
    inside the passthrough segment of the delta's list. *)
Theorem remove_before_add_ordering (k : Constants) (s : Session) (vm : VirtualMachine)
    (config : VirtualMachineConfigInfo) (updateArgs : vmUpdateArgs) :
  (∀ expected current changes,
     updateEthCardDeviceChanges expected current = Ok changes → RemovesBeforeAdds changes)
  ∧ (∀ expected current changes,
       updatePCIDeviceChanges expected current = Ok changes → RemovesBeforeAdds changes)
  ∧ (∀ configSpec,
       prePowerOnVMConfigSpec k s vm config updateArgs = Ok configSpec →
       let virtualDevices := hwDevice (config_Hardware config) in
       ∃ disk eth pci,
         updateVirtualDiskDeviceChanges s vm (SelectByType isDisk virtualDevices) = Ok disk
         ∧ updateEthCardDeviceChanges (GetVirtualDeviceList s (NetIfList updateArgs))
                                      (SelectByType isEthernetCard virtualDevices) = Ok eth
         ∧ (if IsThunderPciDevicesFSSEnabled s
            then updatePCIDeviceChanges
                   (createPCIDevices
                      (Devices (Hardware (VmClassSpec (updateVmConfigArgs updateArgs)))))
                   (SelectByType isPCIPassthroughType virtualDevices) = Ok pci
            else pci = [])
         ∧ DeviceChange configSpec = disk ++ eth ++ pci
         ∧ RemovesBeforeAdds eth
         ∧ RemovesBeforeAdds pci
         ∧ (IsThunderPciDevicesFSSEnabled s = false → pci = [])
         ∧ (∀ i j a r,
              DeviceChange configSpec !! i = Some a →
              DeviceChange configSpec !! j = Some r →
              Operation a = VirtualDeviceConfigSpecOperationAdd →
              Operation r = VirtualDeviceConfigSpecOperationRemove →
              (length disk ≤ i < length disk + length eth
               ∧ length disk ≤ j < length disk + length eth)
              ∨ (length disk + length eth ≤ i ∧ length disk + length eth ≤ j) →
              j < i)).
Proof.
  split_and!.
  - intros expected current changes. apply updateDeviceChanges_RemovesBeforeAdds.
  - intros expected current changes. apply updateDeviceChanges_RemovesBeforeAdds.
  - intros configSpec Hspec virtualDevices.
    destruct (prePowerOnVMConfigSpec_DeviceChange k s _ _ _ _ Hspec)
      as (disk & eth & pci & Hdisk & Heth & Hpci & Hchange).
    assert (RemovesBeforeAdds eth) as Hordered
      by (by eapply updateDeviceChanges_RemovesBeforeAdds).
    assert (RemovesBeforeAdds pci) as Hordered'.
    { destruct (IsThunderPciDevicesFSSEnabled s).
      - by eapply updateDeviceChanges_RemovesBeforeAdds.
      - subst pci. intros i j a r Hi. by rewrite lookup_nil in Hi. }
    exists disk, eth, pci. split_and!; try done.
    + intros Hoff. by rewrite Hoff in Hpci.
    + rewrite Hchange. intros i j a r Hi Hj Ha Hr [[Hi' Hj']|[Hi' Hj']].
      * rewrite lookup_app_r in Hi, Hj by lia.
        rewrite lookup_app_l in Hi, Hj by lia.
        pose proof (Hordered _ _ _ _ Hi Hj Ha Hr). lia.
      * rewrite lookup_app_r in Hi, Hj by lia.
        rewrite lookup_app_r in Hi, Hj by lia.
        pose proof (Hordered' _ _ _ _ Hi Hj Ha Hr). lia.
Qed.

(** A pre-power-on delta for a VM that gains a network adapter and loses a
    vGPU. *)
Lemma remove_before_add_ordering_witness :
  let s := exampleSession true ∅ in
  let vm := exampleVM VirtualMachinePoweredOn ∅ None in
  let config := exampleConfig [vgpuProfileA 13000] [] None in
  let updateArgs :=
    {| updateVmConfigArgs := exampleArgs false {| VGPUDevices := [];
                                                  DynamicDirectPathIODevices := [] |};
       NetIfList := [{| niDevice := EthernetCardDevice nicOnNetA;
                        niCustomization := None;
                        niIPConfiguration := {| ipcIP := ""; ipcGateway := "" |} |}];
       DNSServers := [] |} in
  ∃ configSpec disk eth pci,
    prePowerOnVMConfigSpec exampleConstants s vm config updateArgs = Ok configSpec
    ∧ DeviceChange configSpec = disk ++ eth ++ pci
    ∧ RemovesBeforeAdds eth
    ∧ RemovesBeforeAdds pci.
Proof.
  intros s vm config updateArgs.
  destruct (prePowerOnVMConfigSpec exampleConstants s vm config updateArgs)
    as [configSpec| |] eqn:Hspec; [|by vm_compute in Hspec..].
  destruct (remove_before_add_ordering exampleConstants s vm config updateArgs)
    as (_ & _ & Hfull).
  destruct (Hfull configSpec Hspec)
    as (disk & eth & pci & _ & _ & _ & Hchange & Heth & Hpci & _).
  by exists configSpec, disk, eth, pci.
Defined.

(** C3, as stated, fails for the full delta: with the passthrough switch on,
    the Add of a new network adapter precedes the Remove of a vGPU the class
    no longer lists. *)
Lemma remove_before_add_ordering_counterexample :
  let s := exampleSession true ∅ in
  let vm := exampleVM VirtualMachinePoweredOn ∅ None in
  let config := exampleConfig [vgpuProfileA 13000] [] None in
  let updateArgs :=
    {| updateVmConfigArgs := exampleArgs false {| VGPUDevices := [];
                                                  DynamicDirectPathIODevices := [] |};
       NetIfList := [{| niDevice := EthernetCardDevice nicOnNetA;
                        niCustomization := None;
                        niIPConfiguration := {| ipcIP := ""; ipcGateway := "" |} |}];
       DNSServers := [] |} in
  DeviceChange <$> prePowerOnVMConfigSpec exampleConstants s vm config updateArgs
  = Ok [addChange (EthernetCardDevice nicOnNetA); removeChange (vgpuProfileA 13000)].
Proof. by vm_compute. Qed.

(** ** Matching of two network adapters *)

Lemma ethCardMatch_true_iff expectedNic nic :
  ethCardMatch expectedNic nic = true ↔
    (AddressType expectedNic = VirtualEthernetCardMacTypeManual →
     MacAddress expectedNic = MacAddress nic)
    ∧ (ExternalId expectedNic = "" ∨ ExternalId expectedNic = ExternalId nic).
Proof.
  unfold ethCardMatch.
  destruct (decide (AddressType expectedNic = VirtualEthernetCardMacTypeManual)) as [Hm|Hm];
    destruct (decide (MacAddress expectedNic = MacAddress nic)) as [Hmac|Hmac];
    destruct (decide (ExternalId expectedNic = "")) as [Hext|Hext];
    destruct (decide (ExternalId expectedNic = ExternalId nic)) as [Heq|Heq];
    repeat first [rewrite bool_decide_eq_true_2 by done
                 |rewrite bool_decide_eq_false_2 by done];
    simpl; split; try done; try tauto; intros [Hmac' Hext']; try tauto;
    destruct Hext'; tauto.
Qed.

Lemma ethBackingMatch_true_iff expectedNic nic :
  ethBackingMatch expectedNic nic = true ↔
    ethCardMatch expectedNic nic = true
    ∧ SameNetworkBacking (Backing (ethVirtualDevice expectedNic))
                         (Backing (ethVirtualDevice nic)).
Proof.
  unfold ethBackingMatch.
  destruct (ethCardMatch expectedNic nic); simpl; [|split; [done|by intros [? _]]].
  destruct (Backing (ethVirtualDevice nic)) as [db|];
    [|split; [done|by intros [_ Hsame]; inversion Hsame]].
  destruct (Backing (ethVirtualDevice expectedNic)) as [eb|];
    [|destruct db; simpl; (split; [done|by intros [_ Hsame]; inversion Hsame])].
  destruct db, eb; simpl;
    try (split; [done|by intros [_ Hsame]; inversion Hsame]).
  - rewrite bool_decide_eq_true.
    split; [intros ->; split; [done|constructor]|by intros [_ Hsame]; inversion Hsame].
  - rewrite andb_true_iff, !bool_decide_eq_true.
    split; [intros [-> ->]; split; [done|constructor]|by intros [_ Hsame]; inversion Hsame].
  - rewrite bool_decide_eq_true.
    split; [intros ->; split; [done|constructor]|by intros [_ Hsame]; inversion Hsame].
  - destruct (negb _); (split; [done|by intros [_ Hsame]; inversion Hsame]).
Qed.

(** C7 (as amended). For an expected adapter with a manually assigned MAC
    address, an equal MAC address is necessary for a match and is checked
    first: a current adapter with another MAC address is rejected whatever
    else agrees. It is not sufficient: a non-empty external id of the
    expected adapter must be equal too, and the two backings must be of the
    same supported kind and name the same network. The MAC address is
    compared as it is, empty or not. *)
Theorem manual_mac_match (expectedNic nic : VirtualEthernetCard) :
  AddressType expectedNic = VirtualEthernetCardMacTypeManual →
  (ethBackingMatch expectedNic nic = true ↔
     MacAddress expectedNic = MacAddress nic
     ∧ (ExternalId expectedNic = "" ∨ ExternalId expectedNic = ExternalId nic)
     ∧ SameNetworkBacking (Backing (ethVirtualDevice expectedNic))
                          (Backing (ethVirtualDevice nic)))
  ∧ (MacAddress expectedNic ≠ MacAddress nic →
     ethCardMatch expectedNic nic = false ∧ ethBackingMatch expectedNic nic = false).
Proof.
  intros Hmanual. split.
  - rewrite ethBackingMatch_true_iff, ethCardMatch_true_iff. tauto.
  - intros Hmac.
    assert (ethCardMatch expectedNic nic = false) as Hcard.
    { apply not_true_is_false. rewrite ethCardMatch_true_iff. tauto. }
    split; [done|]. unfold ethBackingMatch. by rewrite Hcard.
Qed.

(** Scenario A of the design: the expected adapter with MAC [aa:bb] and the
    current adapter with the same MAC on the same network match. *)
Lemma manual_mac_match_witness :
  AddressType nicOnNetA = VirtualEthernetCardMacTypeManual
  ∧ ethBackingMatch nicOnNetA nicOnNetA' = true
  ∧ updateEthCardDeviceChanges [EthernetCardDevice nicOnNetA] [EthernetCardDevice nicOnNetA']
    = Ok [].
Proof.
  split; [reflexivity|]. split; [|reflexivity].
  apply (manual_mac_match nicOnNetA nicOnNetA'); [reflexivity|].
  split; [reflexivity|]. split; [by left|constructor].
Defined.

(** C7, as stated, fails: the expected adapter has the manual MAC [aa:bb],
    the current adapter has the same, assigned, MAC, and yet the two do not
    match, because they are on different networks; the current adapter is
    removed and the expected one added. *)
Lemma manual_mac_match_counterexample :
  AddressType nicOnNetA = VirtualEthernetCardMacTypeManual
  ∧ MacAddress nicOnNetA = "aa:bb"
  ∧ MacAddress nicOnNetB = "aa:bb"
  ∧ ethBackingMatch nicOnNetA nicOnNetB = false
  ∧ updateEthCardDeviceChanges [EthernetCardDevice nicOnNetA] [EthernetCardDevice nicOnNetB]
    = Ok [removeChange (EthernetCardDevice nicOnNetB); addChange (EthernetCardDevice nicOnNetA)].
Proof. by vm_compute. Qed.

(** ** Running computations *)

Lemma bind_Ok {A B} (m : M A) (f : A → M B) st a w :
  m st = (Ok a, w) →
  (m ≫= f) st
  = ((f a (status w)).1,
     {| status := status (f a (status w)).2; calls := calls w ++ calls (f a (status w)).2 |}).
Proof. intros Hm. unfold mbind, M_bind. rewrite Hm. by destruct (f a (status w)). Qed.

Lemma bind_Err {A B} (m : M A) (f : A → M B) st e w :
  m st = (Err e, w) → (m ≫= f) st = (Err e, w).
Proof. intros Hm. unfold mbind, M_bind. by rewrite Hm. Qed.

Lemma bind_Panic {A B} (m : M A) (f : A → M B) st w :
  m st = (Panic, w) → (m ≫= f) st = (Panic, w).
Proof. intros Hm. unfold mbind, M_bind. by rewrite Hm. Qed.

Lemma Avoids_ret {A} P (a : A) : Avoids P (mret a).
Proof. by intros st. Qed.

Lemma Avoids_liftResult {A} P (r : result A) : Avoids P (liftResult r).
Proof. by intros st. Qed.

Lemma Avoids_fail {A} P e : Avoids P (fail e : M A).
Proof. by intros st. Qed.

Lemma Avoids_returnError P err : Avoids P (returnError err).
Proof. by destruct err. Qed.

Lemma Avoids_getStatus P : Avoids P getStatus.
Proof. by intros st. Qed.

Lemma Avoids_setStatus P f : Avoids P (setStatus f).
Proof. by intros st. Qed.

Lemma Avoids_call {A} P c (answer : result A) : P c = false → Avoids P (call c answer).
Proof. intros Hc st. simpl. by rewrite Hc. Qed.

Lemma Avoids_attempt {A} P (m : M A) : Avoids P m → Avoids P (attempt m).
Proof.
  intros Hm st. specialize (Hm st). unfold attempt. by destruct (m st) as [[a|e|] w].
Qed.

Lemma Avoids_bind {A B} P (m : M A) (f : A → M B) :
  Avoids P m → (∀ a, Avoids P (f a)) → Avoids P (m ≫= f).
Proof.
  intros Hm Hf st. specialize (Hm st). unfold mbind, M_bind.
  destruct (m st) as [[a|e|] w]; simpl in *; try done.
  specialize (Hf a (status w)). destruct (f a (status w)) as [r w']. simpl in *.
  by rewrite List.filter_app, Hm, Hf.
Qed.

Create HintDb avoids discriminated.
#[global] Hint Resolve Avoids_ret Avoids_liftResult Avoids_fail Avoids_returnError
  Avoids_getStatus Avoids_setStatus Avoids_attempt : avoids.

(** Splits a computation along its binds and closes the leaves. *)
Ltac avoids :=
  repeat first
    [ apply Avoids_bind; [|intros ?]
    | apply Avoids_call; reflexivity
    | solve [auto with avoids]
    | match goal with |- Avoids _ (match ?x with _ => _ end) => destruct x end
    | match goal with |- Avoids _ (if ?b then _ else _) => destruct b end ].

(** ** Status projection *)

Lemma updateVMStatus_Avoids h vm resVM P :
  (∀ props, P (CallGetProperties props) = false) →
  (∀ host, P (CallHostObjectName host) = false) →
  Avoids P (updateVMStatus h vm resVM).
Proof.
  intros Hprops Hhost. unfold updateVMStatus, projectHost, projectGuest,
    projectChangeBlockTracking.
  apply Avoids_bind; [by apply Avoids_call|intros moVM].
  apply Avoids_bind; [auto with avoids|intros _].
  apply Avoids_bind.
  { destruct (runtime_Host _); [|avoids].
    apply Avoids_bind; [apply Avoids_attempt; by apply Avoids_call|intros looked]. avoids. }
  intros errs. avoids.
Qed.

(** C10. When the property fetch at the start of status projection returns
    an error, the projector returns that error and the status record is
    exactly the one it was called with; the fetch is its only call. *)
Theorem status_projection_atomic_on_fetch_failure (h : Collaborators) (vm : VirtualMachine)
    (resVM : ResVirtualMachine) (err : error) (st : VirtualMachineStatus) :
  GetProperties h statusProperties = Err err →
  updateVMStatus h vm resVM st
  = (Err err, {| status := st; calls := [CallGetProperties statusProperties] |}).
Proof. intros Hfetch. unfold updateVMStatus. apply bind_Err. unfold call. by rewrite Hfetch. Qed.

Lemma status_projection_atomic_on_fetch_failure_witness :
  let h := exampleCollaborators (Err (ExternalError "unused"))
                                (Err (ExternalError "session expired"))
                                (Ok "host-1") (Ok tt) (Ok tt) in
  GetProperties h statusProperties = Err (ExternalError "session expired")
  ∧ updateVMStatus h (exampleVM VirtualMachinePoweredOn ∅ None) {| MoRefValue := "vm-42" |}
                   exampleStatus
    = (Err (ExternalError "session expired"),
       {| status := exampleStatus; calls := [CallGetProperties statusProperties] |}).
Proof.
  intros h. split; [reflexivity|].
  by apply (status_projection_atomic_on_fetch_failure h).
Defined.

(** ** Customization gate *)

Lemma isCustomizationPendingExtraConfig_present k extraConfig :
  GOSCPendingExtraConfigKey k ∈ extraConfigKeys extraConfig →
  (∀ opt, Some opt ∈ extraConfig → optKey opt = GOSCPendingExtraConfigKey k →
          ∃ value, optValue opt = AnyString value ∧ value ≠ "") →
  isCustomizationPendingExtraConfig k extraConfig = Ok true.
Proof.
  induction extraConfig as [|[opt|] rest IH]; simpl.
  - by intros ?%elem_of_nil.
  - intros Hkey Hvalues.
    destruct (decide (optKey opt = GOSCPendingExtraConfigKey k)) as [Hhere|Hthere].
    + rewrite bool_decide_eq_true_2 by done.
      destruct (Hvalues opt) as (value & -> & Hvalue); [left|done|].
      by rewrite bool_decide_eq_false_2.
    + rewrite bool_decide_eq_false_2 by done. apply IH.
      * by apply elem_of_cons in Hkey as [Hkey|Hkey].
      * intros opt' Hin. apply Hvalues. by right.
  - intros Hkey Hvalues. apply IH; [done|]. intros opt' Hin. apply Hvalues. by right.
Qed.

(** In a key/value store, which has one entry per key, the pending key with
    a non-empty value is the case above. *)
Lemma pending_entry_of_store k extraConfig value :
  NoDup (extraConfigKeys extraConfig) →
  Some {| optKey := GOSCPendingExtraConfigKey k; optValue := AnyString value |} ∈ extraConfig →
  value ≠ "" →
  GOSCPendingExtraConfigKey k ∈ extraConfigKeys extraConfig
  ∧ ∀ opt, Some opt ∈ extraConfig → optKey opt = GOSCPendingExtraConfigKey k →
           ∃ value, optValue opt = AnyString value ∧ value ≠ "".
Proof.
  intros Hnodup Hin Hvalue. split.
  { apply list_elem_of_omap. by eexists. }
  induction extraConfig as [|[entry|] rest IH]; simpl in *.
  - by apply elem_of_nil in Hin.
  - apply NoDup_cons in Hnodup as [Hfresh Hrest].
    assert (∀ opt, Some opt ∈ rest → optKey opt ≠ optKey entry) as Hothers.
    { intros opt Hopt Heq. apply Hfresh. apply list_elem_of_omap.
      exists (Some opt). split; [done|]. simpl. by rewrite Heq. }
    apply elem_of_cons in Hin as [Hhere|Hthere].
    + injection Hhere as <-. intros opt [[= ->]|Hopt]%elem_of_cons Hkey.
      * by eexists.
      * by destruct (Hothers opt Hopt).
    + intros opt [[= ->]|Hopt]%elem_of_cons Hkey.
      * destruct (Hothers _ Hthere). by rewrite Hkey.
      * by apply IH.
  - apply elem_of_cons in Hin as [Hhere|Hthere]; [done|].
    intros opt [?|Hopt]%elem_of_cons Hkey; [done|]. by apply IH.
Qed.

Lemma isCustomizationPendingExtraConfig_absent k extraConfig :
  GOSCPendingExtraConfigKey k ∉ extraConfigKeys extraConfig →
  isCustomizationPendingExtraConfig k extraConfig = Ok false.
Proof.
  induction extraConfig as [|[opt|] rest IH]; simpl; [done| |done].
  intros [Hkey Hrest]%not_elem_of_cons. rewrite bool_decide_eq_false_2 by done. by apply IH.
Qed.

Lemma isCustomizationPendingError_spec err :
  isCustomizationPendingError err = true ↔ err = TaskError CustomizationPending.
Proof. destruct err as [[]| | |]; simpl; split; done. Qed.

(** C8. The gate issues no customization request and returns success when
    the bypass annotation equals the disable sentinel, and when the current
    extra config holds the pending key with a non-empty value (in every
    entry that carries the key, should there be several; in a key/value
    store there is one). When it does issue the request, the answer of the
    hypervisor decides: success, or the customization-pending fault, give
    success; every other error is returned. *)
Theorem customization_gate (k : Constants) (s : Session) (h : Collaborators)
    (vm : VirtualMachine) (config : VirtualMachineConfigInfo) (updateArgs : vmUpdateArgs)
    (st : VirtualMachineStatus) :
  let bypassed := mapGet (Annotations vm) (VSphereCustomizationBypassKey k)
                  = VSphereCustomizationBypassDisable k in
  let customizationSpec := customizationSpecOf s vm updateArgs in
  let skipped := (Ok tt, {| status := st; calls := [] |}) in
  let issued r := (r, {| status := st; calls := [CallCustomize customizationSpec] |}) in
  (bypassed → customizeVM k s h vm config updateArgs st = skipped)
  ∧ (GOSCPendingExtraConfigKey k ∈ extraConfigKeys (config_ExtraConfig config) →
     (∀ opt, Some opt ∈ config_ExtraConfig config →
             optKey opt = GOSCPendingExtraConfigKey k →
             ∃ value, optValue opt = AnyString value ∧ value ≠ "") →
     customizeVM k s h vm config updateArgs st = skipped)
  ∧ (¬ bypassed →
     isCustomizationPendingExtraConfig k (config_ExtraConfig config) = Ok false →
     (Customize h customizationSpec = Ok tt →
      customizeVM k s h vm config updateArgs st = issued (Ok tt))
     ∧ (Customize h customizationSpec = Err (TaskError CustomizationPending) →
        customizeVM k s h vm config updateArgs st = issued (Ok tt))
     ∧ (∀ err, Customize h customizationSpec = Err err →
               err ≠ TaskError CustomizationPending →
               customizeVM k s h vm config updateArgs st = issued (Err err))).
Proof.
  intros bypassed customizationSpec skipped issued. unfold customizeVM. split_and!.
  - intros Hbypass. by rewrite bool_decide_eq_true_2.
  - intros Hkey Hvalues.
    destruct (bool_decide (mapGet _ _ = _)); [done|].
    unfold mbind, M_bind, liftResult.
    by rewrite (isCustomizationPendingExtraConfig_present _ _ Hkey Hvalues).
  - intros Hbypass Hpending. rewrite bool_decide_eq_false_2 by done.
    unfold mbind, M_bind, liftResult, attempt, call. rewrite Hpending. simpl.
    fold customizationSpec. split_and!.
    + by intros ->.
    + by intros ->.
    + intros err -> Herr. simpl.
      destruct (isCustomizationPendingError err) eqn:Hisp; [|done].
      by apply isCustomizationPendingError_spec in Hisp.
Qed.

(** The pending marker is set: nothing is issued. Then, with no marker, the
    hypervisor answers with the pending fault: the request was issued and
    the gate succeeds. *)
Lemma customization_gate_witness :
  let k := exampleConstants in
  let s := exampleSession false ∅ in
  let h := exampleCollaborators (Err (ExternalError "unused")) (Err (ExternalError "unused"))
                                (Ok "host-1") (Ok tt)
                                (Err (TaskError CustomizationPending)) in
  let vm := exampleVM VirtualMachinePoweredOn ∅ None in
  let pending :=
    exampleConfig [] [Some {| optKey := "tools.deployPkg.fileName";
                              optValue := AnyString "imc.cab" |}] None in
  customizeVM k s h vm pending exampleUpdateArgs exampleStatus
  = (Ok tt, {| status := exampleStatus; calls := [] |})
  ∧ customizeVM k s h vm (exampleConfig [] [] None) exampleUpdateArgs exampleStatus
    = (Ok tt, {| status := exampleStatus;
                 calls := [CallCustomize (customizationSpecOf s vm exampleUpdateArgs)] |}).
Proof.
  intros k s h vm pending. split.
  - apply (customization_gate k s h vm pending exampleUpdateArgs exampleStatus).
    + left.
    + intros opt [= ->]%list_elem_of_singleton _. by eexists.
  - apply (customization_gate k s h vm (exampleConfig [] [] None) exampleUpdateArgs
             exampleStatus); done.
Defined.

(** ** Traces of sequenced computations *)

Lemma filter_calls_bind_l {A B} P (m : M A) (f : A → M B) st :
  (∀ a, Avoids P (f a)) →
  List.filter P (calls ((m ≫= f) st).2) = List.filter P (calls (m st).2).
Proof.
  intros Hf. unfold mbind, M_bind. destruct (m st) as [[a|e|] w]; simpl; try done.
  specialize (Hf a (status w)). destruct (f a (status w)) as [r w']. simpl in *.
  by rewrite List.filter_app, Hf, app_nil_r.
Qed.

Lemma filter_calls_bind_r {A B} P (m : M A) (f : A → M B) st a w :
  m st = (Ok a, w) → List.filter P (calls w) = [] →
  List.filter P (calls ((m ≫= f) st).2) = List.filter P (calls (f a (status w)).2).
Proof.
  intros Hm Hw. rewrite (bind_Ok _ _ _ _ _ Hm). simpl. by rewrite List.filter_app, Hw.
Qed.

Lemma attachTagsAndModules_Avoids k s h vm resVM policy P :
  (∀ c, isAffinityCall c = true → P c = false) →
  Avoids P (attachTagsAndModules k s h vm resVM policy).
Proof.
  intros HP. unfold attachTagsAndModules.
  destruct (_ || _); [avoids|]. destruct policy; [|avoids].
  destruct (bool_decide _); [avoids|].
  apply Avoids_bind; [by apply Avoids_call, HP|intros isMember].
  apply Avoids_bind; [|intros _; by apply Avoids_call, HP].
  destruct (negb isMember); [by apply Avoids_call, HP|avoids].
Qed.

(** ** Powered-on reconfigure *)

Lemma poweredOnVMConfigSpec_toggled vm config changeBlockTracking :
  AdvancedOptions (Spec vm) = Some (Some changeBlockTracking) →
  config_ChangeTrackingEnabled config ≠ Some changeBlockTracking →
  poweredOnVMConfigSpec vm config
  = setChangeTrackingEnabled (Some changeBlockTracking) defaultConfigSpec.
Proof.
  intros Hset Hdiff. unfold poweredOnVMConfigSpec, updateConfigSpecChangeBlockTracking.
  rewrite Hset. by rewrite bool_decide_eq_false_2.
Qed.

Lemma poweredOnVMConfigSpec_settled vm config :
  (AdvancedOptions (Spec vm) = None
   ∨ AdvancedOptions (Spec vm) = Some None
   ∨ AdvancedOptions (Spec vm) = Some (config_ChangeTrackingEnabled config)) →
  poweredOnVMConfigSpec vm config = defaultConfigSpec.
Proof.
  unfold poweredOnVMConfigSpec, updateConfigSpecChangeBlockTracking.
  intros [->| [->|Hsame]]; try done. rewrite Hsame.
  destruct (config_ChangeTrackingEnabled config); [|done].
  by rewrite bool_decide_eq_true_2.
Qed.

(** The hypervisor writes of a pass that finds the VM not powered off and
    wants it powered on are those of the powered-on reconfigure. *)
Lemma UpdateVirtualMachine_poweredOn k s h vm vmConfigArgs st resVM moVM config :
  GetVirtualMachine h = Ok resVM →
  GetProperties h configProperties = Ok moVM →
  mo_Config moVM = Some config →
  PowerState (Spec vm) = VirtualMachinePoweredOn →
  runtime_PowerState (mo_Runtime moVM) ≠ VirtualMachinePoweredOff →
  hypervisorWrites (calls (UpdateVirtualMachine k s h vm vmConfigArgs st).2)
  = hypervisorWrites
      (calls (poweredOnVMReconfigure h vm config (setStatusBiosUUID (config_Uuid config) st)).2).
Proof.
  intros HresVM HmoVM Hconfig Hon Hrunning. unfold UpdateVirtualMachine, hypervisorWrites.
  erewrite filter_calls_bind_r; [|unfold call; by rewrite HresVM|done]. simpl.
  erewrite filter_calls_bind_r; [|unfold call; by rewrite HmoVM|done]. simpl.
  rewrite Hconfig.
  erewrite filter_calls_bind_r; [|reflexivity|done]. simpl.
  erewrite filter_calls_bind_r; [|reflexivity|done]. simpl.
  rewrite Hon. rewrite (bool_decide_eq_false_2 (runtime_PowerState _ = _)) by done. simpl.
  rewrite filter_calls_bind_l; [done|].
  intros _. apply Avoids_bind.
  - by apply updateVMStatus_Avoids.
  - intros _. apply attachTagsAndModules_Avoids. by intros [].
Qed.

(** C9. With the VM wanted on and found on (not powered off): when the
    desired change-block tracking is set and differs from the current
    value, the delta is the zero spec with only the tracking flag set, the
    reconfigure is issued, and once it has succeeded the checkpoint
    save/restore is invoked, exactly once: the hypervisor writes of the
    whole pass are this reconfigure followed by this one invocation; a
    failed reconfigure is returned and nothing is invoked. When the flag is
    unset or equals the current value, the delta is the zero spec and the
    pass issues no reconfigure and no save/restore. *)
Theorem powered_on_reconfigure (k : Constants) (s : Session) (h : Collaborators)
    (vm : VirtualMachine) (vmConfigArgs : VmConfigArgs) (st : VirtualMachineStatus)
    (resVM : ResVirtualMachine) (moVM : MoVirtualMachine) (config : VirtualMachineConfigInfo) :
  GetVirtualMachine h = Ok resVM →
  GetProperties h configProperties = Ok moVM →
  mo_Config moVM = Some config →
  PowerState (Spec vm) = VirtualMachinePoweredOn →
  runtime_PowerState (mo_Runtime moVM) ≠ VirtualMachinePoweredOff →
  let pass := UpdateVirtualMachine k s h vm vmConfigArgs st in
  (∀ changeBlockTracking,
     AdvancedOptions (Spec vm) = Some (Some changeBlockTracking) →
     config_ChangeTrackingEnabled config ≠ Some changeBlockTracking →
     let configSpec := {| Annotation := ""; NumCPUs := 0; MemoryMB := 0; ManagedBy := None;
                          CpuAllocation := None; MemoryAllocation := None; ExtraConfig := [];
                          VAppConfig := None;
                          ChangeTrackingEnabled := Some changeBlockTracking;
                          DeviceChange := [] |} in
     poweredOnVMConfigSpec vm config = configSpec
     ∧ (Reconfigure h configSpec = Ok tt →
        ∀ st', poweredOnVMReconfigure h vm config st'
               = (invokeFsrVirtualMachine h,
                  {| status := st'; calls := [CallReconfigure configSpec; CallInvokeFsr] |}))
     ∧ (Reconfigure h configSpec = Ok tt →
        hypervisorWrites (calls pass.2) = [CallReconfigure configSpec; CallInvokeFsr])
     ∧ (∀ err, Reconfigure h configSpec = Err err →
          (∀ st', poweredOnVMReconfigure h vm config st'
                  = (Err err, {| status := st'; calls := [CallReconfigure configSpec] |}))
          ∧ pass.1 = Err err
          ∧ hypervisorWrites (calls pass.2) = [CallReconfigure configSpec]))
  ∧ ((AdvancedOptions (Spec vm) = None
      ∨ AdvancedOptions (Spec vm) = Some None
      ∨ AdvancedOptions (Spec vm) = Some (config_ChangeTrackingEnabled config)) →
     poweredOnVMConfigSpec vm config = defaultConfigSpec
     ∧ (∀ st', poweredOnVMReconfigure h vm config st' = (Ok tt, {| status := st'; calls := [] |}))
     ∧ hypervisorWrites (calls pass.2) = []).
Proof.
  intros HresVM HmoVM Hconfig Hon Hrunning pass.
  pose proof (UpdateVirtualMachine_poweredOn k s h vm vmConfigArgs st resVM moVM config
                HresVM HmoVM Hconfig Hon Hrunning) as Hwrites.
  fold pass in Hwrites. split.
  - intros cbt Hset Hdiff configSpec.
    pose proof (poweredOnVMConfigSpec_toggled vm config cbt Hset Hdiff) as Hspec.
    change (setChangeTrackingEnabled (Some cbt) defaultConfigSpec) with configSpec in Hspec.
    assert (∀ st', poweredOnVMReconfigure h vm config st'
                   = match Reconfigure h configSpec with
                     | Ok _ => (invokeFsrVirtualMachine h,
                                {| status := st';
                                   calls := [CallReconfigure configSpec; CallInvokeFsr] |})
                     | Err e => (Err e, {| status := st'; calls := [CallReconfigure configSpec] |})
                     | Panic => (Panic, {| status := st'; calls := [CallReconfigure configSpec] |})
                     end) as Hrun.
    { intros st'. unfold poweredOnVMReconfigure. rewrite Hspec.
      unfold mbind, M_bind, call. simpl. by destruct (Reconfigure h configSpec) as [[]| |]. }
    split_and!; [done| | |].
    + intros Hok st'. by rewrite Hrun, Hok.
    + intros Hok. by rewrite Hwrites, Hrun, Hok.
    + intros err Herr. split_and!.
      * intros st'. by rewrite Hrun, Herr.
      * unfold pass, UpdateVirtualMachine.
        erewrite bind_Ok; [|unfold call; by rewrite HresVM]. simpl.
        erewrite bind_Ok; [|unfold call; by rewrite HmoVM]. simpl.
        rewrite Hconfig. simpl. rewrite Hon.
        rewrite (bool_decide_eq_false_2 (runtime_PowerState _ = _)) by done. simpl.
        erewrite bind_Ok; [|reflexivity]. simpl.
        erewrite bind_Ok; [|reflexivity]. simpl.
        erewrite bind_Err; [done|]. by rewrite Hrun, Herr.
      * by rewrite Hwrites, Hrun, Herr.
  - intros Hsettled.
    pose proof (poweredOnVMConfigSpec_settled vm config Hsettled) as Hspec.
    assert (∀ st', poweredOnVMReconfigure h vm config st'
                   = (Ok tt, {| status := st'; calls := [] |})) as Hrun.
    { intros st'. unfold poweredOnVMReconfigure. by rewrite Hspec. }
    split_and!; [done..|]. by rewrite Hwrites, Hrun.
Qed.

(** Scenario E of the design: tracking wanted on, currently off, the VM
    already powered on. *)
Lemma powered_on_reconfigure_witness :
  let config := exampleConfig [] [] (Some false) in
  let moVM := exampleMoVM (Some config) VirtualMachinePoweredOn None None in
  let h := exampleCollaborators (Ok moVM) (Ok moVM) (Ok "host-1") (Ok tt) (Ok tt) in
  let vm := exampleVM VirtualMachinePoweredOn ∅ (Some (Some true)) in
  let args := exampleArgs false {| VGPUDevices := []; DynamicDirectPathIODevices := [] |} in
  hypervisorWrites
    (calls (UpdateVirtualMachine exampleConstants (exampleSession false ∅) h vm args
              exampleStatus).2)
  = [CallReconfigure (setChangeTrackingEnabled (Some true) defaultConfigSpec); CallInvokeFsr].
Proof.
  intros config moVM h vm args.
  eapply (powered_on_reconfigure exampleConstants (exampleSession false ∅) h vm args
            exampleStatus {| MoRefValue := "vm-42" |} moVM config);
    try reflexivity; done.
Defined.

(** ** The pass as a sequence *)

Lemma bind_assoc {A B C} (m : M A) (f : A → M B) (g : B → M C) st :
  ((m ≫= f) ≫= g) st = (m ≫= (λ a, f a ≫= g)) st.
Proof.
  unfold mbind, M_bind. destruct (m st) as [[a|e|] w]; simpl; try done.
  destruct (f a (status w)) as [[b|e|] w']; simpl; try done.
  destruct (g b (status w')) as [r w'']. simpl. by rewrite app_assoc.
Qed.

Lemma bind_ext {A B} (m : M A) (f g : A → M B) st :
  (∀ a st', f a st' = g a st') → (m ≫= f) st = (m ≫= g) st.
Proof.
  intros Hfg. unfold mbind, M_bind. destruct (m st) as [[a|e|] w]; simpl; try done.
  by rewrite Hfg.
Qed.

Lemma ret_bind {A B} (a : A) (f : A → M B) st : (mret a ≫= f) st = f a st.
Proof. unfold mbind, M_bind, mret, M_ret. simpl. by destruct (f a st) as [r []]. Qed.

Lemma UpdateVirtualMachine_split k s h vm vmConfigArgs st :
  UpdateVirtualMachine k s h vm vmConfigArgs st
  = (convergePowerState k s h vm vmConfigArgs
     ≫= λ resVM, updateVMStatus h vm resVM
     ≫= λ _, attachTagsAndModules k s h vm resVM (ResourcePolicy vmConfigArgs)) st.
Proof.
  unfold UpdateVirtualMachine, convergePowerState.
  rewrite bind_assoc. apply bind_ext. intros resVM st1.
  rewrite bind_assoc. apply bind_ext. intros moVM st2.
  rewrite bind_assoc. apply bind_ext. intros biosUUID st3.
  rewrite bind_assoc. apply bind_ext. intros _ st4.
  rewrite bind_assoc. apply bind_ext. intros _ st5.
  by rewrite ret_bind.
Qed.

(** C5 (the code does not do this). With no config reported,
    [UpdateVirtualMachine] does not return an error: it stops with a nil
    dereference panic at the assignment of [Status.BiosUUID], after its two
    reads, whatever the desired power state; the test of [config == nil]
    that would return the error comes later. *)
Theorem config_unavailable_panics (k : Constants) (s : Session) (h : Collaborators)
    (vm : VirtualMachine) (vmConfigArgs : VmConfigArgs) (st : VirtualMachineStatus)
    (resVM : ResVirtualMachine) (moVM : MoVirtualMachine) :
  GetVirtualMachine h = Ok resVM →
  GetProperties h configProperties = Ok moVM →
  mo_Config moVM = None →
  UpdateVirtualMachine k s h vm vmConfigArgs st
  = (Panic, {| status := st;
               calls := [CallGetVirtualMachine; CallGetProperties configProperties] |}).
Proof.
  intros HresVM HmoVM Hconfig. unfold UpdateVirtualMachine.
  erewrite bind_Ok; [|unfold call; by rewrite HresVM]. simpl.
  erewrite bind_Ok; [|unfold call; by rewrite HmoVM]. simpl.
  by rewrite Hconfig.
Qed.

(** The VM is wanted on; the hypervisor reports it powered off, disconnected
    and without config. *)
Lemma config_unavailable_panics_witness :
  let moVM := exampleMoVM None VirtualMachinePoweredOff None None in
  let h := exampleCollaborators (Ok moVM) (Ok moVM) (Ok "host-1") (Ok tt) (Ok tt) in
  mo_Config moVM = None
  ∧ UpdateVirtualMachine exampleConstants (exampleSession false ∅) h
      (exampleVM VirtualMachinePoweredOn ∅ None)
      (exampleArgs false {| VGPUDevices := []; DynamicDirectPathIODevices := [] |})
      exampleStatus
    = (Panic, {| status := exampleStatus;
                 calls := [CallGetVirtualMachine; CallGetProperties configProperties] |}).
Proof.
  intros moVM h. split; [reflexivity|].
  by apply (config_unavailable_panics _ _ h _ _ _ {| MoRefValue := "vm-42" |} moVM).
Defined.

(** ** A failed host-name lookup *)

Lemma updateVMStatus_host_failure h vm resVM moVM host err networkIfStatuses st :
  GetProperties h statusProperties = Ok moVM →
  runtime_Host (summary_Runtime (mo_Summary moVM)) = Some host →
  HostObjectName h host = Err err →
  guestNetworkIfStatuses (mo_Guest moVM) = Ok networkIfStatuses →
  updateVMStatus h vm resVM st
  = (Err (Aggregate [err]),
     {| status := projectedWithoutHost resVM moVM networkIfStatuses st;
        calls := [CallGetProperties statusProperties; CallHostObjectName host] |}).
Proof.
  intros Hfetch Hhost Hlookup Hguest. unfold updateVMStatus.
  erewrite bind_Ok; [|unfold call; by rewrite Hfetch]. simpl.
  erewrite bind_Ok; [|reflexivity]. simpl.
  unfold projectHost. rewrite Hhost.
  erewrite bind_Ok; cycle 1.
  { erewrite bind_Ok; [|unfold attempt, call; by rewrite Hlookup]. reflexivity. }
  simpl. unfold projectGuest, guestNetworkIfStatuses, projectedWithoutHost in *.
  destruct (mo_Guest moVM) as [guest|].
  - erewrite bind_Ok; cycle 1.
    { erewrite bind_Ok; [|reflexivity]. simpl.
      erewrite bind_Ok; [|unfold liftResult; by rewrite Hguest]. reflexivity. }
    reflexivity.
  - injection Hguest as <-. reflexivity.
Qed.

(** C6 (as amended). A host-name lookup that fails during status projection
    does not stop the projection: phase, power state, identifiers, guest IP,
    per-NIC statuses and change-block tracking are written as usual, and
    [Host] keeps the value it had; the failure is aggregated into the error
    the projection returns. The pass returns that error at once: no
    affinity call follows the lookup. *)
Theorem host_lookup_failure_is_collected (k : Constants) (s : Session) (h : Collaborators)
    (vm : VirtualMachine) (vmConfigArgs : VmConfigArgs) (resVM : ResVirtualMachine)
    (moVM : MoVirtualMachine) (host : string) (err : error)
    (networkIfStatuses : list NetworkInterfaceStatus) :
  GetProperties h statusProperties = Ok moVM →
  runtime_Host (summary_Runtime (mo_Summary moVM)) = Some host →
  HostObjectName h host = Err err →
  guestNetworkIfStatuses (mo_Guest moVM) = Ok networkIfStatuses →
  (∀ st,
     updateVMStatus h vm resVM st
     = (Err (Aggregate [err]),
        {| status := projectedWithoutHost resVM moVM networkIfStatuses st;
           calls := [CallGetProperties statusProperties; CallHostObjectName host] |}))
  ∧ (∀ st w,
       convergePowerState k s h vm vmConfigArgs st = (Ok resVM, w) →
       UpdateVirtualMachine k s h vm vmConfigArgs st
       = (Err (Aggregate [err]),
          {| status := projectedWithoutHost resVM moVM networkIfStatuses (status w);
             calls := calls w
                      ++ [CallGetProperties statusProperties; CallHostObjectName host] |})).
Proof.
  intros Hfetch Hhost Hlookup Hguest.
  pose proof (λ st, updateVMStatus_host_failure h vm resVM moVM host err networkIfStatuses st
                      Hfetch Hhost Hlookup Hguest) as Hproj.
  split; [done|]. intros st w Hfront.
  rewrite UpdateVirtualMachine_split. erewrite bind_Ok; [|exact Hfront].
  erewrite bind_Err; [|apply Hproj]. done.
Qed.

(** A pass that has nothing to do about power (wanted off, found off), for a
    VM annotated for a cluster module and a tag, on a host whose name cannot
    be looked up. *)
Lemma host_lookup_failure_is_collected_witness :
  let config := exampleConfig [] [] None in
  let moVM := exampleMoVM (Some config) VirtualMachinePoweredOff (Some "host-7") None in
  let h := exampleCollaborators (Ok moVM) (Ok moVM) (Err (ExternalError "host not found"))
                                (Ok tt) (Ok tt) in
  let vm := exampleVM VirtualMachinePoweredOff
              {[ "vsphere-cluster-module-group" := "workers";
                 "vsphere-tag" := "WorkerVmVmAATag" ]} None in
  let args := exampleArgs false {| VGPUDevices := []; DynamicDirectPathIODevices := [] |} in
  let pass := UpdateVirtualMachine exampleConstants (exampleSession false ∅) h vm args
                exampleStatus in
  pass.1 = Err (Aggregate [ExternalError "host not found"])
  ∧ calls pass.2 = [CallGetVirtualMachine; CallGetProperties configProperties;
                    CallGetProperties statusProperties; CallHostObjectName "host-7"]
  ∧ Phase (status pass.2) = Created
  ∧ Host (status pass.2) = "host-old".
Proof.
  intros config moVM h vm args pass.
  destruct (host_lookup_failure_is_collected exampleConstants (exampleSession false ∅) h vm args
              {| MoRefValue := "vm-42" |} moVM "host-7" (ExternalError "host not found") [])
    as [_ Hpass]; [reflexivity..|].
  unfold pass. erewrite Hpass; [|reflexivity]. done.
Defined.

(** C6, as stated, fails: in the pass above the affinity attachment does not
    run (no cluster-module or tag call is issued and the pass returns the
    aggregated error), whereas the same pass with a host name that resolves
    goes on to attach the module and the tag. *)
Lemma host_lookup_failure_is_collected_counterexample :
  let config := exampleConfig [] [] None in
  let moVM := exampleMoVM (Some config) VirtualMachinePoweredOff (Some "host-7") None in
  let failing := exampleCollaborators (Ok moVM) (Ok moVM)
                   (Err (ExternalError "host not found")) (Ok tt) (Ok tt) in
  let resolving := exampleCollaborators (Ok moVM) (Ok moVM) (Ok "esx-7.example") (Ok tt) (Ok tt) in
  let vm := exampleVM VirtualMachinePoweredOff
              {[ "vsphere-cluster-module-group" := "workers";
                 "vsphere-tag" := "WorkerVmVmAATag" ]} None in
  let args := exampleArgs false {| VGPUDevices := []; DynamicDirectPathIODevices := [] |} in
  let pass h := UpdateVirtualMachine exampleConstants (exampleSession false ∅) h vm args
                  exampleStatus in
  (pass failing).1 = Err (Aggregate [ExternalError "host not found"])
  ∧ affinityCalls (calls (pass failing).2) = []
  ∧ (pass resolving).1 = Ok tt
  ∧ affinityCalls (calls (pass resolving).2)
    = [CallIsVmMemberOfClusterModule "module-1"; CallAddVmToClusterModule "module-1";
       CallAttachTagToVm "worker-tag" "worker-category"].
Proof. by vm_compute. Qed.

(** ** Extra config *)

Lemma currentExtraConfigFrom_is_Some opts : ∀ acc cur key,
  currentExtraConfigFrom opts acc = Ok cur →
  key ∈ extraConfigKeys opts ∨ is_Some (acc !! key) →
  is_Some (cur !! key).
Proof.
  induction opts as [|[opt|] rest IH]; intros acc cur key; simpl.
  - intros [= <-] [?%elem_of_nil|?]; done.
  - destruct (optValue opt) as [value| |] eqn:Hvalue; try done.
    intros Hrun Hkey. eapply IH; [exact Hrun|].
    destruct Hkey as [[->|Hkey]%elem_of_cons|Hacc].
    + right. rewrite lookup_insert_eq. by eexists.
    + by left.
    + right. destruct (decide (optKey opt = key)) as [->|Hne].
      * rewrite lookup_insert_eq. by eexists.
      * by rewrite lookup_insert_ne.
  - apply IH.
Qed.

Lemma currentExtraConfigFrom_Some opts : ∀ acc cur key value,
  currentExtraConfigFrom opts acc = Ok cur →
  cur !! key = Some value →
  acc !! key = Some value
  ∨ Some {| optKey := key; optValue := AnyString value |} ∈ opts.
Proof.
  induction opts as [|[opt|] rest IH]; intros acc cur key value; simpl.
  - intros [= <-] Hcur. by left.
  - destruct opt as [okey ovalue]. simpl. destruct ovalue as [v| |]; try done.
    intros Hrun Hcur. destruct (IH _ _ _ _ Hrun Hcur) as [Hacc|Hin].
    + destruct (decide (okey = key)) as [->|Hne].
      * rewrite lookup_insert_eq in Hacc. injection Hacc as ->. right. left.
      * rewrite lookup_insert_ne in Hacc by done. by left.
    + right. by right.
  - intros Hrun Hcur. destruct (IH _ _ _ _ Hrun Hcur) as [Hacc|Hin]; [by left|].
    right. by right.
Qed.

Lemma currentExtraConfigFrom_total opts : ∀ acc,
  (∀ opt, Some opt ∈ opts → ∃ value, optValue opt = AnyString value) →
  ∃ cur, currentExtraConfigFrom opts acc = Ok cur.
Proof.
  induction opts as [|[opt|] rest IH]; intros acc Hstrings; simpl.
  - by eexists.
  - destruct (Hstrings opt) as [value ->]; [left|].
    apply IH. intros opt' Hin. apply Hstrings. by right.
  - apply IH. intros opt' Hin. apply Hstrings. by right.
Qed.

Lemma elem_of_missingExtraConfig extraConfig currentExtraConfig entry :
  Some entry ∈ missingExtraConfig extraConfig currentExtraConfig →
  currentExtraConfig !! optKey entry = None.
Proof.
  unfold missingExtraConfig. intros Hin.
  apply (list_elem_of_fmap (λ kv : string * string, newOptionValue kv.1 kv.2)) in Hin
    as ([key value] & [= ->] & Hkv).
  apply list_elem_of_In, filter_In in Hkv as [_ Hmissing]. simpl in *.
  by apply bool_decide_eq_true in Hmissing.
Qed.

Section ExtraConfigAppendOnly.

Context (k : Constants) (s : Session).

Lemma ExtraConfig_updateHardwareConfigSpec config configSpec cls :
  ExtraConfig (updateHardwareConfigSpec k s config configSpec cls) = ExtraConfig configSpec.
Proof. unfold updateHardwareConfigSpec. by repeat case_match. Qed.

Lemma ExtraConfig_updateConfigSpecCPUAllocation config configSpec cls freq :
  ExtraConfig (updateConfigSpecCPUAllocation s config configSpec cls freq)
  = ExtraConfig configSpec.
Proof. unfold updateConfigSpecCPUAllocation. by case_match. Qed.

Lemma ExtraConfig_updateConfigSpecMemoryAllocation config configSpec cls :
  ExtraConfig (updateConfigSpecMemoryAllocation s config configSpec cls)
  = ExtraConfig configSpec.
Proof. unfold updateConfigSpecMemoryAllocation. by case_match. Qed.

Lemma ExtraConfig_updateConfigSpecVAppConfig config configSpec md :
  ExtraConfig (updateConfigSpecVAppConfig s config configSpec md) = ExtraConfig configSpec.
Proof. unfold updateConfigSpecVAppConfig. by repeat case_match. Qed.

Lemma ExtraConfig_updateConfigSpecChangeBlockTracking config configSpec vmSpec :
  ExtraConfig (updateConfigSpecChangeBlockTracking config configSpec vmSpec)
  = ExtraConfig configSpec.
Proof. unfold updateConfigSpecChangeBlockTracking. by repeat case_match. Qed.



(** Whatever the package's constants are: a current config that holds the
    compatibility key with the ready marker, and no other entry, gets that
    key appended with the enabled marker for a compatible image. *)
Lemma updateConfigSpecExtraConfig_compatibility config configSpec cls vm md global :
  config_ExtraConfig config
  = [newOptionValue (VMOperatorV1Alpha1ExtraConfigKey k) (VMOperatorV1Alpha1ConfigReady k)] →
  ∃ out,
    updateConfigSpecExtraConfig k s config configSpec true cls vm md global = Ok out
    ∧ newOptionValue (VMOperatorV1Alpha1ExtraConfigKey k) (VMOperatorV1Alpha1ConfigEnabled k)
        ∈ ExtraConfig out.
Proof.
  intros Hcurrent. unfold updateConfigSpecExtraConfig. rewrite Hcurrent. simpl.
  unfold mapGet. rewrite lookup_insert_eq. simpl. rewrite bool_decide_eq_true_2 by done.
  eexists. split; [done|]. simpl. apply elem_of_app. right. left.
Qed.

End ExtraConfigAppendOnly.

(** What the delta's extra config is made of: the missing entries of the
    desired table, then the compatibility entry when its rule applies. *)
Lemma updateConfigSpec_ExtraConfig k s vm config compat cls md global freq delta :
  updateConfigSpec k s vm config compat cls md global freq = Ok delta →
  ∃ cur,
    currentExtraConfigFrom (config_ExtraConfig config) ∅ = Ok cur
    ∧ ExtraConfig delta
      = missingExtraConfig (desiredExtraConfig k s cls vm md global) cur
        ++ (if compat && bool_decide (mapGet cur (VMOperatorV1Alpha1ExtraConfigKey k)
                                      = VMOperatorV1Alpha1ConfigReady k)
            then [newOptionValue (VMOperatorV1Alpha1ExtraConfigKey k)
                                 (VMOperatorV1Alpha1ConfigEnabled k)]
            else []).
Proof.
  unfold updateConfigSpec, updateConfigSpecExtraConfig.
  destruct (currentExtraConfigFrom (config_ExtraConfig config) ∅) as [cur| |]; simpl;
    try done.
  intros Hdelta. exists cur. split; [done|].
  destruct (compat && _); simpl in Hdelta; injection Hdelta as <-;
    rewrite ExtraConfig_updateConfigSpecChangeBlockTracking,
      ExtraConfig_updateConfigSpecVAppConfig; simpl;
    rewrite ExtraConfig_updateConfigSpecMemoryAllocation,
      ExtraConfig_updateConfigSpecCPUAllocation, ExtraConfig_updateHardwareConfigSpec;
    simpl; by rewrite ?app_nil_r.
Qed.







(** ** A config that already has the desired state *)

(** When every expected device is paired with the current device at its
    position, each scan stops at the head of what is left, and the change
    list is empty. *)
Lemma updateDeviceChanges_paired scan (pairs : BaseVirtualDevice → BaseVirtualDevice → bool)
    expected current :
  (∀ e c rest, pairs e c = true → scan e (c :: rest) = Ok (Some 0)) →
  Forall2 (λ e c, pairs e c = true) expected current →
  updateDeviceChanges scan expected current = Ok [].
Proof.
  intros Hhead Hpaired. unfold updateDeviceChanges.
  assert (matchExpected scan expected current [] = Ok ([], [])) as ->; [|done].
  induction Hpaired as [|e c es cs Hpair _ IH]; simpl; [done|].
  by rewrite (Hhead _ _ _ Hpair).
Qed.

Lemma ethScan_head e c rest : ethDeviceMatch e c = true → ethScan e (c :: rest) = Ok (Some 0).
Proof. destruct e, c; simpl; try done. by intros ->. Qed.

Lemma pciScan_head e c rest : pciDeviceMatch e c = true → pciScan e (c :: rest) = Ok (Some 0).
Proof.
  destruct e; simpl; try done.
  destruct (pciBackingMatch (Backing dev) c) as [[]| |]; by simpl.
Qed.

Lemma List_filter_nil {A} (f : A → bool) (l : list A) :
  (∀ x, x ∈ l → f x = false) → List.filter f l = [].
Proof.
  induction l as [|x l IH]; simpl; [done|]. intros Hall.
  rewrite (Hall x) by left. apply IH. intros y Hy. apply Hall. by right.
Qed.

Lemma missingExtraConfig_nil extraConfig currentExtraConfig :
  (∀ key, is_Some (extraConfig !! key) → is_Some (currentExtraConfig !! key)) →
  missingExtraConfig extraConfig currentExtraConfig = [].
Proof.
  intros Hkeys. unfold missingExtraConfig. rewrite List_filter_nil; [done|].
  intros [key value] Hkv%elem_of_map_to_list. simpl.
  destruct (Hkeys key) as [v Hv]; [by eexists|]. rewrite Hv. by apply bool_decide_eq_false_2.
Qed.

Lemma allocationDiffers_satisfied allocation field a v :
  allocation = Some a → field a = Some v → allocationDiffers allocation field v = false.
Proof. intros -> Hfield. simpl. rewrite Hfield. by rewrite bool_decide_eq_true_2. Qed.

Section Converged.

Context (k : Constants) (s : Session).

Lemma updateHardwareConfigSpec_converged config configSpec cls :
  config_Annotation config = VCVMAnnotation k →
  NumCPU (config_Hardware config) = wrap32 (Cpus (Hardware cls)) →
  hwMemoryMB (config_Hardware config) = memoryQuantityToMb s (classMemory (Hardware cls)) →
  is_Some (config_ManagedBy config) →
  updateHardwareConfigSpec k s config configSpec cls = configSpec.
Proof.
  intros Hannotation Hcpus Hmem [managedBy HmanagedBy]. unfold updateHardwareConfigSpec.
  rewrite !bool_decide_eq_true_2 by done. simpl. by rewrite HmanagedBy.
Qed.

Lemma updateConfigSpecCPUAllocation_converged config configSpec cls freq :
  AllocationSatisfied (config_CpuAllocation config)
    (Cpu (Requests (Resources cls))) (Cpu (Limits (Resources cls)))
    (λ q, CpuQuantityToMhz s q freq) →
  updateConfigSpecCPUAllocation s config configSpec cls freq = configSpec.
Proof.
  intros [Hreq Hlim]. unfold updateConfigSpecCPUAllocation, IsZero.
  assert ((if negb (bool_decide (Cpu (Requests (Resources cls)) = 0%Z))
           then if allocationDiffers (config_CpuAllocation config) Reservation
                     (CpuQuantityToMhz s (Cpu (Requests (Resources cls))) freq)
                then Some (CpuQuantityToMhz s (Cpu (Requests (Resources cls))) freq) else None
           else None) = None) as ->.
  { destruct Hreq as [->|(a & Ha & Hrsv)]; [done|].
    rewrite (allocationDiffers_satisfied _ _ _ _ Ha Hrsv). by destruct (negb _). }
  assert ((if negb (bool_decide (Cpu (Limits (Resources cls)) = 0%Z))
           then if allocationDiffers (config_CpuAllocation config) Limit
                     (CpuQuantityToMhz s (Cpu (Limits (Resources cls))) freq)
                then Some (CpuQuantityToMhz s (Cpu (Limits (Resources cls))) freq) else None
           else None) = None) as ->.
  { destruct Hlim as [->|(a & Ha & Hl)]; [done|].
    rewrite (allocationDiffers_satisfied _ _ _ _ Ha Hl). by destruct (negb _). }
  done.
Qed.

Lemma updateConfigSpecMemoryAllocation_converged config configSpec cls :
  AllocationSatisfied (config_MemoryAllocation config)
    (Memory (Requests (Resources cls))) (Memory (Limits (Resources cls)))
    (memoryQuantityToMb s) →
  updateConfigSpecMemoryAllocation s config configSpec cls = configSpec.
Proof.
  intros [Hreq Hlim]. unfold updateConfigSpecMemoryAllocation, IsZero.
  assert ((if negb (bool_decide (Memory (Requests (Resources cls)) = 0%Z))
           then if allocationDiffers (config_MemoryAllocation config) Reservation
                     (memoryQuantityToMb s (Memory (Requests (Resources cls))))
                then Some (memoryQuantityToMb s (Memory (Requests (Resources cls)))) else None
           else None) = None) as ->.
  { destruct Hreq as [->|(a & Ha & Hrsv)]; [done|].
    rewrite (allocationDiffers_satisfied _ _ _ _ Ha Hrsv). by destruct (negb _). }
  assert ((if negb (bool_decide (Memory (Limits (Resources cls)) = 0%Z))
           then if allocationDiffers (config_MemoryAllocation config) Limit
                     (memoryQuantityToMb s (Memory (Limits (Resources cls))))
                then Some (memoryQuantityToMb s (Memory (Limits (Resources cls)))) else None
           else None) = None) as ->.
  { destruct Hlim as [->|(a & Ha & Hl)]; [done|].
    rewrite (allocationDiffers_satisfied _ _ _ _ Ha Hl). by destruct (negb _). }
  done.
Qed.

Lemma updateConfigSpecExtraConfig_converged config compat cls vm md global :
  (∀ opt, Some opt ∈ config_ExtraConfig config → ∃ value, optValue opt = AnyString value) →
  (∀ key, is_Some (desiredExtraConfig k s cls vm md global !! key) →
          key ∈ extraConfigKeys (config_ExtraConfig config)) →
  (compat = true →
   ∀ cur, currentExtraConfigFrom (config_ExtraConfig config) ∅ = Ok cur →
          mapGet cur (VMOperatorV1Alpha1ExtraConfigKey k) ≠ VMOperatorV1Alpha1ConfigReady k) →
  updateConfigSpecExtraConfig k s config defaultConfigSpec compat cls vm md global
  = Ok defaultConfigSpec.
Proof.
  intros Hstrings Hkeys Hcompat. unfold updateConfigSpecExtraConfig.
  destruct (currentExtraConfigFrom_total (config_ExtraConfig config) ∅ Hstrings)
    as [cur Hcur].
  rewrite Hcur. simpl. rewrite missingExtraConfig_nil.
  - destruct compat; simpl; [|done].
    by rewrite bool_decide_eq_false_2 by (by apply Hcompat).
  - intros key Hkey. apply (currentExtraConfigFrom_is_Some _ _ _ _ Hcur). left.
    by apply Hkeys.
Qed.

Lemma updateConfigSpecVAppConfig_converged config configSpec md :
  (∀ vAppConfigInfo md',
     config_VAppConfig config = Some (Some vAppConfigInfo) → md = Some md' →
     Transport md' = VirtualMachineMetadataOvfEnvTransport →
     GetMergedvAppConfigSpec s (Data md') (Property vAppConfigInfo) = None) →
  updateConfigSpecVAppConfig s config configSpec md = configSpec.
Proof.
  intros Hmerge. unfold updateConfigSpecVAppConfig.
  destruct (config_VAppConfig config) as [[info|]|], md as [md'|]; try done.
  - case_bool_decide as Htransport; simpl; [|done]. by rewrite (Hmerge info md').
  - by destruct (negb _).
Qed.

Lemma updateConfigSpecChangeBlockTracking_settled vm config configSpec :
  ChangeBlockTrackingSettled vm config →
  updateConfigSpecChangeBlockTracking config configSpec (Spec vm) = configSpec.
Proof.
  unfold updateConfigSpecChangeBlockTracking.
  intros [->| [->|Hsame]]; try done. rewrite Hsame.
  destruct (config_ChangeTrackingEnabled config); [|done].
  by rewrite bool_decide_eq_true_2.
Qed.

(** The full pre-power-on delta of a converged config is the zero spec. *)
Lemma prePowerOnVMConfigSpec_converged vm config updateArgs :
  PrePowerOnConverged k s vm config updateArgs →
  prePowerOnVMConfigSpec k s vm config updateArgs = Ok defaultConfigSpec.
Proof.
  intros Hconv. unfold prePowerOnVMConfigSpec, updateConfigSpec.
  rewrite updateHardwareConfigSpec_converged by apply Hconv.
  rewrite updateConfigSpecCPUAllocation_converged by apply Hconv.
  rewrite updateConfigSpecMemoryAllocation_converged by apply Hconv.
  rewrite updateConfigSpecExtraConfig_converged by apply Hconv. simpl.
  rewrite updateConfigSpecVAppConfig_converged
    by (intros info md' Hinfo Hmd; by apply Hconv).
  rewrite updateConfigSpecChangeBlockTracking_settled by apply Hconv.
  rewrite (converged_disks _ _ _ _ _ Hconv). simpl.
  unfold updateEthCardDeviceChanges.
  rewrite (updateDeviceChanges_paired ethScan ethDeviceMatch)
    by (try apply ethScan_head; apply Hconv). simpl.
  destruct (IsThunderPciDevicesFSSEnabled s) eqn:Hfss; [|done].
  unfold updatePCIDeviceChanges.
  rewrite (updateDeviceChanges_paired pciScan pciDeviceMatch)
    by (try apply pciScan_head; by apply Hconv). done.
Qed.

End Converged.

(** ** The two reconfigure gates *)

Lemma Avoids_bind_call {A B} P c (answer : result A) (f : A → M B) :
  P c = false → (∀ a, answer = Ok a → Avoids P (f a)) → Avoids P (call c answer ≫= f).
Proof.
  intros Hc Hf st. unfold mbind, M_bind, call.
  destruct answer as [a| |]; simpl; rewrite ?Hc; try done.
  specialize (Hf a eq_refl st). destruct (f a st) as [r w]. simpl in *. by rewrite Hc.
Qed.

Lemma prePowerOnVMReconfigure_run k s h vm config updateArgs st :
  prePowerOnVMReconfigure k s h vm config updateArgs st
  = match prePowerOnVMConfigSpec k s vm config updateArgs with
    | Ok configSpec =>
        if DeepEqual configSpec defaultConfigSpec
        then (Ok tt, {| status := st; calls := [] |})
        else (Reconfigure h configSpec,
              {| status := st; calls := [CallReconfigure configSpec] |})
    | Err e => (Err e, {| status := st; calls := [] |})
    | Panic => (Panic, {| status := st; calls := [] |})
    end.
Proof.
  unfold prePowerOnVMReconfigure, mbind, M_bind, liftResult.
  destruct (prePowerOnVMConfigSpec k s vm config updateArgs) as [configSpec| |]; try done.
  simpl. by destruct (DeepEqual configSpec defaultConfigSpec).
Qed.

Lemma poweredOnVMReconfigure_gate h vm config st :
  let configSpec := poweredOnVMConfigSpec vm config in
  (configSpec = defaultConfigSpec →
   poweredOnVMReconfigure h vm config st = (Ok tt, {| status := st; calls := [] |}))
  ∧ (configSpec ≠ defaultConfigSpec →
     ∃ r rest,
       poweredOnVMReconfigure h vm config st
       = (r, {| status := st; calls := CallReconfigure configSpec :: rest |})
       ∧ hypervisorWrites rest = rest
       ∧ (Reconfigure h configSpec ≠ Ok tt → r = Reconfigure h configSpec ∧ rest = [])).
Proof.
  intros configSpec. unfold poweredOnVMReconfigure. fold configSpec. unfold DeepEqual. split.
  - intros ->. done.
  - intros Hdelta. rewrite bool_decide_eq_false_2 by done. simpl.
    unfold mbind, M_bind, call.
    destruct (Reconfigure h configSpec) as [[]|e|] eqn:Hreconfigure; simpl.
    + destruct (ChangeTrackingEnabled configSpec); simpl; eexists _, _; by split_and!.
    + eexists _, _. by split_and!.
    + eexists _, _. by split_and!.
Qed.

Lemma poweredOnVMReconfigure_settled h vm config :
  ChangeBlockTrackingSettled vm config →
  ∀ st, poweredOnVMReconfigure h vm config st = (Ok tt, {| status := st; calls := [] |}).
Proof.
  intros Hsettled st. apply poweredOnVMReconfigure_gate.
  by apply poweredOnVMConfigSpec_settled.
Qed.

(** A pass that finds the power state it wants, and the tracking flag
    settled, writes nothing to the hypervisor. *)
Lemma UpdateVirtualMachine_converged k s h vm vmConfigArgs :
  (∀ moVM, GetProperties h configProperties = Ok moVM → PowerStateConverged vm moVM) →
  Avoids isHypervisorWrite (UpdateVirtualMachine k s h vm vmConfigArgs).
Proof.
  intros Hconv. unfold UpdateVirtualMachine.
  apply Avoids_bind_call; [done|intros resVM _].
  apply Avoids_bind_call; [done|intros moVM HmoVM].
  destruct (Hconv moVM HmoVM) as [Hoff Hon].
  apply Avoids_bind; [avoids|intros biosUUID].
  apply Avoids_bind; [avoids|intros _].
  apply Avoids_bind.
  - case_bool_decide as Hwantoff.
    + rewrite (bool_decide_eq_true_2 _ (Hoff Hwantoff)). simpl. avoids.
    + case_bool_decide as Hwanton; [|avoids].
      destruct (Hon Hwanton) as [Hrunning Hcbt].
      destruct (mo_Config moVM) as [config|]; [|avoids].
      rewrite (bool_decide_eq_false_2 _ Hrunning).
      intros st. by rewrite (poweredOnVMReconfigure_settled h vm config (Hcbt config eq_refl)).
  - intros _. apply Avoids_bind.
    + by apply updateVMStatus_Avoids.
    + intros _. apply attachTagsAndModules_Avoids. by intros [].
Qed.

(** ** A second pass after a successful one *)

Lemma bind_Ok_inv {A B} (m : M A) (f : A → M B) st b w :
  (m ≫= f) st = (Ok b, w) →
  ∃ a w1 w2,
    m st = (Ok a, w1) ∧ f a (status w1) = (Ok b, w2)
    ∧ w = {| status := status w2; calls := calls w1 ++ calls w2 |}.
Proof.
  unfold mbind, M_bind. destruct (m st) as [[a|e|] w1]; try done.
  destruct (f a (status w1)) as [r w2] eqn:Hf. intros [= -> <-]. by exists a, w1, w2.
Qed.

Lemma afterCalls_app seen trace trace' :
  afterCalls seen (trace ++ trace') = afterCalls (afterCalls seen trace) trace'.
Proof. apply foldl_app. Qed.

Lemma afterCalls_unobserved seen trace :
  List.filter isObservedWrite trace = [] → afterCalls seen trace = seen.
Proof.
  revert seen. induction trace as [|c trace IH]; intros seen; simpl; [done|].
  destruct (isObservedWrite c) eqn:Hc; [done|]. intros Hrest.
  change (afterCalls seen (c :: trace)) with (afterCalls (afterCall seen c) trace).
  destruct c; simpl in *; try done; by apply IH.
Qed.

Lemma afterCalls_Avoids {A} (m : M A) seen st :
  Avoids isObservedWrite m → afterCalls seen (calls (m st).2) = seen.
Proof. intros Hm. apply afterCalls_unobserved, Hm. Qed.

Lemma ensureNetworkInterfacesFrom_Avoids h vifs : ∀ deviceKey,
  Avoids isObservedWrite (ensureNetworkInterfacesFrom h deviceKey vifs).
Proof.
  induction vifs as [|vif rest IH]; intros deviceKey; simpl; [avoids|].
  apply Avoids_bind; [by apply Avoids_call|intros info].
  apply Avoids_bind; [apply IH|intros infos]. avoids.
Qed.

Lemma customizeVM_Avoids k s h vm config updateArgs :
  Avoids isObservedWrite (customizeVM k s h vm config updateArgs).
Proof.
  unfold customizeVM. destruct (bool_decide _); [avoids|].
  apply Avoids_bind; [avoids|intros pending]. destruct pending; [avoids|].
  apply Avoids_bind; [apply Avoids_attempt; by apply Avoids_call|intros customized].
  avoids.
Qed.

Lemma ensureCNSVolumes_Avoids vm : Avoids isObservedWrite (ensureCNSVolumes vm).
Proof. unfold ensureCNSVolumes. avoids. Qed.

Section SecondPass.

Context (k : Constants) (s : Session).

Lemma ChangeTrackingEnabled_updateHardwareConfigSpec config configSpec cls :
  ChangeTrackingEnabled (updateHardwareConfigSpec k s config configSpec cls)
  = ChangeTrackingEnabled configSpec.
Proof. unfold updateHardwareConfigSpec. by repeat case_match. Qed.

Lemma ChangeTrackingEnabled_updateConfigSpecCPUAllocation config configSpec cls freq :
  ChangeTrackingEnabled (updateConfigSpecCPUAllocation s config configSpec cls freq)
  = ChangeTrackingEnabled configSpec.
Proof. unfold updateConfigSpecCPUAllocation. by case_match. Qed.

Lemma ChangeTrackingEnabled_updateConfigSpecMemoryAllocation config configSpec cls :
  ChangeTrackingEnabled (updateConfigSpecMemoryAllocation s config configSpec cls)
  = ChangeTrackingEnabled configSpec.
Proof. unfold updateConfigSpecMemoryAllocation. by case_match. Qed.

Lemma ChangeTrackingEnabled_updateConfigSpecExtraConfig config configSpec compat cls vm md
    global out :
  updateConfigSpecExtraConfig k s config configSpec compat cls vm md global = Ok out →
  ChangeTrackingEnabled out = ChangeTrackingEnabled configSpec.
Proof.
  unfold updateConfigSpecExtraConfig.
  destruct (currentExtraConfigFrom _ _) as [cur| |]; simpl; try done.
  case_match; by intros [= <-].
Qed.

Lemma ChangeTrackingEnabled_updateConfigSpecVAppConfig config configSpec md :
  ChangeTrackingEnabled (updateConfigSpecVAppConfig s config configSpec md)
  = ChangeTrackingEnabled configSpec.
Proof. unfold updateConfigSpecVAppConfig. by repeat case_match. Qed.

(** The tracking flag of the full pre-power-on delta is the one the
    powered-on path would set. *)
Lemma ChangeTrackingEnabled_prePowerOnVMConfigSpec vm config updateArgs configSpec :
  prePowerOnVMConfigSpec k s vm config updateArgs = Ok configSpec →
  ChangeTrackingEnabled configSpec = ChangeTrackingEnabled (poweredOnVMConfigSpec vm config).
Proof.
  unfold prePowerOnVMConfigSpec, updateConfigSpec.
  destruct (updateConfigSpecExtraConfig _ _ _ _ _ _ _ _ _) as [mid| |] eqn:Hmid;
    simpl; try done.
  apply ChangeTrackingEnabled_updateConfigSpecExtraConfig in Hmid.
  rewrite ChangeTrackingEnabled_updateConfigSpecMemoryAllocation,
    ChangeTrackingEnabled_updateConfigSpecCPUAllocation,
    ChangeTrackingEnabled_updateHardwareConfigSpec in Hmid.
  assert (ChangeTrackingEnabled
            (updateConfigSpecChangeBlockTracking config
               (updateConfigSpecVAppConfig s config mid
                  (VmMetadataOf (updateVmConfigArgs updateArgs))) (Spec vm))
          = ChangeTrackingEnabled (poweredOnVMConfigSpec vm config)) as Hflag.
  { unfold poweredOnVMConfigSpec, updateConfigSpecChangeBlockTracking.
    repeat case_match; simpl; try done;
      by rewrite ChangeTrackingEnabled_updateConfigSpecVAppConfig. }
  destruct (updateVirtualDiskDeviceChanges _ _ _) as [disk| |]; simpl; try done.
  destruct (updateEthCardDeviceChanges _ _) as [eth| |]; simpl; try done.
  destruct (IsThunderPciDevicesFSSEnabled s).
  - destruct (updatePCIDeviceChanges _ _) as [pci| |]; simpl; try done.
    by intros [= <-].
  - by intros [= <-].
Qed.

(** A reconfigure with the delta of either path leaves the flag settled. *)
Lemma afterCall_reconfigure_settled vm config power configSpec :
  ChangeTrackingEnabled configSpec = ChangeTrackingEnabled (poweredOnVMConfigSpec vm config) →
  afterCall (power, config_ChangeTrackingEnabled config) (CallReconfigure configSpec)
  = (power, settledChangeTracking vm config).
Proof.
  intros Hflag. simpl. rewrite Hflag.
  unfold poweredOnVMConfigSpec, updateConfigSpecChangeBlockTracking, settledChangeTracking.
  destruct (AdvancedOptions (Spec vm)) as [[cbt|]|]; try done.
  case_bool_decide as Hsame; simpl; [|done]. by rewrite Hsame.
Qed.

(** No reconfigure is needed when the delta is the zero spec: the flag is
    already settled. *)
Lemma settledChangeTracking_zero vm config configSpec :
  ChangeTrackingEnabled configSpec = ChangeTrackingEnabled (poweredOnVMConfigSpec vm config) →
  configSpec = defaultConfigSpec →
  config_ChangeTrackingEnabled config = settledChangeTracking vm config.
Proof.
  intros Hflag ->. revert Hflag.
  unfold poweredOnVMConfigSpec, updateConfigSpecChangeBlockTracking, settledChangeTracking.
  destruct (AdvancedOptions (Spec vm)) as [[cbt|]|]; try done.
  case_bool_decide as Hsame; simpl; [|done]. by rewrite Hsame.
Qed.

Lemma prePowerOnVMReconfigure_after h vm config updateArgs st w power :
  prePowerOnVMReconfigure k s h vm config updateArgs st = (Ok tt, w) →
  afterCalls (power, config_ChangeTrackingEnabled config) (calls w)
  = (power, settledChangeTracking vm config).
Proof.
  rewrite prePowerOnVMReconfigure_run.
  destruct (prePowerOnVMConfigSpec k s vm config updateArgs) as [configSpec| |] eqn:Hspec;
    try done.
  apply ChangeTrackingEnabled_prePowerOnVMConfigSpec in Hspec. unfold DeepEqual.
  case_bool_decide as Hzero.
  - intros [= <-]. simpl. f_equal. by eapply settledChangeTracking_zero.
  - intros [= _ <-]. simpl. by apply afterCall_reconfigure_settled.
Qed.

Lemma prepareVMForPowerOn_after h vm config vmConfigArgs st w power :
  prepareVMForPowerOn k s h vm config vmConfigArgs st = (Ok tt, w) →
  afterCalls (power, config_ChangeTrackingEnabled config) (calls w)
  = (power, settledChangeTracking vm config).
Proof.
  unfold prepareVMForPowerOn, ensureNetworkInterfaces.
  intros (netIfList & w1 & w2 & Hnet & Hrest & ->)%bind_Ok_inv.
  apply bind_Ok_inv in Hrest as (nameservers & w3 & w4 & Hdns & Hrest & ->).
  apply bind_Ok_inv in Hrest as ([] & w5 & w6 & Hreconfigure & Hrest & ->).
  apply bind_Ok_inv in Hrest as ([] & w7 & w8 & Hcustomize & Hvolumes & ->).
  simpl. rewrite !afterCalls_app.
  replace (calls w1) with (calls (ensureNetworkInterfacesFrom h (-100)
                                    (NetworkInterfaces (Spec vm)) st).2)
    by (by rewrite Hnet).
  rewrite afterCalls_Avoids by apply ensureNetworkInterfacesFrom_Avoids.
  replace (calls w3) with
    (calls (attempt (call CallGetNameservers (GetNameserversFromConfigMap h)) (status w1)).2)
    by (by rewrite Hdns).
  rewrite afterCalls_Avoids by (apply Avoids_attempt; by apply Avoids_call).
  rewrite (prePowerOnVMReconfigure_after _ _ _ _ _ _ _ Hreconfigure).
  match type of Hcustomize with ?m ?st' = _ =>
    replace (calls w7) with (calls (m st').2) by (by rewrite Hcustomize) end.
  rewrite afterCalls_Avoids by apply customizeVM_Avoids.
  match type of Hvolumes with ?m ?st' = _ =>
    replace (calls w8) with (calls (m st').2) by (by rewrite Hvolumes) end.
  by rewrite afterCalls_Avoids by apply ensureCNSVolumes_Avoids.
Qed.

Lemma poweredOnVMReconfigure_after h vm config st w power :
  poweredOnVMReconfigure h vm config st = (Ok tt, w) →
  afterCalls (power, config_ChangeTrackingEnabled config) (calls w)
  = (power, settledChangeTracking vm config).
Proof.
  unfold poweredOnVMReconfigure, DeepEqual.
  case_bool_decide as Hzero; simpl.
  - intros [= <-]. simpl. f_equal. by eapply settledChangeTracking_zero.
  - intros ([] & w1 & w2 & Hreconfigure & Hfsr & ->)%bind_Ok_inv.
    unfold call in Hreconfigure. injection Hreconfigure as _ <-. simpl.
    assert (afterCalls (power, settledChangeTracking vm config) (calls w2)
            = (power, settledChangeTracking vm config)) as Hafter.
    { destruct (ChangeTrackingEnabled (poweredOnVMConfigSpec vm config)).
      - unfold call in Hfsr. by injection Hfsr as _ <-.
      - by injection Hfsr as <-. }
    pose proof (afterCall_reconfigure_settled vm config power
                  (poweredOnVMConfigSpec vm config) eq_refl) as Hstep.
    simpl in Hstep. injection Hstep as Hstep. by rewrite Hstep.
Qed.

Lemma convergePowerState_after h vm vmConfigArgs st resVM w moVM :
  GetProperties h configProperties = Ok moVM →
  convergePowerState k s h vm vmConfigArgs st = (Ok resVM, w) →
  ∃ config,
    mo_Config moVM = Some config
    ∧ let seen := afterCalls (runtime_PowerState (mo_Runtime moVM),
                              config_ChangeTrackingEnabled config) (calls w) in
      (PowerState (Spec vm) = VirtualMachinePoweredOff → seen.1 = VirtualMachinePoweredOff)
      ∧ (PowerState (Spec vm) = VirtualMachinePoweredOn →
         seen.1 ≠ VirtualMachinePoweredOff ∧ seen.2 = settledChangeTracking vm config).
Proof.
  intros HmoVM. unfold convergePowerState.
  intros (resVM' & w1 & w2 & HresVM & Hrest & ->)%bind_Ok_inv.
  unfold call in HresVM. injection HresVM as _ <-.
  apply bind_Ok_inv in Hrest as (moVM' & w3 & w4 & Hfetch & Hrest & ->).
  unfold call in Hfetch. rewrite HmoVM in Hfetch. injection Hfetch as <- <-.
  apply bind_Ok_inv in Hrest as (biosUUID & w5 & w6 & Hbios & Hrest & ->).
  unfold liftResult in Hbios.
  destruct (mo_Config moVM) as [config|] eqn:Hconfig; [|done]. injection Hbios as _ <-.
  apply bind_Ok_inv in Hrest as ([] & w7 & w8 & Hset & Hrest & ->).
  injection Hset as <-.
  apply bind_Ok_inv in Hrest as ([] & w9 & w10 & Hswitch & Hret & ->).
  injection Hret as _ <-. exists config. split; [done|]. simpl.
  rewrite app_nil_r.
  change (afterCalls ?seen (CallGetVirtualMachine :: CallGetProperties ?p :: ?l))
    with (afterCalls seen l).
  set (power := runtime_PowerState (mo_Runtime moVM)) in *.
  revert Hswitch. case_bool_decide as Hwantoff.
  - rewrite Hwantoff. destruct (decide (power = VirtualMachinePoweredOff)) as [Hoff|Hrunning].
    + rewrite (bool_decide_eq_true_2 _ Hoff). simpl. intros [= <-]. simpl. by split.
    + rewrite (bool_decide_eq_false_2 _ Hrunning). simpl. unfold call.
      intros [= _ <-]. simpl. by split.
  - case_bool_decide as Hwanton; [|intros _; by split].
    destruct (decide (power = VirtualMachinePoweredOff)) as [Hoff|Hrunning].
    + rewrite (bool_decide_eq_true_2 _ Hoff).
      intros ([] & w11 & w12 & Hprepare & Hpower & ->)%bind_Ok_inv.
      unfold call in Hpower. injection Hpower as _ <-. simpl.
      rewrite afterCalls_app, (prepareVMForPowerOn_after _ _ _ _ _ _ _ Hprepare).
      split; [done|]. intros _. by split.
    + rewrite (bool_decide_eq_false_2 _ Hrunning). intros Hreconfigure.
      rewrite (poweredOnVMReconfigure_after _ _ _ _ _ _ Hreconfigure).
      split; [done|]. intros _. by split.
Qed.

(** After a pass that succeeded, with nothing else changing the VM, the
    hypervisor reports the desired power state and change-tracking flag. *)
Lemma PowerStateConverged_after h vm vmConfigArgs st w moVM moVM' :
  GetProperties h configProperties = Ok moVM →
  UpdateVirtualMachine k s h vm vmConfigArgs st = (Ok tt, w) →
  ReportedAfter moVM (calls w) moVM' →
  PowerStateConverged vm moVM'.
Proof.
  intros HmoVM Hpass Hreported. rewrite UpdateVirtualMachine_split in Hpass.
  apply bind_Ok_inv in Hpass as (resVM & w1 & w2 & Hfront & Hrest & ->).
  destruct (convergePowerState_after h vm vmConfigArgs st resVM w1 moVM HmoVM Hfront)
    as (config & Hconfig & Hoff & Hon).
  destruct (Hreported config Hconfig) as [Hpower Hflag]. simpl in Hpower, Hflag.
  assert (Avoids isObservedWrite
            (updateVMStatus h vm resVM
             ≫= λ _, attachTagsAndModules k s h vm resVM (ResourcePolicy vmConfigArgs)))
    as Hquiet.
  { apply Avoids_bind; [by apply updateVMStatus_Avoids|intros _].
    apply attachTagsAndModules_Avoids. by intros []. }
  specialize (Hquiet (status w1)). rewrite Hrest in Hquiet. simpl in Hquiet.
  rewrite afterCalls_app, (afterCalls_unobserved _ (calls w2) Hquiet) in Hpower.
  rewrite afterCalls_app, (afterCalls_unobserved _ (calls w2) Hquiet) in Hflag.
  split.
  - intros Hwantoff. rewrite Hpower. by apply Hoff.
  - intros Hwanton. destruct (Hon Hwanton) as [Hrunning Hsettled].
    split; [by rewrite Hpower|]. intros config' Hconfig'.
    rewrite <- (Hflag config' Hconfig') in Hsettled.
    unfold ChangeBlockTrackingSettled, settledChangeTracking in *.
    destruct (AdvancedOptions (Spec vm)) as [[cbt|]|]; [|by right; left|by left].
    right. right. by rewrite Hsettled.
Qed.

End SecondPass.

(** C1. Both reconfigure paths compare the delta they built with the zero
    spec and call Reconfigure only for another delta, with that delta. When
    the current config of a powered-off VM already equals the desired state,
    the pre-power-on delta is the zero spec and no Reconfigure is issued;
    when the hypervisor reports the desired power state and, for a VM that is
    on, the desired change-block tracking, the powered-on delta is the zero
    spec and the whole pass issues no hypervisor write. That is what a
    second pass finds after a pass that succeeded, when nothing but the
    writes of the first pass has changed the VM: its delta is the zero spec
    and it issues no hypervisor write. *)
Theorem idempotence_and_empty_delta_gating (k : Constants) (s : Session) (h : Collaborators)
    (vm : VirtualMachine) :
  (∀ config updateArgs st configSpec,
     prePowerOnVMConfigSpec k s vm config updateArgs = Ok configSpec →
     (configSpec = defaultConfigSpec →
      prePowerOnVMReconfigure k s h vm config updateArgs st
      = (Ok tt, {| status := st; calls := [] |}))
     ∧ (configSpec ≠ defaultConfigSpec →
        prePowerOnVMReconfigure k s h vm config updateArgs st
        = (Reconfigure h configSpec,
           {| status := st; calls := [CallReconfigure configSpec] |})))
  ∧ (∀ config st,
       let configSpec := poweredOnVMConfigSpec vm config in
       (configSpec = defaultConfigSpec →
        poweredOnVMReconfigure h vm config st = (Ok tt, {| status := st; calls := [] |}))
       ∧ (configSpec ≠ defaultConfigSpec →
          ∃ r rest,
            poweredOnVMReconfigure h vm config st
            = (r, {| status := st; calls := CallReconfigure configSpec :: rest |})))
  ∧ (∀ config updateArgs st,
       PrePowerOnConverged k s vm config updateArgs →
       prePowerOnVMConfigSpec k s vm config updateArgs = Ok defaultConfigSpec
       ∧ prePowerOnVMReconfigure k s h vm config updateArgs st
         = (Ok tt, {| status := st; calls := [] |}))
  ∧ (∀ vmConfigArgs st,
       (∀ moVM, GetProperties h configProperties = Ok moVM → PowerStateConverged vm moVM) →
       (∀ moVM config,
          GetProperties h configProperties = Ok moVM → mo_Config moVM = Some config →
          PowerState (Spec vm) = VirtualMachinePoweredOn →
          poweredOnVMConfigSpec vm config = defaultConfigSpec)
       ∧ hypervisorWrites (calls (UpdateVirtualMachine k s h vm vmConfigArgs st).2) = [])
  ∧ (∀ h' vmConfigArgs vmConfigArgs' st st' w moVM moVM',
       GetProperties h configProperties = Ok moVM →
       UpdateVirtualMachine k s h vm vmConfigArgs st = (Ok tt, w) →
       GetProperties h' configProperties = Ok moVM' →
       ReportedAfter moVM (calls w) moVM' →
       (∀ config',
          mo_Config moVM' = Some config' →
          PowerState (Spec vm) = VirtualMachinePoweredOn →
          poweredOnVMConfigSpec vm config' = defaultConfigSpec)
       ∧ hypervisorWrites (calls (UpdateVirtualMachine k s h' vm vmConfigArgs' st').2) = []).
Proof.
  split_and!.
  - intros config updateArgs st configSpec Hspec.
    rewrite prePowerOnVMReconfigure_run, Hspec. unfold DeepEqual. split.
    + intros ->. done.
    + intros Hdelta. by rewrite bool_decide_eq_false_2.
  - intros config st configSpec.
    destruct (poweredOnVMReconfigure_gate h vm config st) as [Hzero Hdelta].
    split; [done|]. intros Hne. destruct (Hdelta Hne) as (r & rest & Hrun & _).
    by exists r, rest.
  - intros config updateArgs st Hconv.
    pose proof (prePowerOnVMConfigSpec_converged k s vm config updateArgs Hconv) as Hspec.
    split; [done|]. by rewrite prePowerOnVMReconfigure_run, Hspec.
  - intros vmConfigArgs st Hconv. split.
    + intros moVM config HmoVM Hconfig Hon.
      apply poweredOnVMConfigSpec_settled.
      destruct (Hconv moVM HmoVM) as [_ Hsettled]. by apply Hsettled.
    + by apply UpdateVirtualMachine_converged.
  - intros h' vmConfigArgs vmConfigArgs' st st' w moVM moVM' HmoVM Hpass HmoVM' Hreported.
    pose proof (PowerStateConverged_after k s h vm vmConfigArgs st w moVM moVM'
                  HmoVM Hpass Hreported) as Hconv.
    split.
    + intros config' Hconfig' Hon. apply poweredOnVMConfigSpec_settled.
      destruct Hconv as [_ Hsettled]. by apply Hsettled.
    + apply UpdateVirtualMachine_converged. intros moVM'' HmoVM''.
      rewrite HmoVM' in HmoVM''. by injection HmoVM'' as <-.
Qed.

(** A powered-off VM whose one network adapter is the expected one and whose
    tracking flag is on as wanted: the pre-power-on path has nothing to
    reconfigure. And Scenario E run twice: the first pass turns tracking on
    for a powered-on VM; the second pass, shown the flag the first one set,
    writes nothing. *)
Lemma idempotence_and_empty_delta_gating_witness :
  let k := exampleConstants in
  let s := exampleSession false ∅ in
  let vm := exampleVM VirtualMachinePoweredOn ∅ (Some (Some true)) in
  let args := exampleArgs false {| VGPUDevices := []; DynamicDirectPathIODevices := [] |} in
  let converged := exampleConfig [EthernetCardDevice nicOnNetA'] [] (Some true) in
  let updateArgs :=
    {| updateVmConfigArgs := args;
       NetIfList := [{| niDevice := EthernetCardDevice nicOnNetA;
                        niCustomization := None;
                        niIPConfiguration := {| ipcIP := ""; ipcGateway := "" |} |}];
       DNSServers := [] |} in
  let first := exampleMoVM (Some (exampleConfig [] [] (Some false)))
                           VirtualMachinePoweredOn None None in
  let second := exampleMoVM (Some (exampleConfig [] [] (Some true)))
                            VirtualMachinePoweredOn None None in
  let h1 := exampleCollaborators (Ok first) (Ok first) (Ok "host-1") (Ok tt) (Ok tt) in
  let h2 := exampleCollaborators (Ok second) (Ok second) (Ok "host-1") (Ok tt) (Ok tt) in
  prePowerOnVMReconfigure k s h1 vm converged updateArgs exampleStatus
  = (Ok tt, {| status := exampleStatus; calls := [] |})
  ∧ hypervisorWrites (calls (UpdateVirtualMachine k s h1 vm args exampleStatus).2)
    = [CallReconfigure (setChangeTrackingEnabled (Some true) defaultConfigSpec); CallInvokeFsr]
  ∧ hypervisorWrites (calls (UpdateVirtualMachine k s h2 vm args exampleStatus).2) = [].
Proof.
  intros k s vm args converged updateArgs first second h1 h2.
  destruct (idempotence_and_empty_delta_gating k s h1 vm) as (_ & _ & Hpre & _ & Hsecond).
  split_and!.
  - apply Hpre. constructor; try reflexivity.
    + by eexists.
    + split; by left.
    + split; by left.
    + by intros opt ?%elem_of_nil.
    + intros key [value Hvalue]. by vm_compute in Hvalue.
    + done.
    + right. right. reflexivity.
    + repeat constructor.
    + done.
  - by vm_compute.
  - apply (Hsecond h2 args args exampleStatus exampleStatus
             (UpdateVirtualMachine k s h1 vm args exampleStatus).2 first second).
    + reflexivity.
    + by vm_compute.
    + reflexivity.
    + intros config [= <-]. split; [by vm_compute|].
      intros config' [= <-]. by vm_compute.
Defined.

(** * Further properties *)

(** ** The matchers on empty and on interchangeable devices *)

Section InterchangeableDevices.

Variable scan : BaseVirtualDevice → list BaseVirtualDevice → result (option nat).
Variable pairs : BaseVirtualDevice → BaseVirtualDevice → bool.

Hypothesis scan_head :
  ∀ e c rest, pairs e c = true → scan e (c :: rest) = Ok (Some 0).

(** When every expected device pairs with every current one, the loop pairs
    them off from the front: what is left over on either side is the tail
    of the longer list. *)
Lemma matchExpected_interchangeable expected : ∀ current acc,
  (∀ e c, e ∈ expected → c ∈ current → pairs e c = true) →
  (∀ e, e ∈ expected → scan e [] = Ok None) →
  matchExpected scan expected current acc
  = Ok (acc ++ map addChange (drop (length current) expected),
        drop (length expected) current).
Proof.
  induction expected as [|e es IH]; intros current acc Hpairs Hnil; simpl.
  - by rewrite drop_nil, app_nil_r.
  - destruct current as [|c cs].
    + rewrite (Hnil e) by left. simpl.
      rewrite IH; [|by intros ? ? ? ?%elem_of_nil|intros e' He'; apply Hnil; by right].
      simpl. by rewrite drop_0, drop_nil, <- app_assoc.
    + rewrite (scan_head e c cs) by (apply Hpairs; left). simpl.
      apply IH.
      * intros e' c' He' Hc'. apply Hpairs; by right.
      * intros e' He'. apply Hnil. by right.
Qed.

Lemma updateDeviceChanges_interchangeable expected current :
  (∀ e c, e ∈ expected → c ∈ current → pairs e c = true) →
  (∀ e, e ∈ expected → scan e [] = Ok None) →
  updateDeviceChanges scan expected current
  = Ok (map removeChange (drop (length expected) current)
        ++ map addChange (drop (length current) expected)).
Proof.
  intros Hpairs Hnil. unfold updateDeviceChanges.
  by rewrite (matchExpected_interchangeable expected current [] Hpairs Hnil).
Qed.

End InterchangeableDevices.

(** X1. With no current device, a matcher adds every expected device, in
    the order of the expected list; with no expected device, it removes
    every current device, in the order of the current list. *)
Theorem matchers_on_empty_lists (devices : list BaseVirtualDevice) :
  (Forall (λ d, isEthernetCard d = true) devices →
   updateEthCardDeviceChanges devices [] = Ok (map addChange devices))
  ∧ (Forall (λ d, isPCIPassthroughType d = true) devices →
     updatePCIDeviceChanges devices [] = Ok (map addChange devices))
  ∧ updateEthCardDeviceChanges [] devices = Ok (map removeChange devices)
  ∧ updatePCIDeviceChanges [] devices = Ok (map removeChange devices).
Proof.
  split_and!.
  - intros Hcards. unfold updateEthCardDeviceChanges.
    rewrite (updateDeviceChanges_interchangeable ethScan ethDeviceMatch ethScan_head).
    + by rewrite drop_nil, drop_0.
    + by intros ? ? ? ?%elem_of_nil.
    + intros e He. eapply Forall_forall in Hcards; [|exact He]. by destruct e.
  - intros Hpci. unfold updatePCIDeviceChanges.
    rewrite (updateDeviceChanges_interchangeable pciScan pciDeviceMatch pciScan_head).
    + by rewrite drop_nil, drop_0.
    + by intros ? ? ? ?%elem_of_nil.
    + intros e He. eapply Forall_forall in Hpci; [|exact He]. by destruct e.
  - unfold updateEthCardDeviceChanges, updateDeviceChanges. simpl. by rewrite app_nil_r.
  - unfold updatePCIDeviceChanges, updateDeviceChanges. simpl. by rewrite app_nil_r.
Qed.

(** Scenario B of the design: no current adapter, one expected adapter. *)
Lemma matchers_on_empty_lists_witness :
  updateEthCardDeviceChanges [EthernetCardDevice nicOnNetA] []
  = Ok [addChange (EthernetCardDevice nicOnNetA)].
Proof.
  apply (matchers_on_empty_lists [EthernetCardDevice nicOnNetA]).
  by repeat constructor.
Defined.

Lemma pciDeviceMatch_vGPU profile e c :
  isVGPU profile e = true → isVGPU profile c = true → pciDeviceMatch e c = true.
Proof.
  destruct e as [|de| |], c as [|dc| |]; simpl; try done.
  intros He%bool_decide_eq_true Hc%bool_decide_eq_true.
  unfold pciBackingMatch. simpl. rewrite He, Hc. simpl.
  by rewrite !bool_decide_eq_true_2.
Qed.

(** X2. Passthrough devices with the same vGPU profile are interchangeable:
    when all expected and all current devices carry one profile, they are
    paired off one for one, whatever their keys; the surplus current
    devices are removed, or the surplus expected devices added, and never
    both. *)
Theorem same_profile_vgpus_pair_off (profile : string)
    (expected current : list BaseVirtualDevice) :
  Forall (λ d, isVGPU profile d = true) expected →
  Forall (λ d, isVGPU profile d = true) current →
  updatePCIDeviceChanges expected current
  = Ok (map removeChange (drop (length expected) current)
        ++ map addChange (drop (length current) expected)).
Proof.
  intros Hexp Hcur. unfold updatePCIDeviceChanges.
  apply (updateDeviceChanges_interchangeable pciScan pciDeviceMatch pciScan_head).
  - intros e c He Hc. apply (pciDeviceMatch_vGPU profile).
    + by eapply Forall_forall in Hexp.
    + by eapply Forall_forall in Hcur.
  - intros e He. eapply Forall_forall in Hexp; [|exact He]. by destruct e.
Qed.

(** Scenario C of the design, the other way round as well: one device
    expected and two current, then two expected and one current. *)
Lemma same_profile_vgpus_pair_off_witness :
  updatePCIDeviceChanges [vgpuProfileA (-200)] [vgpuProfileA 13000; vgpuProfileA 13001]
  = Ok [removeChange (vgpuProfileA 13001)]
  ∧ updatePCIDeviceChanges [vgpuProfileA (-200); vgpuProfileA (-201)] [vgpuProfileA 13000]
    = Ok [addChange (vgpuProfileA (-201))].
Proof.
  split.
  - apply (same_profile_vgpus_pair_off "profileA"); by repeat constructor.
  - apply (same_profile_vgpus_pair_off "profileA"); by repeat constructor.
Defined.

(** ** The fallback for a cloned VM *)

Lemma ethBackingMatch_refl card :
  hasNetworkBacking (EthernetCardDevice card) = true → ethBackingMatch card card = true.
Proof.
  unfold hasNetworkBacking, ethBackingMatch, ethCardMatch.
  rewrite !(bool_decide_eq_true_2 (_ = _) eq_refl), !andb_false_r. simpl.
  destruct (Backing (ethVirtualDevice card)) as [[]|]; try done; intros _;
    rewrite ?bool_decide_eq_true_2; done.
Qed.

Lemma matchExpected_same scan pairs devices :
  (∀ e c rest, pairs e c = true → scan e (c :: rest) = Ok (Some 0)) →
  ∀ acc, (∀ e, e ∈ devices → pairs e e = true) →
  matchExpected scan devices devices acc = Ok (acc, []).
Proof.
  intros Hhead. induction devices as [|d ds IH]; intros acc Hrefl; [done|].
  simpl. rewrite (Hhead d d ds) by (apply Hrefl; left). simpl.
  apply IH. intros e He. apply Hrefl. by right.
Qed.

Lemma fakeUpClonedNetIfList_devices config :
  map niDevice (fakeUpClonedNetIfList config)
  = SelectByType isEthernetCard (hwDevice (config_Hardware config)).
Proof.
  unfold fakeUpClonedNetIfList, SelectByType.
  induction (hwDevice (config_Hardware config)) as [|d ds IH]; [done|].
  destruct d; simpl; [f_equal|..]; exact IH.
Qed.

Lemma ethDeviceMatch_unbacked dev :
  isEthernetCard dev = true → hasNetworkBacking dev = false → ethDeviceMatch dev dev = false.
Proof.
  destruct dev as [card| | |]; simpl; try done. intros _.
  unfold ethBackingMatch. rewrite ethCardMatch_refl. simpl.
  destruct (Backing (ethVirtualDevice card)) as [[]|]; simpl; try done;
    by rewrite ?(bool_decide_eq_true_2 _ eq_refl).
Qed.

(** X3. The interface list made up for a VM that has none in its spec holds
    exactly the Ethernet cards the VM has, each to be customized for DHCP
    under its own MAC address, whatever the cards are. When those cards all
    sit on a network, distributed-port or opaque-network backing, the
    network matcher run on that list changes nothing; a card with no backing
    or with a backing of another kind is removed and added again. *)
Theorem cloned_interfaces_keep_the_cards (config : VirtualMachineConfigInfo) :
  let currentEthCards := SelectByType isEthernetCard (hwDevice (config_Hardware config)) in
  map niDevice (fakeUpClonedNetIfList config) = currentEthCards
  ∧ Forall (λ info, ∃ card, niDevice info = EthernetCardDevice card
                            ∧ niCustomization info
                              = Some {| camMacAddress := MacAddress card;
                                        camIp := CustomizationDhcpIpGenerator |})
           (fakeUpClonedNetIfList config)
  ∧ ((∀ dev, dev ∈ currentEthCards → hasNetworkBacking dev = true) →
     updateEthCardDeviceChanges (map niDevice (fakeUpClonedNetIfList config)) currentEthCards
     = Ok [])
  ∧ (∀ dev, dev ∈ currentEthCards → hasNetworkBacking dev = false →
            ∃ changes,
              updateEthCardDeviceChanges (map niDevice (fakeUpClonedNetIfList config))
                                         currentEthCards = Ok changes
              ∧ addChange dev ∈ changes ∧ removeChange dev ∈ changes).
Proof.
  intros currentEthCards. split_and!.
  - apply fakeUpClonedNetIfList_devices.
  - unfold fakeUpClonedNetIfList. apply Forall_forall. intros info Hinfo.
    apply list_elem_of_omap in Hinfo as (dev & _ & Hdev).
    destruct dev as [card| | |]; try done.
    injection Hdev as <-. by exists card.
  - intros Hbacked. rewrite fakeUpClonedNetIfList_devices. fold currentEthCards.
    unfold updateEthCardDeviceChanges, updateDeviceChanges.
    rewrite (matchExpected_same ethScan ethDeviceMatch currentEthCards ethScan_head); [done|].
    intros e He. specialize (Hbacked e He).
    destruct e as [card| | |]; try done. simpl. by apply ethBackingMatch_refl.
  - intros dev Hdev Hunbacked. rewrite fakeUpClonedNetIfList_devices. fold currentEthCards.
    assert (Forall (λ d, isEthernetCard d = true) currentEthCards) as Hcards.
    { apply Forall_forall. intros d Hd. unfold currentEthCards, SelectByType in Hd.
      by apply list_elem_of_In, filter_In in Hd as [_ Hd]. }
    destruct (updateEthCardDeviceChanges_total currentEthCards currentEthCards Hcards Hcards)
      as [changes Hchanges].
    exists changes. split; [done|].
    assert (ethDeviceMatch dev dev = false) as [Hnone Hnobody]%ethDeviceMatch_self.
    { apply ethDeviceMatch_unbacked; [|done]. by eapply Forall_forall in Hcards. }
    by apply (updateDeviceChanges_unpaired ethScan ethDeviceMatch ethScan_Some
                dev currentEthCards currentEthCards changes).
Qed.

Lemma cloned_interfaces_keep_the_cards_witness :
  let config := exampleConfig [EthernetCardDevice nicOnNetB; vgpuProfileA 13000] [] None in
  let unbacked := exampleConfig [nicWithoutBacking] [] None in
  updateEthCardDeviceChanges (map niDevice (fakeUpClonedNetIfList config))
                             [EthernetCardDevice nicOnNetB]
  = Ok []
  ∧ ∃ changes,
      updateEthCardDeviceChanges (map niDevice (fakeUpClonedNetIfList unbacked))
                                 [nicWithoutBacking] = Ok changes
      ∧ addChange nicWithoutBacking ∈ changes
      ∧ removeChange nicWithoutBacking ∈ changes.
Proof.
  intros config unbacked. split.
  - destruct (cloned_interfaces_keep_the_cards config) as (_ & _ & Hsame & _).
    apply Hsame. by intros dev ->%list_elem_of_singleton.
  - destruct (cloned_interfaces_keep_the_cards unbacked) as (_ & _ & _ & Hagain).
    apply (Hagain nicWithoutBacking); [left|reflexivity].
Defined.

(** ** Passthrough devices once attached *)

Lemma pciBackingMatch_created expectedBacking curDev :
  isCreatedBacking expectedBacking = true →
  isCreatedBacking (backingOf curDev) = true →
  pciBackingMatch expectedBacking curDev
  = Ok (bool_decide (backingOf curDev = expectedBacking)).
Proof.
  unfold pciBackingMatch, backingOf.
  destruct (Backing (GetVirtualDevice curDev)) as [[| | |vc|[|[vc dc] [|]] lc|]|],
           expectedBacking as [[| | |ve|[|[ve de] [|]] le|]|]; simpl; try done; intros _ _.
  - repeat case_bool_decide; simpl; congruence.
  - repeat case_bool_decide; simpl; congruence.
Qed.

Lemma pciScanFrom_first expectedBacking pre curDev post : ∀ idx,
  (∀ c, c ∈ pre → pciBackingMatch expectedBacking c = Ok false) →
  pciBackingMatch expectedBacking curDev = Ok true →
  pciScanFrom expectedBacking (pre ++ curDev :: post) idx = Ok (Some (idx + length pre)).
Proof.
  induction pre as [|c pre IH]; intros idx Hpre Hcur; simpl.
  - rewrite Hcur. simpl. by rewrite Nat.add_0_r.
  - rewrite (Hpre c) by left. simpl.
    rewrite IH; [do 2 f_equal; lia| |done].
    intros c' Hc'. apply Hpre. by right.
Qed.

Lemma matchExpected_created expected : ∀ current acc,
  Forall (λ e, isPCIPassthroughType e = true ∧ isCreatedBacking (backingOf e) = true) expected →
  map backingOf current ≡ₚ map backingOf expected →
  matchExpected pciScan expected current acc = Ok (acc, []).
Proof.
  induction expected as [|e es IH]; intros current acc Hexp Hperm.
  - simpl in *. apply Permutation_nil_r in Hperm. by destruct current.
  - apply Forall_cons in Hexp as [[Htype Hshape] Hes].
    assert (Hcreated : ∀ c, c ∈ current → isCreatedBacking (backingOf c) = true).
    { intros c Hc.
      assert (backingOf c ∈ map backingOf (e :: es)) as Hin.
      { rewrite <- Hperm. by apply list_elem_of_fmap_2. }
      simpl in Hin. apply elem_of_cons in Hin as [->|Hin]; [done|].
      apply list_elem_of_fmap in Hin as (e' & -> & He').
      eapply Forall_forall in Hes; [|exact He']. apply Hes. }
    assert (∃ c, c ∈ current ∧ backingOf c = backingOf e) as (c0 & Hc0 & Hb0).
    { assert (backingOf e ∈ map backingOf current) as Hin.
      { rewrite Hperm. simpl. left. }
      apply list_elem_of_fmap in Hin as (c & Hb & Hc). by exists c. }
    destruct (list_find_elem_of (λ c, backingOf c = backingOf e) current c0 Hc0 Hb0)
      as [[i c] Hfind].
    apply list_find_Some in Hfind as (Hi & Hb & Hfirst).
    pose proof (take_drop_middle current i c Hi) as Hsplit.
    destruct e as [|d| |]; try done. simpl.
    rewrite <- Hsplit at 1.
    rewrite (pciScanFrom_first (Backing d) (take i current) c (drop (S i) current) 0).
    + simpl. rewrite length_take_le by (apply lookup_lt_Some in Hi; lia).
      apply IH; [done|]. unfold removeAt.
      rewrite <- Hsplit in Hperm. rewrite !map_app in Hperm. simpl in Hperm.
      rewrite <- Permutation_middle in Hperm. rewrite Hb in Hperm.
      apply Permutation_cons_inv in Hperm. by rewrite map_app.
    + intros c' Hc'. rewrite pciBackingMatch_created; [|done|].
      * f_equal. apply bool_decide_eq_false_2.
        apply list_elem_of_lookup in Hc' as (j & Hj).
        apply lookup_take_Some in Hj as (Hj & Hlt).
        by apply (Hfirst j c').
      * apply Hcreated. apply elem_of_take in Hc' as (j & Hj & _).
        by eapply list_elem_of_lookup_2.
    + rewrite pciBackingMatch_created; [|done|].
      * f_equal. by apply bool_decide_eq_true_2.
      * apply Hcreated. by eapply list_elem_of_lookup_2.
Qed.

Lemma createVGPUDevices_created vgpus : ∀ deviceKey,
  Forall (λ e, isPCIPassthroughType e = true ∧ isCreatedBacking (backingOf e) = true)
         (createVGPUDevices deviceKey vgpus).1.
Proof.
  induction vgpus as [|p ps IH]; intros deviceKey; simpl; [constructor|].
  specialize (IH (wrap32 (deviceKey - 1))).
  destruct (createVGPUDevices (wrap32 (deviceKey - 1)) ps) as [devs k'].
  simpl in *. by constructor.
Qed.

Lemma createDynamicDirectPathDevices_created ddps : ∀ deviceKey,
  Forall (λ e, isPCIPassthroughType e = true ∧ isCreatedBacking (backingOf e) = true)
         (createDynamicDirectPathDevices deviceKey ddps).
Proof.
  induction ddps as [|p ps IH]; intros deviceKey; simpl; [constructor|].
  constructor; [done|apply IH].
Qed.

Lemma createPCIDevices_created pciDevices :
  Forall (λ e, isPCIPassthroughType e = true ∧ isCreatedBacking (backingOf e) = true)
         (createPCIDevices pciDevices).
Proof.
  unfold createPCIDevices.
  pose proof (createVGPUDevices_created (VGPUDevices pciDevices) (-200)) as Hv.
  destruct (createVGPUDevices (-200) (VGPUDevices pciDevices)) as [devs k'].
  apply Forall_app. split; [done|apply createDynamicDirectPathDevices_created].
Qed.

(** X4. Once the VM holds the passthrough devices of its class, the
    passthrough matcher asks for no change: when the backings of the
    current devices are those of the devices built from the class, in any
    order and under whatever keys the hypervisor gave them, every built
    device finds a partner and no current device is left over. *)
Theorem attached_passthrough_devices_need_no_change (pciDevices : VirtualDevices)
    (currentPciDevices : list BaseVirtualDevice) :
  map backingOf currentPciDevices ≡ₚ map backingOf (createPCIDevices pciDevices) →
  updatePCIDeviceChanges (createPCIDevices pciDevices) currentPciDevices = Ok [].
Proof.
  intros Hperm. unfold updatePCIDeviceChanges, updateDeviceChanges.
  by rewrite (matchExpected_created _ _ [] (createPCIDevices_created pciDevices) Hperm).
Qed.

(** A class with a vGPU and a dynamic device; the hypervisor lists them the
    other way round and under its own keys. *)
Lemma attached_passthrough_devices_need_no_change_witness :
  let pciDevices :=
    {| VGPUDevices := ["profileA"];
       DynamicDirectPathIODevices :=
         [{| VendorID := 4318; DeviceID := 7864; ddpCustomLabel := "gpu" |}] |} in
  let dynamic :=
    PCIPassthroughDevice
      {| Key := 13001;
         Backing := Some (VirtualPCIPassthroughDynamicBackingInfo
                            [{| VendorId := 4318; DeviceId := 7864 |}] "gpu") |} in
  updatePCIDeviceChanges (createPCIDevices pciDevices) [dynamic; vgpuProfileA 13000] = Ok [].
Proof.
  apply (attached_passthrough_devices_need_no_change
           {| VGPUDevices := ["profileA"];
              DynamicDirectPathIODevices :=
                [{| VendorID := 4318; DeviceID := 7864; ddpCustomLabel := "gpu" |}] |}).
  vm_compute. apply perm_swap.
Defined.

(** ** Placeholder device keys *)

Lemma wrap32_small (x : Z) : (- 2 ^ 31 ≤ x < 2 ^ 31)%Z → wrap32 x = x.
Proof. intros Hx. unfold wrap32. rewrite Z.mod_small; lia. Qed.

Lemma deviceKey_setDeviceKey key dev : deviceKey (setDeviceKey key dev) = key.
Proof. by destruct dev. Qed.

Lemma createVGPUDevices_keys vgpus : ∀ deviceKey,
  (- 2 ^ 31 ≤ deviceKey - Z.of_nat (length vgpus) ∧ deviceKey < 2 ^ 31)%Z →
  createVGPUDevices deviceKey vgpus
  = (imap (λ i profileName,
             createPCIPassThroughDevice (deviceKey - Z.of_nat i)
               (VirtualPCIPassthroughVmiopBackingInfo profileName)) vgpus,
     (deviceKey - Z.of_nat (length vgpus))%Z).
Proof.
  induction vgpus as [|p ps IH]; intros deviceKey Hkey; simpl.
  - by rewrite Z.sub_0_r.
  - simpl in Hkey. rewrite wrap32_small by lia. rewrite IH by lia.
    rewrite Z.sub_0_r. f_equal; [f_equal|lia].
    apply imap_ext. intros i x _. simpl. f_equal. lia.
Qed.

Lemma createDynamicDirectPathDevices_keys ddps : ∀ deviceKey,
  (- 2 ^ 31 ≤ deviceKey - Z.of_nat (length ddps) ∧ deviceKey < 2 ^ 31)%Z →
  createDynamicDirectPathDevices deviceKey ddps
  = imap (λ i ddp,
            createPCIPassThroughDevice (deviceKey - Z.of_nat i)
              (VirtualPCIPassthroughDynamicBackingInfo
                 [{| VendorId := wrap32 (VendorID ddp); DeviceId := wrap32 (DeviceID ddp) |}]
                 (ddpCustomLabel ddp))) ddps.
Proof.
  induction ddps as [|p ps IH]; intros deviceKey Hkey; simpl; [done|].
  simpl in Hkey. rewrite (wrap32_small (deviceKey - 1)) by lia. rewrite IH by lia.
  rewrite Z.sub_0_r. f_equal.
  apply imap_ext. intros i x _. simpl. f_equal. lia.
Qed.

(** X5. The passthrough devices built from a class are its vGPUs in class
    order followed by its dynamic devices in class order; the i-th device of
    the whole list (from 0) has the key -200 - i, a vGPU is backed by its
    profile and a dynamic device by its label and one allowed device, the
    vendor and device ids cut to 32 bits. This holds as long as the keys do
    not run past the smallest 32-bit integer. *)
Theorem created_passthrough_devices (pciDevices : VirtualDevices) :
  (Z.of_nat (length (VGPUDevices pciDevices)
             + length (DynamicDirectPathIODevices pciDevices)) ≤ 2 ^ 31 - 200)%Z →
  createPCIDevices pciDevices
  = imap (λ i profileName,
            createPCIPassThroughDevice (-200 - Z.of_nat i)
              (VirtualPCIPassthroughVmiopBackingInfo profileName))
         (VGPUDevices pciDevices)
    ++ imap (λ i ddp,
               createPCIPassThroughDevice
                 (-200 - Z.of_nat (length (VGPUDevices pciDevices) + i))
                 (VirtualPCIPassthroughDynamicBackingInfo
                    [{| VendorId := wrap32 (VendorID ddp);
                        DeviceId := wrap32 (DeviceID ddp) |}]
                    (ddpCustomLabel ddp)))
            (DynamicDirectPathIODevices pciDevices).
Proof.
  intros Hlen. unfold createPCIDevices.
  rewrite createVGPUDevices_keys by lia.
  rewrite createDynamicDirectPathDevices_keys by lia.
  f_equal. apply imap_ext. intros i x _. simpl. f_equal. lia.
Qed.

Lemma created_passthrough_devices_witness :
  createPCIDevices
    {| VGPUDevices := ["profileA"; "profileB"];
       DynamicDirectPathIODevices :=
         [{| VendorID := 4318; DeviceID := 7864; ddpCustomLabel := "gpu" |}] |}
  = [createPCIPassThroughDevice (-200) (VirtualPCIPassthroughVmiopBackingInfo "profileA");
     createPCIPassThroughDevice (-201) (VirtualPCIPassthroughVmiopBackingInfo "profileB");
     createPCIPassThroughDevice (-202)
       (VirtualPCIPassthroughDynamicBackingInfo
          [{| VendorId := 4318; DeviceId := 7864 |}] "gpu")].
Proof.
  apply (created_passthrough_devices
           {| VGPUDevices := ["profileA"; "profileB"];
              DynamicDirectPathIODevices :=
                [{| VendorID := 4318; DeviceID := 7864; ddpCustomLabel := "gpu" |}] |}).
  simpl. lia.
Defined.

Lemma created_passthrough_device_key pciDevices i dev :
  (Z.of_nat (length (VGPUDevices pciDevices)
             + length (DynamicDirectPathIODevices pciDevices)) ≤ 2 ^ 31 - 200)%Z →
  createPCIDevices pciDevices !! i = Some dev →
  deviceKey dev = (-200 - Z.of_nat i)%Z.
Proof.
  intros Hlen. unfold createPCIDevices.
  rewrite createVGPUDevices_keys by lia.
  rewrite createDynamicDirectPathDevices_keys by lia. intros Hi.
  apply lookup_app_Some in Hi as [Hi|[Hge Hi]].
  - apply list_lookup_imap_Some in Hi as (p & _ & ->). done.
  - rewrite length_imap in *.
    apply list_lookup_imap_Some in Hi as (p & _ & ->).
    unfold deviceKey. simpl. lia.
Qed.

(** ** The network interfaces of the spec *)

Section NetworkInterfaces.

Context (h : Collaborators).

Lemma ensureNetworkInterfacesFrom_Ok vifs : ∀ answers deviceKey st,
  (- 2 ^ 31 ≤ deviceKey - Z.of_nat (length vifs) ∧ deviceKey < 2 ^ 31)%Z →
  Forall2 (λ vif answer, EnsureNetworkInterface h vif = Ok answer) vifs answers →
  ensureNetworkInterfacesFrom h deviceKey vifs st
  = (Ok (imap (λ i answer, withDeviceKey (deviceKey - Z.of_nat i) answer) answers),
     {| status := st; calls := map CallEnsureNetworkInterface vifs |}).
Proof.
  induction vifs as [|vif vifs IH]; intros answers deviceKey st Hkey Hanswers.
  - apply Forall2_nil_inv_l in Hanswers as ->. done.
  - apply Forall2_cons_inv_l in Hanswers as (answer & answers' & Hanswer & Hanswers & ->).
    simpl in Hkey. simpl.
    erewrite bind_Ok; [|unfold call; by rewrite Hanswer]. simpl.
    erewrite bind_Ok; [|apply IH; [rewrite wrap32_small by lia; lia|done]]. simpl.
    rewrite wrap32_small by lia. rewrite Z.sub_0_r, app_nil_r. do 3 f_equal.
    apply imap_ext. intros i x _. simpl. f_equal. lia.
Qed.

Lemma ensureNetworkInterfacesFrom_Ok_inv vifs : ∀ deviceKey st infos w,
  ensureNetworkInterfacesFrom h deviceKey vifs st = (Ok infos, w) →
  ∃ answers, Forall2 (λ vif answer, EnsureNetworkInterface h vif = Ok answer) vifs answers.
Proof.
  induction vifs as [|vif vifs IH]; intros deviceKey st infos w Hrun.
  - by exists [].
  - simpl in Hrun.
    apply bind_Ok_inv in Hrun as (answer & w1 & w2 & Hcall & Hrest & _).
    apply bind_Ok_inv in Hrest as (infos' & w3 & w4 & Hrec & _ & _).
    apply IH in Hrec as (answers & Hanswers).
    exists (answer :: answers). constructor; [|done].
    unfold call in Hcall. by injection Hcall as -> _.
Qed.

Lemma ensureNetworkInterfacesFrom_Err pre : ∀ vif post e deviceKey st,
  Forall (λ v, ∃ answer, EnsureNetworkInterface h v = Ok answer) pre →
  EnsureNetworkInterface h vif = Err e →
  ensureNetworkInterfacesFrom h deviceKey (pre ++ vif :: post) st
  = (Err e, {| status := st; calls := map CallEnsureNetworkInterface (pre ++ [vif]) |}).
Proof.
  induction pre as [|v pre IH]; intros vif post e deviceKey st Hpre Hvif; simpl.
  - erewrite bind_Err; [done|]. unfold call. by rewrite Hvif.
  - apply Forall_cons in Hpre as [[answer Hanswer] Hpre].
    erewrite bind_Ok; [|unfold call; by rewrite Hanswer]. simpl.
    erewrite bind_Err; [|by apply IH]. done.
Qed.

End NetworkInterfaces.

(** X6. When the network provider answers for every interface of the spec,
    the engine asks it once per interface, in spec order, and returns one
    interface per answer, in that order, each as the provider gave it but
    for the device key: the i-th device (from 0) gets the key -100 - i. The
    status is not touched. *)
Theorem network_interfaces_in_spec_order (h : Collaborators) (vm : VirtualMachine)
    (answers : list NetworkInterfaceInfo) (st : VirtualMachineStatus) :
  (Z.of_nat (length (NetworkInterfaces (Spec vm))) ≤ 2 ^ 31 - 100)%Z →
  Forall2 (λ vif answer, EnsureNetworkInterface h vif = Ok answer)
          (NetworkInterfaces (Spec vm)) answers →
  ensureNetworkInterfaces h vm st
  = (Ok (imap (λ i answer, withDeviceKey (-100 - Z.of_nat i) answer) answers),
     {| status := st;
        calls := map CallEnsureNetworkInterface (NetworkInterfaces (Spec vm)) |}).
Proof.
  intros Hlen Hanswers. unfold ensureNetworkInterfaces.
  by apply ensureNetworkInterfacesFrom_Ok; [lia|].
Qed.

Lemma network_interfaces_in_spec_order_witness :
  let h := withNetworkProvider exampleNetworkProvider
             (exampleCollaborators Panic Panic Panic Panic Panic) in
  let vm := exampleVMWith "poweredOn" [exampleVif "net-b"; exampleVif "net-a"] [] in
  (ensureNetworkInterfaces h vm exampleStatus).1
  = Ok [{| niDevice := setDeviceKey (-100) (EthernetCardDevice nicOnNetB);
           niCustomization := None;
           niIPConfiguration := {| ipcIP := "10.0.1.5"; ipcGateway := "10.0.1.1" |} |};
        {| niDevice := setDeviceKey (-101) (EthernetCardDevice nicOnNetA');
           niCustomization := None;
           niIPConfiguration := {| ipcIP := "10.0.0.5"; ipcGateway := "10.0.0.1" |} |}].
Proof.
  intros h vm.
  rewrite (network_interfaces_in_spec_order h vm
             [{| niDevice := EthernetCardDevice nicOnNetB;
                 niCustomization := None;
                 niIPConfiguration := {| ipcIP := "10.0.1.5"; ipcGateway := "10.0.1.1" |} |};
              {| niDevice := EthernetCardDevice nicOnNetA';
                 niCustomization := None;
                 niIPConfiguration := {| ipcIP := "10.0.0.5"; ipcGateway := "10.0.0.1" |} |}]
             exampleStatus).
  - reflexivity.
  - simpl. lia.
  - by repeat constructor.
Defined.

(** X7. The first interface the network provider refuses ends the loop: its
    error is returned as it is, no interface list is returned, the provider
    has been asked for the interfaces up to and including the refused one
    and for none after it, and the status is not touched. *)
Theorem network_interface_failure_stops_the_loop (h : Collaborators) (vm : VirtualMachine)
    (before after : list VirtualMachineNetworkInterface)
    (vif : VirtualMachineNetworkInterface) (e : error) (st : VirtualMachineStatus) :
  NetworkInterfaces (Spec vm) = before ++ vif :: after →
  Forall (λ v, ∃ answer, EnsureNetworkInterface h v = Ok answer) before →
  EnsureNetworkInterface h vif = Err e →
  ensureNetworkInterfaces h vm st
  = (Err e, {| status := st; calls := map CallEnsureNetworkInterface (before ++ [vif]) |}).
Proof.
  intros Hvifs Hbefore Hvif. unfold ensureNetworkInterfaces. rewrite Hvifs.
  by apply ensureNetworkInterfacesFrom_Err.
Qed.

Lemma network_interface_failure_stops_the_loop_witness :
  let h := withNetworkProvider exampleNetworkProvider
             (exampleCollaborators Panic Panic Panic Panic Panic) in
  let vm := exampleVMWith "poweredOn"
              [exampleVif "net-b"; exampleVif "net-c"; exampleVif "net-a"] [] in
  ensureNetworkInterfaces h vm exampleStatus
  = (Err (ExternalError "network not found"),
     {| status := exampleStatus;
        calls := [CallEnsureNetworkInterface (exampleVif "net-b");
                  CallEnsureNetworkInterface (exampleVif "net-c")] |}).
Proof.
  intros h vm.
  apply (network_interface_failure_stops_the_loop h vm
           [exampleVif "net-b"] [exampleVif "net-a"] (exampleVif "net-c")).
  - reflexivity.
  - repeat constructor. by eexists.
  - reflexivity.
Defined.

(** X8. The placeholder keys of the two device kinds stay apart as long as
    the spec has at most 100 interfaces: no interface the engine returns
    has the key of a passthrough device built from the class. The bound is
    the exact one: an interface at position 100 gets the key -200, the key
    of the first passthrough device. *)
Theorem placeholder_keys_stay_apart (h : Collaborators) (vm : VirtualMachine)
    (pciDevices : VirtualDevices) (st : VirtualMachineStatus)
    (netIfList : list NetworkInterfaceInfo) (w : World) :
  (Z.of_nat (length (VGPUDevices pciDevices)
             + length (DynamicDirectPathIODevices pciDevices)) ≤ 2 ^ 31 - 200)%Z →
  (Z.of_nat (length (NetworkInterfaces (Spec vm))) ≤ 2 ^ 31 - 100)%Z →
  ensureNetworkInterfaces h vm st = (Ok netIfList, w) →
  (length (NetworkInterfaces (Spec vm)) ≤ 100 →
   ∀ info dev, info ∈ netIfList → dev ∈ createPCIDevices pciDevices →
               deviceKey (niDevice info) ≠ deviceKey dev)
  ∧ (∀ info dev, netIfList !! 100 = Some info → createPCIDevices pciDevices !! 0 = Some dev →
                 deviceKey (niDevice info) = deviceKey dev).
Proof.
  intros Hpci Hlen Hrun.
  destruct (ensureNetworkInterfacesFrom_Ok_inv h _ _ _ _ _ Hrun) as (answers & Hanswers).
  unfold ensureNetworkInterfaces in Hrun.
  rewrite (ensureNetworkInterfacesFrom_Ok h _ answers (-100) st) in Hrun by (done || lia).
  injection Hrun as <- _.
  assert (Hkey : ∀ i info,
            imap (λ i answer, withDeviceKey (-100 - Z.of_nat i) answer) answers !! i = Some info →
            deviceKey (niDevice info) = (-100 - Z.of_nat i)%Z ∧ i < length answers).
  { intros i info Hi. apply list_lookup_imap_Some in Hi as (answer & Hanswer & ->).
    split; [apply deviceKey_setDeviceKey|by eapply lookup_lt_Some]. }
  pose proof (Forall2_length _ _ _ Hanswers) as Hsame.
  split.
  - intros Hfew info dev Hinfo Hdev.
    apply list_elem_of_lookup in Hinfo as (i & Hi). apply Hkey in Hi as [-> Hi].
    apply list_elem_of_lookup in Hdev as (j & Hj).
    rewrite (created_passthrough_device_key pciDevices j dev Hpci Hj). lia.
  - intros info dev Hinfo Hdev. apply Hkey in Hinfo as [-> _].
    by rewrite (created_passthrough_device_key pciDevices 0 dev Hpci Hdev).
Qed.

Lemma placeholder_keys_stay_apart_witness :
  let h := withNetworkProvider exampleNetworkProvider
             (exampleCollaborators Panic Panic Panic Panic Panic) in
  let vm := exampleVMWith "poweredOn" [exampleVif "net-b"; exampleVif "net-a"] [] in
  let pciDevices := {| VGPUDevices := ["profileA"]; DynamicDirectPathIODevices := [] |} in
  ∃ netIfList w,
    ensureNetworkInterfaces h vm exampleStatus = (Ok netIfList, w)
    ∧ Forall (λ info, Forall (λ dev, deviceKey (niDevice info) ≠ deviceKey dev)
                             (createPCIDevices pciDevices)) netIfList.
Proof.
  intros h vm pciDevices.
  destruct (ensureNetworkInterfaces h vm exampleStatus) as [[netIfList| |] w] eqn:Hrun;
    try discriminate Hrun.
  exists netIfList, w. split; [reflexivity|].
  apply Forall_forall. intros info Hinfo. apply Forall_forall. intros dev Hdev.
  apply (placeholder_keys_stay_apart h vm pciDevices exampleStatus netIfList w);
    try done; simpl; lia.
Defined.

(** ** Volumes before the power-on *)

Lemma findVolumeStatus_Some name statuses volumeStatus :
  findVolumeStatus name statuses = Some volumeStatus
  ↔ ∃ i, statuses !! i = Some volumeStatus
         ∧ volStatusName volumeStatus = name
         ∧ ∀ j earlier, j < i → statuses !! j = Some earlier → volStatusName earlier ≠ name.
Proof.
  induction statuses as [|vs rest IH]; simpl.
  - split; [done|]. by intros (i & Hi & _).
  - destruct (decide (volStatusName vs = name)) as [Hname|Hname].
    + rewrite bool_decide_eq_true_2 by done. split.
      * intros [= <-]. exists 0. split_and!; [done|done|]. intros j earlier Hj. lia.
      * intros (i & Hi & _ & Hfirst). destruct i as [|i]; [by injection Hi as ->|].
        by destruct (Hfirst 0 vs ltac:(lia) eq_refl).
    + rewrite bool_decide_eq_false_2 by done. rewrite IH. split.
      * intros (i & Hi & Hn & Hfirst). exists (S i). split_and!; [done|done|].
        intros [|j] earlier Hj Hearlier; simpl in Hearlier.
        -- by injection Hearlier as <-.
        -- apply (Hfirst j); [lia|done].
      * intros (i & Hi & Hn & Hfirst). destruct i as [|i].
        -- injection Hi as ->. done.
        -- exists i. split_and!; [done|done|].
           intros j earlier Hj Hearlier. apply (Hfirst (S j)); [lia|done].
Qed.

Lemma checkCNSVolumes_None volumes statuses :
  checkCNSVolumes volumes statuses = None
  ↔ ∀ volume, volume ∈ volumes → PersistentVolumeClaim volume = true →
              AttachedByStatus (volName volume) statuses.
Proof.
  induction volumes as [|v rest IH]; simpl.
  - split; [|done]. by intros _ volume ?%elem_of_nil.
  - destruct (PersistentVolumeClaim v) eqn:Hpvc; simpl.
    + destruct (findVolumeStatus (volName v) statuses) as [vs|] eqn:Hfind.
      * destruct (Attached vs) eqn:Hattached; simpl.
        -- rewrite IH. split.
           ++ intros Hrest volume [->|Hin]%elem_of_cons Hclaim; [|by apply Hrest].
              apply findVolumeStatus_Some in Hfind as (i & Hi & Hn & Hfirst).
              by exists i, vs.
           ++ intros Hall volume Hin. apply Hall. by right.
        -- split; [done|]. intros Hall.
           destruct (Hall v ltac:(left) Hpvc) as (i & vs' & Hi & Hn & Hatt & Hfirst).
           assert (findVolumeStatus (volName v) statuses = Some vs') as Hfind'.
           { apply findVolumeStatus_Some. by exists i. }
           congruence.
      * split; [done|]. intros Hall.
        destruct (Hall v ltac:(left) Hpvc) as (i & vs' & Hi & Hn & Hatt & Hfirst).
        assert (findVolumeStatus (volName v) statuses = Some vs') as Hfind'.
        { apply findVolumeStatus_Some. by exists i. }
        congruence.
    + rewrite IH. split.
      * intros Hrest volume [->|Hin]%elem_of_cons Hclaim; [congruence|by apply Hrest].
      * intros Hall volume Hin. apply Hall. by right.
Qed.

Lemma checkCNSVolumes_Some volumes statuses err :
  checkCNSVolumes volumes statuses = Some err →
  ∃ before volume after,
    volumes = before ++ volume :: after
    ∧ PersistentVolumeClaim volume = true
    ∧ checkCNSVolumes before statuses = None
    ∧ ((∃ volumeStatus, findVolumeStatus (volName volume) statuses = Some volumeStatus
                         ∧ Attached volumeStatus = false
                         ∧ err = Errorf ("Persistent volume: " +:+ volName volume
                                         +:+ " not attached to VM"))
       ∨ (findVolumeStatus (volName volume) statuses = None
          ∧ err = Errorf ("Status update pending for persistent volume: "
                          +:+ volName volume +:+ " on VM"))).
Proof.
  induction volumes as [|v rest IH]; simpl; [done|].
  destruct (PersistentVolumeClaim v) eqn:Hpvc; simpl.
  - destruct (findVolumeStatus (volName v) statuses) as [vs|] eqn:Hfind.
    + destruct (Attached vs) eqn:Hattached; simpl.
      * intros (before & volume & after & -> & Hclaim & Hbefore & Hwhy)%IH.
        exists (v :: before), volume, after. split_and!; try done.
        simpl. by rewrite Hpvc, Hfind, Hattached.
      * intros [= <-]. exists [], v, rest. split_and!; try done.
        left. by exists vs.
    + intros [= <-]. exists [], v, rest. split_and!; try done. by right.
  - intros (before & volume & after & -> & Hclaim & Hbefore & Hwhy)%IH.
    exists (v :: before), volume, after. split_and!; try done.
    simpl. by rewrite Hpvc.
Qed.

(** X9. The volume check before a power-on only reads: it issues no call
    and leaves the status as it is. It succeeds exactly when every volume
    of the spec that is a persistent volume claim is attached according to
    the first status entry of its name; volumes of other kinds are not
    looked at. Otherwise it returns an error about the first claim of the
    spec that is not ready: that it is not attached when its first status
    entry says so, that its status update is pending when there is no
    entry of its name. *)
Theorem volumes_gate_the_power_on (vm : VirtualMachine) (st : VirtualMachineStatus) :
  (ensureCNSVolumes vm st).2 = {| status := st; calls := [] |}
  ∧ ((ensureCNSVolumes vm st).1 = Ok tt
     ↔ ∀ volume, volume ∈ Volumes (Spec vm) → PersistentVolumeClaim volume = true →
                 AttachedByStatus (volName volume) (status_Volumes st))
  ∧ ((ensureCNSVolumes vm st).1 = Ok tt
     ∨ ∃ before volume after,
         Volumes (Spec vm) = before ++ volume :: after
         ∧ PersistentVolumeClaim volume = true
         ∧ (∀ v, v ∈ before → PersistentVolumeClaim v = true →
                 AttachedByStatus (volName v) (status_Volumes st))
         ∧ ((∃ volumeStatus,
               findVolumeStatus (volName volume) (status_Volumes st) = Some volumeStatus
               ∧ Attached volumeStatus = false
               ∧ (ensureCNSVolumes vm st).1
                 = Err (Errorf ("Persistent volume: " +:+ volName volume
                                +:+ " not attached to VM")))
            ∨ (findVolumeStatus (volName volume) (status_Volumes st) = None
               ∧ (ensureCNSVolumes vm st).1
                 = Err (Errorf ("Status update pending for persistent volume: "
                                +:+ volName volume +:+ " on VM"))))).
Proof.
  unfold ensureCNSVolumes. rewrite (bind_Ok _ _ st st {| status := st; calls := [] |} eq_refl).
  simpl.
  destruct (checkCNSVolumes (Volumes (Spec vm)) (status_Volumes st)) as [err|] eqn:Hcheck;
    simpl.
  - split_and!; [done| |].
    + split; [done|]. intros Hall%checkCNSVolumes_None. congruence.
    + right. apply checkCNSVolumes_Some in Hcheck
        as (before & volume & after & Hvolumes & Hclaim & Hbefore & Hwhy).
      exists before, volume, after. split_and!; [done|done|by apply checkCNSVolumes_None|].
      destruct Hwhy as [(vs & Hfind & Hattached & ->)|[Hfind ->]]; [left|right]; eauto.
  - split_and!; [done| |by left].
    split; [|done]. intros _. by apply checkCNSVolumes_None.
Qed.

(** ** Affinity attachment *)

(** X10. What the affinity attacher never does. It never touches the
    status. With either of the two annotations missing or empty it returns
    at once, without a call. It adds the VM to a cluster module only after
    that module has answered that the VM is not a member. It attaches the
    tag only to a VM that is a member of the module found for the
    annotation, by the module's own answer or by an addition that
    succeeded; the tag and its category are the ones the tag table gives
    for the annotation and for the category key. *)
Theorem affinity_attacher_order (k : Constants) (s : Session) (h : Collaborators)
    (vm : VirtualMachine) (resVM : ResVirtualMachine)
    (resourcePolicy : option VirtualMachineSetResourcePolicy) (st : VirtualMachineStatus) :
  let run := attachTagsAndModules k s h vm resVM resourcePolicy st in
  let clusterModuleName := mapGet (Annotations vm) (ClusterModuleNameKey k) in
  let providerTagsName := mapGet (Annotations vm) (ProviderTagsAnnotationKey k) in
  status run.2 = st
  ∧ (clusterModuleName = "" ∨ providerTagsName = "" → run = (Ok tt, {| status := st; calls := [] |}))
  ∧ (∀ moduleUuid,
       CallAddVmToClusterModule moduleUuid ∈ calls run.2 →
       IsVmMemberOfClusterModule h moduleUuid = Ok false
       ∧ calls run.2 !! 0 = Some (CallIsVmMemberOfClusterModule moduleUuid))
  ∧ (∀ tagName tagCategoryName,
       CallAttachTagToVm tagName tagCategoryName ∈ calls run.2 →
       ∃ policy moduleUuid,
         resourcePolicy = Some policy
         ∧ moduleUuid = findModuleUuid clusterModuleName (ClusterModules policy)
         ∧ moduleUuid ≠ ""
         ∧ (IsVmMemberOfClusterModule h moduleUuid = Ok true
            ∨ (IsVmMemberOfClusterModule h moduleUuid = Ok false
               ∧ AddVmToClusterModule h moduleUuid = Ok tt))
         ∧ tagName = mapGet (s_tagInfo s) providerTagsName
         ∧ tagCategoryName = mapGet (s_tagInfo s) (ProviderTagCategoryNameKey k)
         ∧ run.1 = AttachTagToVm h tagName tagCategoryName).
Proof.
  intros run clusterModuleName providerTagsName.
  unfold run, attachTagsAndModules.
  fold clusterModuleName providerTagsName.
  destruct (decide (clusterModuleName = "")) as [Hmodule|Hmodule].
  { rewrite (bool_decide_eq_true_2 _ Hmodule). simpl.
    split_and!; [done|done|by intros ? ?%elem_of_nil|by intros ? ? ?%elem_of_nil]. }
  rewrite (bool_decide_eq_false_2 _ Hmodule).
  destruct (decide (providerTagsName = "")) as [Htags|Htags].
  { rewrite (bool_decide_eq_true_2 _ Htags). simpl.
    split_and!; [done|done|by intros ? ?%elem_of_nil|by intros ? ? ?%elem_of_nil]. }
  rewrite (bool_decide_eq_false_2 _ Htags). simpl.
  destruct resourcePolicy as [policy|]; simpl.
  2: { split_and!; [done|tauto|by intros ? ?%elem_of_nil|by intros ? ? ?%elem_of_nil]. }
  destruct (decide (findModuleUuid clusterModuleName (ClusterModules policy) = ""))
    as [Hfound|Hfound].
  { rewrite (bool_decide_eq_true_2 _ Hfound). simpl.
    split_and!; [done|tauto|by intros ? ?%elem_of_nil|by intros ? ? ?%elem_of_nil]. }
  rewrite (bool_decide_eq_false_2 _ Hfound).
  set (moduleUuid := findModuleUuid clusterModuleName (ClusterModules policy)) in *.
  unfold mbind, M_bind, call, mret, M_ret.
  destruct (IsVmMemberOfClusterModule h moduleUuid) as [[|]| |] eqn:Hmember; simpl.
  - split_and!; [done|tauto| |].
    + intros u Hu. repeat (apply elem_of_cons in Hu as [Hu|Hu]; [discriminate Hu|]).
      by apply elem_of_nil in Hu.
    + intros t c Hin. exists policy, moduleUuid.
      repeat (apply elem_of_cons in Hin as [Hin|Hin]; [try discriminate Hin|]).
      * injection Hin as -> ->. split_and!; try done. by left.
      * by apply elem_of_nil in Hin.
  - destruct (AddVmToClusterModule h moduleUuid) as [[]| |] eqn:Hadd; simpl.
    + split_and!; [done|tauto| |].
      * intros u Hu. repeat (apply elem_of_cons in Hu as [Hu|Hu]; [try discriminate Hu|]).
        -- by injection Hu as ->.
        -- by apply elem_of_nil in Hu.
      * intros t c Hin. exists policy, moduleUuid.
        repeat (apply elem_of_cons in Hin as [Hin|Hin]; [try discriminate Hin|]).
        -- injection Hin as -> ->. split_and!; try done. by right.
        -- by apply elem_of_nil in Hin.
    + split_and!; [done|tauto| |].
      * intros u Hu. repeat (apply elem_of_cons in Hu as [Hu|Hu]; [try discriminate Hu|]).
        -- by injection Hu as ->.
        -- by apply elem_of_nil in Hu.
      * intros t c Hin.
        repeat (apply elem_of_cons in Hin as [Hin|Hin]; [discriminate Hin|]).
        by apply elem_of_nil in Hin.
    + split_and!; [done|tauto| |].
      * intros u Hu. repeat (apply elem_of_cons in Hu as [Hu|Hu]; [try discriminate Hu|]).
        -- by injection Hu as ->.
        -- by apply elem_of_nil in Hu.
      * intros t c Hin.
        repeat (apply elem_of_cons in Hin as [Hin|Hin]; [discriminate Hin|]).
        by apply elem_of_nil in Hin.
  - split_and!; [done|tauto| |].
    + intros u Hu. repeat (apply elem_of_cons in Hu as [Hu|Hu]; [discriminate Hu|]).
      by apply elem_of_nil in Hu.
    + intros t c Hin.
      repeat (apply elem_of_cons in Hin as [Hin|Hin]; [discriminate Hin|]).
      by apply elem_of_nil in Hin.
  - split_and!; [done|tauto| |].
    + intros u Hu. repeat (apply elem_of_cons in Hu as [Hu|Hu]; [discriminate Hu|]).
      by apply elem_of_nil in Hu.
    + intros t c Hin.
      repeat (apply elem_of_cons in Hin as [Hin|Hin]; [discriminate Hin|]).
      by apply elem_of_nil in Hin.
Qed.

(** ** Status projection when the hypervisor answers *)

(** X11. A status projection that succeeds overwrites the status wholesale:
    when the property fetch answers, the host name resolves (or the summary
    names no host) and every guest NIC has an IP configuration, the
    projector returns without error and leaves a status made of the
    hypervisor's data alone. Of the status it found only the volume
    statuses are left; an absent guest clears the IP and the NIC list, an
    absent host reference clears the host. Its calls are the fetch and, when
    the summary names a host, one host-name lookup. *)
Theorem status_projection_overwrites (h : Collaborators) (vm : VirtualMachine)
    (resVM : ResVirtualMachine) (moVM : MoVirtualMachine) (hostName : string)
    (networkIfStatuses : list NetworkInterfaceStatus) (st : VirtualMachineStatus) :
  GetProperties h statusProperties = Ok moVM →
  resolvedHost h (mo_Summary moVM) = Ok hostName →
  guestNetworkIfStatuses (mo_Guest moVM) = Ok networkIfStatuses →
  updateVMStatus h vm resVM st
  = (Ok tt,
     {| status :=
          {| Phase := Created;
             status_PowerState := runtime_PowerState (summary_Runtime (mo_Summary moVM));
             UniqueID := MoRefValue resVM;
             BiosUUID := summary_Uuid (mo_Summary moVM);
             InstanceUUID := summary_InstanceUuid (mo_Summary moVM);
             Host := hostName;
             VmIp := match mo_Guest moVM with
                     | Some guest => guestIpAddress guest
                     | None => ""
                     end;
             status_NetworkInterfaces := networkIfStatuses;
             status_ChangeBlockTracking :=
               match mo_Config moVM with
               | Some config => config_ChangeTrackingEnabled config
               | None => None
               end;
             status_Volumes := status_Volumes st |};
        calls := CallGetProperties statusProperties :: hostLookups (mo_Summary moVM) |}).
Proof.
  intros Hfetch Hhost Hguest.
  unfold updateVMStatus, projectHost, projectGuest, projectChangeBlockTracking,
    resolvedHost, hostLookups, guestNetworkIfStatuses in *.
  unfold mbind, M_bind, call, attempt, setStatus, liftResult, mret, M_ret.
  rewrite Hfetch. simpl.
  destruct (runtime_Host (summary_Runtime (mo_Summary moVM))) as [host|].
  - rewrite Hhost. simpl. destruct (mo_Guest moVM) as [guest|]; simpl.
    + by rewrite Hguest.
    + by injection Hguest as <-.
  - injection Hhost as <-. simpl. destruct (mo_Guest moVM) as [guest|]; simpl.
    + by rewrite Hguest.
    + by injection Hguest as <-.
Qed.

Lemma status_projection_overwrites_witness :
  let moVM := exampleMoVM (Some (exampleConfig [] [] (Some true))) VirtualMachinePoweredOn
                          (Some "host-7") None in
  let h := exampleCollaborators (Ok moVM) (Ok moVM) (Ok "esx-1") (Ok tt) (Ok tt) in
  updateVMStatus h (exampleVM VirtualMachinePoweredOn ∅ None) {| MoRefValue := "vm-42" |}
                 exampleStatus
  = (Ok tt,
     {| status := {| Phase := Created;
                     status_PowerState := VirtualMachinePoweredOn;
                     UniqueID := "vm-42";
                     BiosUUID := "4210-bios";
                     InstanceUUID := "5010-instance";
                     Host := "esx-1";
                     VmIp := "";
                     status_NetworkInterfaces := [];
                     status_ChangeBlockTracking := Some true;
                     status_Volumes := [] |};
        calls := [CallGetProperties statusProperties; CallHostObjectName "host-7"] |}).
Proof.
  intros moVM h.
  by apply (status_projection_overwrites h (exampleVM VirtualMachinePoweredOn ∅ None)
              {| MoRefValue := "vm-42" |} moVM "esx-1" [] exampleStatus).
Defined.

Lemma networkIfStatusesOf_Panic nics nicInfo :
  nicInfo ∈ nics → IpConfig nicInfo = None → networkIfStatusesOf nics = Panic.
Proof.
  intros Hin Hnil. induction nics as [|n rest IH]; [by apply elem_of_nil in Hin|].
  simpl. unfold nicInfoToNetworkIfStatus at 1.
  apply elem_of_cons in Hin as [<-|Hin].
  - by rewrite Hnil.
  - destruct (IpConfig n); [|done]. simpl. by rewrite (IH Hin).
Qed.

Lemma networkIfStatusesOf_Ok nics :
  Forall (λ nicInfo, IpConfig nicInfo ≠ None) nics →
  ∃ networkIfStatuses,
    networkIfStatusesOf nics = Ok networkIfStatuses
    ∧ map nisMacAddress networkIfStatuses = map nicMacAddress nics
    ∧ map Connected networkIfStatuses = map nicConnected nics.
Proof.
  induction 1 as [|n rest Hn Hrest (sts & IH & Hmac & Hconnected)]; [by exists []|].
  simpl. unfold nicInfoToNetworkIfStatus at 1.
  destruct (IpConfig n) as [ips|]; [|done]. simpl. rewrite IH. simpl.
  eexists. split; [done|]. simpl. by rewrite Hmac, Hconnected.
Qed.

(** X12. A guest NIC without an IP configuration makes status projection
    panic: the conversion of a NIC reads the field through a nil pointer.
    The panic comes after the identity fields, the host and the guest IP
    have been written and before the NIC list and the change tracking are,
    so these two keep the values found. When every NIC has an IP
    configuration the conversion gives one status per NIC, in order, with
    the NIC's MAC address and connection flag. *)
Theorem guest_nic_without_ip_config (h : Collaborators) (vm : VirtualMachine)
    (resVM : ResVirtualMachine) (moVM : MoVirtualMachine) (guest : GuestInfo)
    (st : VirtualMachineStatus) :
  GetProperties h statusProperties = Ok moVM →
  mo_Guest moVM = Some guest →
  let run := updateVMStatus h vm resVM st in
  ((∃ nicInfo, nicInfo ∈ Net guest ∧ IpConfig nicInfo = None) →
   run.1 = Panic
   ∧ status_NetworkInterfaces (status run.2) = status_NetworkInterfaces st
   ∧ status_ChangeBlockTracking (status run.2) = status_ChangeBlockTracking st)
  ∧ (Forall (λ nicInfo, IpConfig nicInfo ≠ None) (Net guest) →
     run.1 ≠ Panic ∨ (∃ host, HostObjectName h host = Panic)).
Proof.
  intros Hfetch Hguest run. unfold run, updateVMStatus, projectHost, projectGuest,
    projectChangeBlockTracking.
  unfold mbind, M_bind, call, attempt, setStatus, liftResult, mret, M_ret.
  rewrite Hfetch, Hguest. simpl. split.
  - intros (nicInfo & Hin & Hnil). rewrite (networkIfStatusesOf_Panic _ _ Hin Hnil).
    destruct (runtime_Host (summary_Runtime (mo_Summary moVM))) as [host|]; simpl; [|done].
    by destruct (HostObjectName h host).
  - intros (sts & -> & _)%networkIfStatusesOf_Ok.
    destruct (runtime_Host (summary_Runtime (mo_Summary moVM))) as [host|]; simpl.
    + destruct (HostObjectName h host) eqn:Hlookup; simpl; [by left|by left|right; eauto].
    + by left.
Qed.

Lemma guest_nic_without_ip_config_witness :
  let guest := {| guestIpAddress := "10.0.0.5";
                  Net := [{| nicConnected := true; nicMacAddress := "aa:bb";
                             IpConfig := None |}] |} in
  let moVM := exampleMoVM (Some (exampleConfig [] [] (Some true))) VirtualMachinePoweredOn
                          (Some "host-7") (Some guest) in
  let h := exampleCollaborators (Ok moVM) (Ok moVM) (Ok "esx-1") (Ok tt) (Ok tt) in
  let run := updateVMStatus h (exampleVM VirtualMachinePoweredOn ∅ None)
                            {| MoRefValue := "vm-42" |} exampleStatus in
  run.1 = Panic
  ∧ status_NetworkInterfaces (status run.2) = []
  ∧ status_ChangeBlockTracking (status run.2) = None.
Proof.
  intros guest moVM h run.
  apply (guest_nic_without_ip_config h (exampleVM VirtualMachinePoweredOn ∅ None)
           {| MoRefValue := "vm-42" |} moVM guest exampleStatus eq_refl eq_refl).
  eexists. split; [left|reflexivity].
Defined.

(** ** A VM that is to be off *)

Lemma UpdateVirtualMachine_writes k s h vm vmConfigArgs st :
  hypervisorWrites (calls (UpdateVirtualMachine k s h vm vmConfigArgs st).2)
  = hypervisorWrites (calls (convergePowerState k s h vm vmConfigArgs st).2).
Proof.
  unfold hypervisorWrites. rewrite UpdateVirtualMachine_split.
  apply filter_calls_bind_l. intros resVM.
  apply Avoids_bind; [by apply updateVMStatus_Avoids|intros _].
  apply attachTagsAndModules_Avoids. by intros [].
Qed.

(** X13. For a VM whose spec says powered off, a pass writes nothing to
    the hypervisor but, at most, one power-off: no reconfigure, no
    customization, no power-on. It powers the VM off exactly when the
    hypervisor reports another power state, and when that power-off fails
    the pass returns its error at once, before status projection and
    affinity attachment, with the BIOS UUID the only status field
    written. *)
Theorem vm_wanted_off_is_only_powered_off (k : Constants) (s : Session) (h : Collaborators)
    (vm : VirtualMachine) (vmConfigArgs : VmConfigArgs) (st : VirtualMachineStatus) :
  PowerState (Spec vm) = VirtualMachinePoweredOff →
  let run := UpdateVirtualMachine k s h vm vmConfigArgs st in
  (hypervisorWrites (calls run.2) = []
   ∨ hypervisorWrites (calls run.2) = [CallSetPowerState VirtualMachinePoweredOff])
  ∧ (∀ resVM moVM config,
       GetVirtualMachine h = Ok resVM →
       GetProperties h configProperties = Ok moVM →
       mo_Config moVM = Some config →
       (runtime_PowerState (mo_Runtime moVM) = VirtualMachinePoweredOff →
        hypervisorWrites (calls run.2) = [])
       ∧ (runtime_PowerState (mo_Runtime moVM) ≠ VirtualMachinePoweredOff →
          hypervisorWrites (calls run.2) = [CallSetPowerState VirtualMachinePoweredOff]
          ∧ ∀ e, SetPowerState h VirtualMachinePoweredOff = Err e →
                 run = (Err e,
                        {| status := setStatusBiosUUID (config_Uuid config) st;
                           calls := [CallGetVirtualMachine;
                                     CallGetProperties configProperties;
                                     CallSetPowerState VirtualMachinePoweredOff] |}))).
Proof.
  intros Hoff run. unfold run. rewrite UpdateVirtualMachine_writes. split.
  - unfold convergePowerState, mbind, M_bind, call, liftResult, setStatus, mret, M_ret.
    rewrite (bool_decide_eq_true_2 _ Hoff).
    destruct (GetVirtualMachine h) as [resVM| |]; simpl; [|by left..].
    destruct (GetProperties h configProperties) as [moVM| |]; simpl; [|by left..].
    destruct (mo_Config moVM) as [config|]; simpl; [|by left].
    destruct (bool_decide (runtime_PowerState (mo_Runtime moVM) = VirtualMachinePoweredOff));
      simpl; [by left|].
    destruct (SetPowerState h VirtualMachinePoweredOff) as [[]| |]; simpl; by right.
  - intros resVM moVM config HresVM HmoVM Hconfig. split.
    + intros Hfound.
      unfold convergePowerState, mbind, M_bind, call, liftResult, setStatus, mret, M_ret.
      rewrite HresVM, HmoVM, Hconfig, (bool_decide_eq_true_2 _ Hoff),
        (bool_decide_eq_true_2 _ Hfound). done.
    + intros Hfound. split.
      * unfold convergePowerState, mbind, M_bind, call, liftResult, setStatus, mret, M_ret.
        rewrite HresVM, HmoVM, Hconfig, (bool_decide_eq_true_2 _ Hoff),
          (bool_decide_eq_false_2 _ Hfound). simpl.
        by destruct (SetPowerState h VirtualMachinePoweredOff) as [[]| |].
      * intros e Hfail. rewrite UpdateVirtualMachine_split. apply bind_Err.
        unfold convergePowerState, mbind, M_bind, call, liftResult, setStatus, mret, M_ret.
        rewrite HresVM, HmoVM, Hconfig, (bool_decide_eq_true_2 _ Hoff),
          (bool_decide_eq_false_2 _ Hfound). simpl. by rewrite Hfail.
Qed.

Lemma vm_wanted_off_is_only_powered_off_witness :
  let moVM := exampleMoVM (Some (exampleConfig [] [] None)) VirtualMachinePoweredOn
                          (Some "host-7") None in
  let h := exampleCollaborators (Ok moVM) (Ok moVM) (Ok "esx-1") (Ok tt) (Ok tt) in
  hypervisorWrites
    (calls (UpdateVirtualMachine exampleConstants (exampleSession false ∅) h
              (exampleVM VirtualMachinePoweredOff ∅ None)
              (exampleArgs false {| VGPUDevices := []; DynamicDirectPathIODevices := [] |})
              exampleStatus).2)
  = [CallSetPowerState VirtualMachinePoweredOff].
Proof.
  intros moVM h.
  pose proof (vm_wanted_off_is_only_powered_off exampleConstants (exampleSession false ∅) h
                (exampleVM VirtualMachinePoweredOff ∅ None)
                (exampleArgs false {| VGPUDevices := []; DynamicDirectPathIODevices := [] |})
                exampleStatus eq_refl) as H.
  cbv zeta in H. destruct H as [_ H].
  destruct (H {| MoRefValue := "vm-42" |} moVM (exampleConfig [] [] None)
              eq_refl eq_refl eq_refl) as [_ Hrunning].
  apply Hrunning. discriminate.
Defined.

(** ** Preparing the power-on *)

Lemma KeepsStatus_bind {A B} (m : M A) (f : A → M B) :
  KeepsStatus m → (∀ a, KeepsStatus (f a)) → KeepsStatus (m ≫= f).
Proof.
  intros Hm Hf st. specialize (Hm st). unfold mbind, M_bind.
  destruct (m st) as [[a|e|] w]; simpl in *; try done.
  specialize (Hf a (status w)). destruct (f a (status w)) as [r w']. simpl in *. congruence.
Qed.

Lemma KeepsStatus_call {A} c (answer : result A) : KeepsStatus (call c answer).
Proof. by intros st. Qed.

Lemma KeepsStatus_attempt {A} (m : M A) : KeepsStatus m → KeepsStatus (attempt m).
Proof. intros Hm st. specialize (Hm st). unfold attempt. by destruct (m st) as [[a|e|] w]. Qed.

Lemma KeepsStatus_ensureNetworkInterfacesFrom h vifs : ∀ deviceKey,
  KeepsStatus (ensureNetworkInterfacesFrom h deviceKey vifs).
Proof.
  induction vifs as [|vif rest IH]; intros deviceKey; simpl; [by intros st|].
  apply KeepsStatus_bind; [apply KeepsStatus_call|intros info].
  apply KeepsStatus_bind; [apply IH|by intros infos st].
Qed.

Lemma KeepsStatus_prePowerOnVMReconfigure k s h vm config updateArgs :
  KeepsStatus (prePowerOnVMReconfigure k s h vm config updateArgs).
Proof.
  intros st. rewrite prePowerOnVMReconfigure_run.
  destruct (prePowerOnVMConfigSpec k s vm config updateArgs) as [configSpec| |]; try done.
  by destruct (DeepEqual configSpec defaultConfigSpec).
Qed.

Lemma customizeVM_run k s h vm config updateArgs st :
  ∃ r trace,
    customizeVM k s h vm config updateArgs st = (r, {| status := st; calls := trace |})
    ∧ (trace = [] ∨ trace = [CallCustomize (customizationSpecOf s vm updateArgs)]).
Proof.
  unfold customizeVM. destruct (bool_decide _); [by eexists _, []; split; [|left]|].
  unfold mbind, M_bind, liftResult, attempt, call.
  destruct (isCustomizationPendingExtraConfig k (config_ExtraConfig config)) as [[|]| |];
    simpl; try (by eexists _, []; split; [|left]).
  destruct (Customize h (customizationSpecOf s vm updateArgs)) as [[]|e|]; simpl.
  - eexists _, _. split; [done|by right].
  - destruct (negb (isCustomizationPendingError e)); simpl;
      (eexists _, _; split; [done|by right]).
  - eexists _, _. split; [done|by right].
Qed.

Lemma KeepsStatus_customizeVM k s h vm config updateArgs :
  KeepsStatus (customizeVM k s h vm config updateArgs).
Proof.
  intros st. destruct (customizeVM_run k s h vm config updateArgs st) as (r & trace & -> & _).
  done.
Qed.

Lemma KeepsStatus_ensureCNSVolumes vm : KeepsStatus (ensureCNSVolumes vm).
Proof.
  intros st. unfold ensureCNSVolumes, mbind, M_bind, getStatus. simpl.
  by destruct (checkCNSVolumes _ _).
Qed.

Lemma KeepsStatus_prepareVMForPowerOn k s h vm config vmConfigArgs :
  KeepsStatus (prepareVMForPowerOn k s h vm config vmConfigArgs).
Proof.
  unfold prepareVMForPowerOn, ensureNetworkInterfaces.
  apply KeepsStatus_bind; [apply KeepsStatus_ensureNetworkInterfacesFrom|intros netIfList].
  apply KeepsStatus_bind; [apply KeepsStatus_attempt, KeepsStatus_call|intros nameservers].
  apply KeepsStatus_bind; [apply KeepsStatus_prePowerOnVMReconfigure|intros _].
  apply KeepsStatus_bind; [apply KeepsStatus_customizeVM|intros _].
  apply KeepsStatus_ensureCNSVolumes.
Qed.

Lemma ensureNetworkInterfacesFrom_Avoids_any h P vifs : ∀ deviceKey,
  (∀ vif, P (CallEnsureNetworkInterface vif) = false) →
  Avoids P (ensureNetworkInterfacesFrom h deviceKey vifs).
Proof.
  induction vifs as [|vif rest IH]; intros deviceKey HP; simpl; [avoids|].
  apply Avoids_bind; [by apply Avoids_call|intros info].
  apply Avoids_bind; [by apply IH|intros infos]. avoids.
Qed.

Lemma prepareVMForPowerOn_Avoids k s h vm config vmConfigArgs P :
  (∀ vif, P (CallEnsureNetworkInterface vif) = false) →
  P CallGetNameservers = false →
  (∀ configSpec, P (CallReconfigure configSpec) = false) →
  (∀ customizationSpec, P (CallCustomize customizationSpec) = false) →
  Avoids P (prepareVMForPowerOn k s h vm config vmConfigArgs).
Proof.
  intros Hensure Hdns Hreconfigure Hcustomize.
  unfold prepareVMForPowerOn, ensureNetworkInterfaces.
  apply Avoids_bind; [by apply ensureNetworkInterfacesFrom_Avoids_any|intros netIfList].
  apply Avoids_bind; [by apply Avoids_attempt, Avoids_call|intros nameservers].
  apply Avoids_bind.
  { intros st. rewrite prePowerOnVMReconfigure_run.
    destruct (prePowerOnVMConfigSpec _ _ _ _ _) as [configSpec| |]; try done.
    destruct (DeepEqual configSpec defaultConfigSpec); [done|]. simpl.
    by rewrite Hreconfigure. }
  intros _. apply Avoids_bind.
  { intros st. edestruct customizeVM_run as (r & trace & -> & [->| ->]); [done|].
    simpl. by rewrite Hcustomize. }
  intros _. unfold ensureCNSVolumes. avoids.
Qed.

Lemma KeepsStatus_run {A} (m : M A) st r w : KeepsStatus m → m st = (r, w) → status w = st.
Proof. intros Hm Hrun. specialize (Hm st). by rewrite Hrun in Hm. Qed.

(** A preparation that succeeds has found every claim attached. *)
Lemma prepareVMForPowerOn_Ok k s h vm config vmConfigArgs st w :
  prepareVMForPowerOn k s h vm config vmConfigArgs st = (Ok tt, w) →
  checkCNSVolumes (Volumes (Spec vm)) (status_Volumes st) = None.
Proof.
  unfold prepareVMForPowerOn, ensureNetworkInterfaces. intros Hrun.
  apply bind_Ok_inv in Hrun as (netIfList & w1 & w1' & Hensure & Hrun & _).
  apply KeepsStatus_run in Hensure; [|apply KeepsStatus_ensureNetworkInterfacesFrom].
  rewrite Hensure in Hrun.
  apply bind_Ok_inv in Hrun as (nameservers & w2 & w2' & Hdns & Hrun & _).
  apply KeepsStatus_run in Hdns; [|apply KeepsStatus_attempt, KeepsStatus_call].
  rewrite Hdns in Hrun.
  apply bind_Ok_inv in Hrun as ([] & w3 & w3' & Hreconfigure & Hrun & _).
  apply KeepsStatus_run in Hreconfigure; [|apply KeepsStatus_prePowerOnVMReconfigure].
  rewrite Hreconfigure in Hrun.
  apply bind_Ok_inv in Hrun as ([] & w4 & w4' & Hcustomize & Hrun & _).
  apply KeepsStatus_run in Hcustomize; [|apply KeepsStatus_customizeVM].
  rewrite Hcustomize in Hrun.
  unfold ensureCNSVolumes, mbind, M_bind, getStatus in Hrun. simpl in Hrun.
  by destruct (checkCNSVolumes _ _).
Qed.

Lemma calls_bind {A B} (m : M A) (f : A → M B) st :
  calls ((m ≫= f) st).2
  = calls (m st).2
    ++ match (m st).1 with
       | Ok a => calls (f a (status (m st).2)).2
       | _ => []
       end.
Proof.
  unfold mbind, M_bind. destruct (m st) as [[a|e|] w]; simpl; rewrite ?app_nil_r; try done.
  by destruct (f a (status w)).
Qed.

(** The pass up to the power-on, for a VM that is to be on and is found
    off. *)
Lemma convergePowerState_powerOn k s h vm vmConfigArgs st resVM moVM config :
  PowerState (Spec vm) = VirtualMachinePoweredOn →
  GetVirtualMachine h = Ok resVM →
  GetProperties h configProperties = Ok moVM →
  mo_Config moVM = Some config →
  runtime_PowerState (mo_Runtime moVM) = VirtualMachinePoweredOff →
  convergePowerState k s h vm vmConfigArgs st
  = let prepared :=
      prepareVMForPowerOn k s h vm config vmConfigArgs
                          (setStatusBiosUUID (config_Uuid config) st) in
    match prepared.1 with
    | Ok _ =>
        (match SetPowerState h VirtualMachinePoweredOn with
         | Ok _ => Ok resVM
         | Err e => Err e
         | Panic => Panic
         end,
         {| status := status prepared.2;
            calls := CallGetVirtualMachine :: CallGetProperties configProperties
                     :: calls prepared.2 ++ [CallSetPowerState VirtualMachinePoweredOn] |})
    | Err e =>
        (Err e,
         {| status := status prepared.2;
            calls := CallGetVirtualMachine :: CallGetProperties configProperties
                     :: calls prepared.2 |})
    | Panic =>
        (Panic,
         {| status := status prepared.2;
            calls := CallGetVirtualMachine :: CallGetProperties configProperties
                     :: calls prepared.2 |})
    end.
Proof.
  intros Hon HresVM HmoVM Hconfig Hoff. cbv zeta.
  unfold convergePowerState, mbind, M_bind, call, liftResult, setStatus, mret, M_ret.
  rewrite HresVM, HmoVM, Hconfig, Hon, (bool_decide_eq_true_2 _ Hoff).
  rewrite (bool_decide_eq_false_2 (VirtualMachinePoweredOn = VirtualMachinePoweredOff)) by done.
  rewrite (bool_decide_eq_true_2 (VirtualMachinePoweredOn = VirtualMachinePoweredOn)) by done.
  simpl.
  destruct (prepareVMForPowerOn k s h vm config vmConfigArgs
              (setStatusBiosUUID (config_Uuid config) st)) as [[[]|e|] w]; simpl; try done.
  destruct (SetPowerState h VirtualMachinePoweredOn) as [[]|e|]; simpl;
    by rewrite ?app_nil_r.
Qed.

(** X14. A VM that is to be on and is found off is not powered on while a
    persistent volume claim of its spec is not attached: when the volume
    check fails on the status the pass starts from, the pass does not return
    success, it never calls SetPowerState, and it returns before status
    projection: the BIOS UUID is the only status field written. *)
Theorem power_on_waits_for_volumes (k : Constants) (s : Session) (h : Collaborators)
    (vm : VirtualMachine) (vmConfigArgs : VmConfigArgs) (st : VirtualMachineStatus)
    (resVM : ResVirtualMachine) (moVM : MoVirtualMachine)
    (config : VirtualMachineConfigInfo) (err : error) :
  PowerState (Spec vm) = VirtualMachinePoweredOn →
  GetVirtualMachine h = Ok resVM →
  GetProperties h configProperties = Ok moVM →
  mo_Config moVM = Some config →
  runtime_PowerState (mo_Runtime moVM) = VirtualMachinePoweredOff →
  checkCNSVolumes (Volumes (Spec vm)) (status_Volumes st) = Some err →
  let run := UpdateVirtualMachine k s h vm vmConfigArgs st in
  run.1 ≠ Ok tt
  ∧ List.filter isSetPowerState (calls run.2) = []
  ∧ status run.2 = setStatusBiosUUID (config_Uuid config) st.
Proof.
  intros Hon HresVM HmoVM Hconfig Hoff Hcheck run. unfold run.
  rewrite UpdateVirtualMachine_split.
  pose proof (convergePowerState_powerOn k s h vm vmConfigArgs st resVM moVM config
                Hon HresVM HmoVM Hconfig Hoff) as Hfront. cbv zeta in Hfront.
  pose proof (KeepsStatus_prepareVMForPowerOn k s h vm config vmConfigArgs
                (setStatusBiosUUID (config_Uuid config) st)) as Hkeeps.
  pose proof (prepareVMForPowerOn_Avoids k s h vm config vmConfigArgs isSetPowerState
                ltac:(done) eq_refl ltac:(done) ltac:(done)
                (setStatusBiosUUID (config_Uuid config) st)) as Hquiet.
  destruct (prepareVMForPowerOn k s h vm config vmConfigArgs
              (setStatusBiosUUID (config_Uuid config) st)) as [[[]|e|] w] eqn:Hprepared;
    simpl in *.
  - apply prepareVMForPowerOn_Ok in Hprepared. simpl in Hprepared. congruence.
  - erewrite bind_Err; [|exact Hfront]. simpl. by rewrite Hquiet.
  - erewrite bind_Panic; [|exact Hfront]. simpl. by rewrite Hquiet.
Qed.

Lemma power_on_waits_for_volumes_witness :
  let moVM := exampleMoVM (Some (exampleConfig [] [] None)) VirtualMachinePoweredOff
                          (Some "host-7") None in
  let h := exampleCollaborators (Ok moVM) (Ok moVM) (Ok "esx-1") (Ok tt) (Ok tt) in
  let run := UpdateVirtualMachine exampleConstants (exampleSession false ∅) h
               exampleVMWithClaim
               (exampleArgs false {| VGPUDevices := []; DynamicDirectPathIODevices := [] |})
               exampleStatus in
  List.filter isSetPowerState (calls run.2) = []
  ∧ status run.2 = setStatusBiosUUID "4210-bios" exampleStatus.
Proof.
  intros moVM h run.
  apply (power_on_waits_for_volumes exampleConstants (exampleSession false ∅) h
           exampleVMWithClaim
           (exampleArgs false {| VGPUDevices := []; DynamicDirectPathIODevices := [] |})
           exampleStatus {| MoRefValue := "vm-42" |} moVM (exampleConfig [] [] None)
           (Errorf "Status update pending for persistent volume: data on VM")
           eq_refl eq_refl eq_refl eq_refl eq_refl eq_refl).
Defined.

(** X15. A DNS lookup that fails does not stop the preparation of the
    power-on: the preparation runs exactly as it does when the lookup
    answers an empty server list (the list that comes with the error is nil),
    with the same calls, the same result and the same status. *)
Theorem dns_lookup_failure_is_not_fatal (k : Constants) (s : Session) (h : Collaborators)
    (vm : VirtualMachine) (config : VirtualMachineConfigInfo) (vmConfigArgs : VmConfigArgs)
    (e : error) (st : VirtualMachineStatus) :
  prepareVMForPowerOn k s (withNameservers (Err e) h) vm config vmConfigArgs st
  = prepareVMForPowerOn k s (withNameservers (Ok []) h) vm config vmConfigArgs st.
Proof.
  unfold prepareVMForPowerOn.
  change (ensureNetworkInterfaces (withNameservers (Err e) h) vm)
    with (ensureNetworkInterfaces (withNameservers (Ok []) h) vm).
  apply bind_ext. intros netIfList st'.
  unfold mbind at 1 3, M_bind at 1 3, attempt, call. reflexivity.
Qed.

(** The hypervisor writes of the preparation: at most one reconfigure, then
    at most one customization. *)
Lemma prepareVMForPowerOn_writes k s h vm config vmConfigArgs st :
  ∃ reconfigures customizes,
    hypervisorWrites (calls (prepareVMForPowerOn k s h vm config vmConfigArgs st).2)
    = reconfigures ++ customizes
    ∧ (reconfigures = []
       ∨ ∃ configSpec, reconfigures = [CallReconfigure configSpec]
                       ∧ configSpec ≠ defaultConfigSpec)
    ∧ (customizes = [] ∨ ∃ customizationSpec, customizes = [CallCustomize customizationSpec]).
Proof.
  unfold prepareVMForPowerOn, hypervisorWrites, ensureNetworkInterfaces.
  rewrite calls_bind, List.filter_app.
  rewrite (ensureNetworkInterfacesFrom_Avoids_any h isHypervisorWrite _ _ ltac:(done) st).
  destruct (ensureNetworkInterfacesFrom h (-100) (NetworkInterfaces (Spec vm)) st)
    as [[netIfList|e|] w1]; simpl;
    [|by exists [], []; split_and!; [|left..]..].
  rewrite calls_bind, List.filter_app.
  rewrite (Avoids_attempt isHypervisorWrite _
             (Avoids_call isHypervisorWrite CallGetNameservers
                (GetNameserversFromConfigMap h) eq_refl) (status w1)).
  destruct (attempt (call CallGetNameservers (GetNameserversFromConfigMap h)) (status w1))
    as [[nameservers|e|] w2]; simpl; [|by exists [], []; split_and!; [|left..]..].
  set (updateArgs := if IsVMServiceV1Alpha2FSSEnabled s then _ else _).
  rewrite calls_bind, List.filter_app. rewrite prePowerOnVMReconfigure_run.
  assert (∀ st',
            ∃ customizes,
              List.filter isHypervisorWrite
                (calls ((customizeVM k s h vm config updateArgs
                         ≫= λ _, ensureCNSVolumes vm) st').2) = customizes
              ∧ (customizes = []
                 ∨ ∃ customizationSpec, customizes = [CallCustomize customizationSpec]))
    as Hcustomize.
  { intros st'. rewrite calls_bind, List.filter_app.
    destruct (customizeVM_run k s h vm config updateArgs st') as (r & trace & -> & Htrace).
    simpl.
    assert (List.filter isHypervisorWrite
              match r with
              | Ok _ => calls (ensureCNSVolumes vm st').2
              | _ => []
              end = []) as ->.
    { destruct r; [|done..].
      unfold ensureCNSVolumes, mbind, M_bind, getStatus. simpl.
      by destruct (checkCNSVolumes _ _). }
    rewrite app_nil_r. destruct Htrace as [->| ->]; eexists; (split; [done|]);
      [by left|right; by eexists]. }
  destruct (prePowerOnVMConfigSpec k s vm config updateArgs) as [configSpec| |]; simpl;
    [|by exists [], []; split_and!; [|left..]..].
  destruct (DeepEqual configSpec defaultConfigSpec) eqn:Hequal; simpl.
  - destruct (Hcustomize (status w2)) as (customizes & -> & Hshape).
    exists [], customizes. by split_and!; [|left|].
  - exists [CallReconfigure configSpec].
    destruct (Reconfigure h configSpec) as [[]|e|]; simpl.
    + destruct (Hcustomize (status w2)) as (customizes & -> & Hshape).
      exists customizes. split_and!; [done| |done].
      right. exists configSpec. split; [done|].
      unfold DeepEqual in Hequal. by apply bool_decide_eq_false in Hequal.
    + exists []. split_and!; [done| |by left].
      right. exists configSpec. split; [done|].
      unfold DeepEqual in Hequal. by apply bool_decide_eq_false in Hequal.
    + exists []. split_and!; [done| |by left].
      right. exists configSpec. split; [done|].
      unfold DeepEqual in Hequal. by apply bool_decide_eq_false in Hequal.
Qed.

(** X16. The hypervisor writes of a pass that powers a VM on come in one
    order: at most one reconfigure, with a config spec that is not the empty
    one, then at most one customization, then the power-on. The power-on is
    issued only after the preparation has succeeded, it is the last write of
    the pass, and a pass that returns success has issued it. *)
Theorem power_on_write_order (k : Constants) (s : Session) (h : Collaborators)
    (vm : VirtualMachine) (vmConfigArgs : VmConfigArgs) (st : VirtualMachineStatus)
    (resVM : ResVirtualMachine) (moVM : MoVirtualMachine)
    (config : VirtualMachineConfigInfo) :
  PowerState (Spec vm) = VirtualMachinePoweredOn →
  GetVirtualMachine h = Ok resVM →
  GetProperties h configProperties = Ok moVM →
  mo_Config moVM = Some config →
  runtime_PowerState (mo_Runtime moVM) = VirtualMachinePoweredOff →
  let run := UpdateVirtualMachine k s h vm vmConfigArgs st in
  let prepared :=
    prepareVMForPowerOn k s h vm config vmConfigArgs
                        (setStatusBiosUUID (config_Uuid config) st) in
  ∃ reconfigures customizes powerOns,
    hypervisorWrites (calls run.2) = reconfigures ++ customizes ++ powerOns
    ∧ (reconfigures = []
       ∨ ∃ configSpec, reconfigures = [CallReconfigure configSpec]
                       ∧ configSpec ≠ defaultConfigSpec)
    ∧ (customizes = [] ∨ ∃ customizationSpec, customizes = [CallCustomize customizationSpec])
    ∧ powerOns = match prepared.1 with
                 | Ok _ => [CallSetPowerState VirtualMachinePoweredOn]
                 | _ => []
                 end
    ∧ (run.1 = Ok tt → powerOns = [CallSetPowerState VirtualMachinePoweredOn]).
Proof.
  intros Hon HresVM HmoVM Hconfig Hoff run prepared. unfold run.
  rewrite UpdateVirtualMachine_writes.
  pose proof (convergePowerState_powerOn k s h vm vmConfigArgs st resVM moVM config
                Hon HresVM HmoVM Hconfig Hoff) as Hfront. cbv zeta in Hfront.
  fold prepared in Hfront.
  destruct (prepareVMForPowerOn_writes k s h vm config vmConfigArgs
              (setStatusBiosUUID (config_Uuid config) st))
    as (reconfigures & customizes & Hwrites & Hreconfigures & Hcustomizes).
  fold prepared in Hwrites. unfold hypervisorWrites in *.
  exists reconfigures, customizes.
  destruct (prepared.1) as [[]|e|] eqn:Hprepared.
  - exists [CallSetPowerState VirtualMachinePoweredOn].
    rewrite Hfront. simpl. rewrite List.filter_app, Hwrites. simpl.
    split_and!; try done. by rewrite app_assoc.
  - exists []. rewrite UpdateVirtualMachine_split.
    erewrite bind_Err; [|exact Hfront].
    rewrite Hfront. simpl. rewrite Hwrites, app_nil_r. by split_and!.
  - exists []. rewrite UpdateVirtualMachine_split.
    erewrite bind_Panic; [|exact Hfront].
    rewrite Hfront. simpl. rewrite Hwrites, app_nil_r. by split_and!.
Qed.

Lemma power_on_write_order_witness :
  let moVM := exampleMoVM (Some (exampleConfig [] [] None)) VirtualMachinePoweredOff
                          (Some "host-7") None in
  let h := exampleCollaborators (Ok moVM) (Ok moVM) (Ok "esx-1") (Ok tt) (Ok tt) in
  let run := UpdateVirtualMachine exampleConstants (exampleSession false ∅) h
               (exampleVM VirtualMachinePoweredOn ∅ None)
               (exampleArgs false {| VGPUDevices := []; DynamicDirectPathIODevices := [] |})
               exampleStatus in
  ∃ reconfigures customizes powerOns,
    hypervisorWrites (calls run.2) = reconfigures ++ customizes ++ powerOns
    ∧ powerOns = [CallSetPowerState VirtualMachinePoweredOn].
Proof.
  intros moVM h run.
  destruct (power_on_write_order exampleConstants (exampleSession false ∅) h
              (exampleVM VirtualMachinePoweredOn ∅ None)
              (exampleArgs false {| VGPUDevices := []; DynamicDirectPathIODevices := [] |})
              exampleStatus {| MoRefValue := "vm-42" |} moVM (exampleConfig [] [] None)
              eq_refl eq_refl eq_refl eq_refl eq_refl)
    as (reconfigures & customizes & powerOns & Hwrites & _ & _ & HpowerOns & _).
  exists reconfigures, customizes, powerOns. split; [exact Hwrites|].
  rewrite HpowerOns. vm_compute. reflexivity.
Defined.

(** ** The extra config of the delta *)

Section ExtraConfigFilled.

Context (k : Constants) (s : Session).

Lemma currentExtraConfigFrom_None opts cur key :
  currentExtraConfigFrom opts ∅ = Ok cur →
  cur !! key = None ↔ key ∉ extraConfigKeys opts.
Proof.
  intros Hrun. split.
  - intros Hnone Hkey.
    destruct (currentExtraConfigFrom_is_Some opts ∅ cur key Hrun (or_introl Hkey)) as [v Hv].
    congruence.
  - intros Hkey. destruct (cur !! key) as [value|] eqn:Hcur; [|done].
    destruct (currentExtraConfigFrom_Some opts ∅ cur key value Hrun Hcur) as [Hempty|Hin].
    + by rewrite lookup_empty in Hempty.
    + destruct Hkey. unfold extraConfigKeys. apply list_elem_of_omap.
      by exists (Some {| optKey := key; optValue := AnyString value |}).
Qed.

Lemma missingExtraConfig_elem_of extraConfig currentExtraConfig key value :
  newOptionValue key value ∈ missingExtraConfig extraConfig currentExtraConfig
  ↔ extraConfig !! key = Some value ∧ currentExtraConfig !! key = None.
Proof.
  unfold missingExtraConfig. split.
  - intros Hin.
    apply (list_elem_of_fmap (λ kv : string * string, newOptionValue kv.1 kv.2)) in Hin
      as ([key' value'] & [= -> ->] & Hkv).
    apply list_elem_of_In, filter_In in Hkv as [Hkv Hmissing]. simpl in *.
    apply list_elem_of_In, elem_of_map_to_list in Hkv.
    by apply bool_decide_eq_true in Hmissing.
  - intros [Hdesired Hcurrent].
    apply (list_elem_of_fmap (λ kv : string * string, newOptionValue kv.1 kv.2)).
    exists (key, value). split; [done|].
    apply list_elem_of_In, filter_In. split.
    + by apply list_elem_of_In, elem_of_map_to_list.
    + simpl. by apply bool_decide_eq_true.
Qed.

Lemma missingExtraConfig_keys extraConfig currentExtraConfig :
  NoDup (extraConfigKeys (missingExtraConfig extraConfig currentExtraConfig))
  ∧ Forall is_Some (missingExtraConfig extraConfig currentExtraConfig).
Proof.
  unfold missingExtraConfig.
  pose proof (NoDup_fst_map_to_list extraConfig) as Hnodup.
  induction (map_to_list extraConfig) as [|[key value] rest IH]; simpl.
  - split; constructor.
  - apply NoDup_cons in Hnodup as [Hfresh Hnodup]. destruct (IH Hnodup) as [IHkeys IHsome].
    destruct (bool_decide (currentExtraConfig !! key = None)); simpl; [|done].
    split; [|by constructor].
    apply NoDup_cons. split; [|done].
    intros Hin. apply Hfresh. unfold extraConfigKeys in Hin.
    apply list_elem_of_omap in Hin as (opt & Hopt & Hkey).
    apply (list_elem_of_fmap (λ kv : string * string, newOptionValue kv.1 kv.2)) in Hopt
      as ([key' value'] & -> & Hkv).
    simpl in Hkey. injection Hkey as <-.
    apply list_elem_of_In, filter_In in Hkv as [Hkv _].
    apply list_elem_of_fmap. exists (key', value'). split; [done|by apply list_elem_of_In].
Qed.

End ExtraConfigFilled.

(** X17. The extra config of the delta fills in what is missing: for a key
    the current config does not hold, the delta carries the entry (key,
    value) exactly when the desired table maps the key to that value. The
    delta sets no key twice and holds no nil entry. The marker the
    compatibility rule tests for must not be the empty string, which is what
    a missing key reads as. *)
Theorem extra_config_fills_missing_keys (k : Constants) (s : Session) (vm : VirtualMachine)
    (config : VirtualMachineConfigInfo) (vmImageCompatible : bool)
    (vmClassSpec : VirtualMachineClassSpec) (vmMetadata : option VmMetadata)
    (globalExtraConfig : gmap string string) (minCPUFreq : Z)
    (delta : VirtualMachineConfigSpec) :
  VMOperatorV1Alpha1ConfigReady k ≠ "" →
  updateConfigSpec k s vm config vmImageCompatible vmClassSpec vmMetadata globalExtraConfig
    minCPUFreq = Ok delta →
  (∀ key value,
     key ∉ extraConfigKeys (config_ExtraConfig config) →
     newOptionValue key value ∈ ExtraConfig delta
     ↔ desiredExtraConfig k s vmClassSpec vm vmMetadata globalExtraConfig !! key = Some value)
  ∧ NoDup (extraConfigKeys (ExtraConfig delta))
  ∧ Forall is_Some (ExtraConfig delta).
Proof.
  intros Hready Hdelta.
  apply updateConfigSpec_ExtraConfig in Hdelta as (cur & Hcur & ->).
  set (desired := desiredExtraConfig k s vmClassSpec vm vmMetadata globalExtraConfig).
  assert (Hlegacy : vmImageCompatible
                    && bool_decide (mapGet cur (VMOperatorV1Alpha1ExtraConfigKey k)
                                    = VMOperatorV1Alpha1ConfigReady k) = true →
                    is_Some (cur !! VMOperatorV1Alpha1ExtraConfigKey k)).
  { intros [_ Hmarker%bool_decide_eq_true]%andb_true_iff. unfold mapGet in Hmarker.
    destruct (cur !! VMOperatorV1Alpha1ExtraConfigKey k); [by eexists|].
    simpl in Hmarker. congruence. }
  split_and!.
  - intros key value Hkey.
    apply (currentExtraConfigFrom_None _ _ _ Hcur) in Hkey.
    rewrite elem_of_app, missingExtraConfig_elem_of. split.
    + intros [[Hdesired _]|Hin]; [done|].
      destruct (_ && _) eqn:Hcompat; [|by apply elem_of_nil in Hin].
      apply list_elem_of_singleton in Hin. injection Hin as -> _.
      destruct (Hlegacy eq_refl) as [v Hv]. congruence.
    + intros Hdesired. by left.
  - destruct (missingExtraConfig_keys desired cur) as [Hnodup _].
    destruct (_ && _) eqn:Hcompat; [|by rewrite app_nil_r].
    unfold extraConfigKeys in *. rewrite omap_app. simpl.
    apply NoDup_app. split_and!; [done| |apply NoDup_singleton].
    intros key Hkey ->%list_elem_of_singleton.
    apply list_elem_of_omap in Hkey as ([entry|] & Hentry & Hoptkey); [|done].
    simpl in Hoptkey. injection Hoptkey as Hoptkey.
    apply elem_of_missingExtraConfig in Hentry. rewrite Hoptkey in Hentry.
    destruct (Hlegacy eq_refl) as [v Hv]. congruence.
  - destruct (missingExtraConfig_keys desired cur) as [_ Hsome].
    apply Forall_app. split; [done|].
    destruct (_ && _); repeat constructor. by eexists.
Qed.

Lemma extra_config_fills_missing_keys_witness :
  let s := exampleSession false {[ "guestinfo.image" := "photon" ]} in
  let config := exampleConfig [] [newOptionValue "bios.bootOrder" "disk"] None in
  let vm := exampleVM VirtualMachinePoweredOn ∅ None in
  let devices := {| VGPUDevices := []; DynamicDirectPathIODevices := [] |} in
  ∃ delta,
    updateConfigSpec exampleConstants s vm config false (exampleClassSpec devices) None
      {[ "guestinfo.image" := "photon" ]} 2000 = Ok delta
    ∧ newOptionValue "guestinfo.image" "photon" ∈ ExtraConfig delta.
Proof.
  intros s config vm devices.
  destruct (updateConfigSpec exampleConstants s vm config false (exampleClassSpec devices) None
              {[ "guestinfo.image" := "photon" ]} 2000) as [delta| |] eqn:Hdelta;
    try discriminate Hdelta.
  exists delta. split; [reflexivity|].
  apply (extra_config_fills_missing_keys exampleConstants s vm config false
           (exampleClassSpec devices) None {[ "guestinfo.image" := "photon" ]} 2000 delta).
  - discriminate.
  - exact Hdelta.
  - vm_compute. intros Hin. inversion Hin as [|? ? ? Hin']; inversion Hin'.
  - vm_compute. reflexivity.
Defined.

(** ** Resource allocations of the delta *)

Lemma allocationDiffers_false allocation field v :
  allocationDiffers allocation field v = false
  ↔ ∃ c, allocation = Some c ∧ field c = Some v.
Proof.
  unfold allocationDiffers. split.
  - destruct allocation as [c|]; [|done]. destruct (field c) as [cur|] eqn:Hfield; [|done].
    intros Heq%negb_false_iff%bool_decide_eq_true. subst. by exists c.
  - intros (c & -> & ->). by rewrite bool_decide_eq_true_2.
Qed.

Lemma AllocationDelta_intro current request limit convert :
  AllocationDelta current request limit convert
    (let reservation :=
       if negb (IsZero request)
       then if allocationDiffers current Reservation (convert request)
            then Some (convert request) else None
       else None in
     let lim :=
       if negb (IsZero limit)
       then if allocationDiffers current Limit (convert limit)
            then Some (convert limit) else None
       else None in
     if bool_decide (reservation ≠ None) || bool_decide (lim ≠ None)
     then Some {| Reservation := reservation; Limit := lim |} else None).
Proof.
  assert (Hfield : ∀ (field : ResourceAllocationInfo → option Z) (q : Quantity),
            let f := if negb (IsZero q)
                     then if allocationDiffers current field (convert q)
                          then Some (convert q) else None
                     else None in
            (f = None ∨ f = Some (convert q))
            ∧ (f = None ↔ q = 0%Z ∨ ∃ c, current = Some c ∧ field c = Some (convert q))).
  { intros field q. cbv zeta. unfold IsZero.
    destruct (decide (q = 0%Z)) as [Hq|Hq].
    - rewrite (bool_decide_eq_true_2 _ Hq). simpl. split; [by left|]. split; [by left|done].
    - rewrite (bool_decide_eq_false_2 _ Hq). simpl.
      destruct (allocationDiffers current field (convert q)) eqn:Hdiffers.
      + split; [by right|]. split; [done|].
        intros [?|Hsame]; [done|]. apply allocationDiffers_false in Hsame. congruence.
      + split; [by left|]. split; [|done]. intros _. right.
        by apply allocationDiffers_false. }
  cbv zeta.
  destruct (Hfield Reservation request) as [Hreservation Hnoreservation].
  destruct (Hfield Limit limit) as [Hlimit Hnolimit]. cbv zeta in *.
  set (reservation := if negb (IsZero request) then _ else _) in *.
  set (lim := if negb (IsZero limit) then _ else _) in *. clearbody reservation lim.
  unfold AllocationDelta, AllocationSatisfied.
  destruct (decide (reservation = None)) as [Hr|Hr], (decide (lim = None)) as [Hl|Hl];
    rewrite ?(bool_decide_eq_true_2 (reservation ≠ None)),
      ?(bool_decide_eq_false_2 (reservation ≠ None)),
      ?(bool_decide_eq_true_2 (lim ≠ None)),
      ?(bool_decide_eq_false_2 (lim ≠ None)) by tauto; simpl.
  - split; [|done]. split; [|done]. intros _. tauto.
  - split; [split; [done|tauto]|]. by intros a [= <-].
  - split; [split; [done|tauto]|]. by intros a [= <-].
  - split; [split; [done|tauto]|]. by intros a [= <-].
Qed.

Lemma updateConfigSpec_allocations k s vm config compat cls md global freq delta :
  updateConfigSpec k s vm config compat cls md global freq = Ok delta →
  CpuAllocation delta
  = CpuAllocation (updateConfigSpecCPUAllocation s config defaultConfigSpec cls freq)
  ∧ MemoryAllocation delta
    = MemoryAllocation (updateConfigSpecMemoryAllocation s config defaultConfigSpec cls).
Proof.
  unfold updateConfigSpec, updateConfigSpecExtraConfig.
  destruct (currentExtraConfigFrom (config_ExtraConfig config) ∅) as [cur| |]; simpl;
    try done.
  assert (∀ c, CpuAllocation (updateHardwareConfigSpec k s config c cls) = CpuAllocation c
               ∧ MemoryAllocation (updateHardwareConfigSpec k s config c cls)
                 = MemoryAllocation c) as Hhardware.
  { intros c. unfold updateHardwareConfigSpec. by repeat case_match. }
  assert (∀ c, CpuAllocation (updateConfigSpecMemoryAllocation s config c cls)
               = CpuAllocation c) as Hmemory.
  { intros c. unfold updateConfigSpecMemoryAllocation. by case_match. }
  assert (∀ c, MemoryAllocation (updateConfigSpecCPUAllocation s config c cls freq)
               = MemoryAllocation c) as Hcpu.
  { intros c. unfold updateConfigSpecCPUAllocation. by case_match. }
  assert (∀ c, CpuAllocation (updateConfigSpecVAppConfig s config c md) = CpuAllocation c
               ∧ MemoryAllocation (updateConfigSpecVAppConfig s config c md)
                 = MemoryAllocation c) as HvApp.
  { intros c. unfold updateConfigSpecVAppConfig. by repeat case_match. }
  assert (∀ c, CpuAllocation (updateConfigSpecChangeBlockTracking config c (Spec vm))
               = CpuAllocation c
               ∧ MemoryAllocation (updateConfigSpecChangeBlockTracking config c (Spec vm))
                 = MemoryAllocation c) as Htracking.
  { intros c. unfold updateConfigSpecChangeBlockTracking. by repeat case_match. }
  assert (∀ c c', CpuAllocation c = CpuAllocation c' →
                  CpuAllocation (updateConfigSpecCPUAllocation s config c cls freq)
                  = CpuAllocation (updateConfigSpecCPUAllocation s config c' cls freq))
    as Hcpu'.
  { intros c c' Hc. unfold updateConfigSpecCPUAllocation. by case_match. }
  assert (∀ c c', MemoryAllocation c = MemoryAllocation c' →
                  MemoryAllocation (updateConfigSpecMemoryAllocation s config c cls)
                  = MemoryAllocation (updateConfigSpecMemoryAllocation s config c' cls))
    as Hmemory'.
  { intros c c' Hc. unfold updateConfigSpecMemoryAllocation. by case_match. }
  destruct (compat && _); intros [= <-];
    rewrite !(proj1 (Htracking _)), !(proj2 (Htracking _)),
      !(proj1 (HvApp _)), !(proj2 (HvApp _)); simpl; rewrite Hmemory; split.
  - apply Hcpu'. apply Hhardware.
  - apply Hmemory'. rewrite Hcpu. apply Hhardware.
  - apply Hcpu'. apply Hhardware.
  - apply Hmemory'. rewrite Hcpu. apply Hhardware.
Qed.

(** X18. The delta of a pass asks for a CPU or memory allocation only
    where the VM's differs from the class's: the allocation is absent from
    the delta exactly when the class's request and limit are each zero or
    already in force, and when it is present it sets just the fields that
    differ, to the class's values converted to MHz or MB. A request or limit
    the class leaves at zero is never sent, so it never clears what the VM
    has. *)
Theorem allocation_delta_names_what_differs (k : Constants) (s : Session)
    (vm : VirtualMachine) (config : VirtualMachineConfigInfo) (vmImageCompatible : bool)
    (vmClassSpec : VirtualMachineClassSpec) (vmMetadata : option VmMetadata)
    (globalExtraConfig : gmap string string) (minCPUFreq : Z)
    (delta : VirtualMachineConfigSpec) :
  updateConfigSpec k s vm config vmImageCompatible vmClassSpec vmMetadata globalExtraConfig
    minCPUFreq = Ok delta →
  AllocationDelta (config_CpuAllocation config)
    (Cpu (Requests (Resources vmClassSpec))) (Cpu (Limits (Resources vmClassSpec)))
    (λ q, CpuQuantityToMhz s q minCPUFreq) (CpuAllocation delta)
  ∧ AllocationDelta (config_MemoryAllocation config)
      (Memory (Requests (Resources vmClassSpec))) (Memory (Limits (Resources vmClassSpec)))
      (memoryQuantityToMb s) (MemoryAllocation delta).
Proof.
  intros [-> ->]%updateConfigSpec_allocations. split.
  - pose proof (AllocationDelta_intro (config_CpuAllocation config)
                  (Cpu (Requests (Resources vmClassSpec)))
                  (Cpu (Limits (Resources vmClassSpec)))
                  (λ q, CpuQuantityToMhz s q minCPUFreq)) as Hdelta.
    cbv zeta in Hdelta. unfold updateConfigSpecCPUAllocation.
    by destruct (_ || _).
  - pose proof (AllocationDelta_intro (config_MemoryAllocation config)
                  (Memory (Requests (Resources vmClassSpec)))
                  (Memory (Limits (Resources vmClassSpec)))
                  (memoryQuantityToMb s)) as Hdelta.
    cbv zeta in Hdelta. unfold updateConfigSpecMemoryAllocation.
    by destruct (_ || _).
Qed.

Lemma allocation_delta_names_what_differs_witness :
  let s := exampleSession false ∅ in
  let vm := exampleVM VirtualMachinePoweredOn ∅ None in
  let config := exampleConfig [] [] None in
  ∃ delta,
    updateConfigSpec exampleConstants s vm config false exampleReservingClassSpec None ∅ 2000
    = Ok delta
    ∧ AllocationDelta None 1000%Z 0%Z (λ q, CpuQuantityToMhz s q 2000) (CpuAllocation delta)
    ∧ CpuAllocation delta = Some {| Reservation := Some 2000%Z; Limit := None |}.
Proof.
  intros s vm config.
  destruct (updateConfigSpec exampleConstants s vm config false exampleReservingClassSpec
              None ∅ 2000) as [delta| |] eqn:Hdelta; try discriminate Hdelta.
  exists delta. split; [reflexivity|]. split.
  - by apply (allocation_delta_names_what_differs exampleConstants s vm config false
                exampleReservingClassSpec None ∅ 2000 delta).
  - vm_compute in Hdelta. by injection Hdelta as <-.
Defined.

(** ** The desired extra config *)

Lemma desiredExtraConfig_metadata (k : Constants) (s : Session) (vm : VirtualMachine)
    (md : VmMetadata) (globalExtraConfig : gmap string string) (key : string) :
  (filter (λ kv : string * string, String.prefix (ExtraConfigGuestInfoPrefix k) kv.1 = true)
          (Data md)
   ∪ map_imap (λ key v, Some (renderSpecTemplate s (Spec vm) key v)) globalExtraConfig)
    !! key
  = match (if String.prefix (ExtraConfigGuestInfoPrefix k) key then Data md !! key else None)
    with
    | Some value => Some value
    | None => renderSpecTemplate s (Spec vm) key <$> globalExtraConfig !! key
    end.
Proof.
  rewrite lookup_union, map_lookup_filter, map_lookup_imap.
  destruct (String.prefix (ExtraConfigGuestInfoPrefix k) key) eqn:Hprefix.
  - destruct (Data md !! key) as [value|]; simpl.
    + rewrite option_guard_True by done. simpl.
      by destruct (globalExtraConfig !! key).
    + by destruct (globalExtraConfig !! key).
  - destruct (Data md !! key) as [value|]; simpl.
    + rewrite option_guard_False by (simpl; congruence). simpl.
      by destruct (globalExtraConfig !! key).
    + by destruct (globalExtraConfig !! key).
Qed.

(** X19. Where a value of the desired extra config comes from, in order of
    precedence. With the passthrough switch on and a class that has
    passthrough devices, the two MMIO keys come first (the size from the
    VM's annotation, or the default; none of the two when the size is "0"),
    then, for a class with dynamic devices, the maintenance power-off key.
    Then comes the guest metadata, for the extra-config transport only and
    only for keys under the guestinfo prefix. Last comes the global table,
    its values rendered as templates on the VM spec. *)
Theorem desired_extra_config_precedence (k : Constants) (s : Session)
    (vmClassSpec : VirtualMachineClassSpec) (vm : VirtualMachine)
    (vmMetadata : option VmMetadata) (globalExtraConfig : gmap string string)
    (key : string) :
  let devices := Devices (Hardware vmClassSpec) in
  let dynamic :=
    IsThunderPciDevicesFSSEnabled s
    && bool_decide (0 < length (DynamicDirectPathIODevices devices)) in
  let passthrough :=
    IsThunderPciDevicesFSSEnabled s
    && (bool_decide (0 < length (VGPUDevices devices))
        || bool_decide (0 < length (DynamicDirectPathIODevices devices))) in
  let annotated := mapGet (Annotations vm) (PCIPassthruMMIOOverrideAnnotation k) in
  let mmioSize :=
    if bool_decide (annotated = "") then PCIPassthruMMIOSizeDefault k else annotated in
  let mmio := passthrough && negb (bool_decide (mmioSize = "0")) in
  let fromMetadata :=
    match vmMetadata with
    | Some md =>
        if bool_decide (Transport md = VirtualMachineMetadataExtraConfigTransport)
           && String.prefix (ExtraConfigGuestInfoPrefix k) key
        then Data md !! key else None
    | None => None
    end in
  desiredExtraConfig k s vmClassSpec vm vmMetadata globalExtraConfig !! key
  = if mmio && bool_decide (key = PCIPassthruMMIOSizeExtraConfigKey k) then Some mmioSize
    else if mmio && bool_decide (key = PCIPassthruMMIOExtraConfigKey k)
    then Some (ExtraConfigTrue k)
    else if dynamic && bool_decide (key = MMPowerOffVMExtraConfigKey k)
    then Some (ExtraConfigTrue k)
    else match fromMetadata with
         | Some value => Some value
         | None => renderSpecTemplate s (Spec vm) key <$> globalExtraConfig !! key
         end.
Proof.
  intros devices dynamic passthrough annotated mmioSize mmio fromMetadata.
  unfold desiredExtraConfig.
  set (fromTables := match vmMetadata with Some _ => _ | None => _ end).
  assert (Hbase : fromTables !! key
                  = match fromMetadata with
                    | Some value => Some value
                    | None => renderSpecTemplate s (Spec vm) key <$> globalExtraConfig !! key
                    end).
  { unfold fromTables, fromMetadata. destruct vmMetadata as [md|].
    - destruct (bool_decide (Transport md = VirtualMachineMetadataExtraConfigTransport));
        simpl.
      + apply desiredExtraConfig_metadata.
      + rewrite map_lookup_imap. by destruct (globalExtraConfig !! key).
    - rewrite map_lookup_imap. by destruct (globalExtraConfig !! key). }
  clearbody fromTables. rewrite <- Hbase. clear Hbase.
  unfold mmio, passthrough, dynamic, setMMIOExtraConfig. fold devices annotated mmioSize.
  destruct (IsThunderPciDevicesFSSEnabled s); simpl; [|done].
  destruct (bool_decide (0 < length (VGPUDevices devices))),
           (bool_decide (0 < length (DynamicDirectPathIODevices devices))),
           (bool_decide (mmioSize = "0")); simpl;
    rewrite ?lookup_insert; repeat case_decide; repeat case_bool_decide;
    simpl; congruence.
Qed.

(** ** Passes that change nothing *)

(** X20. A spec whose power state is neither on nor off gives the pass no
    power goal: it issues no hypervisor write, and once the two reads have
    answered and the config is there, the pass is the status projection
    followed by the affinity attachment, run on the status with the BIOS
    UUID written. *)
Theorem pass_without_a_power_goal (k : Constants) (s : Session) (h : Collaborators)
    (vm : VirtualMachine) (vmConfigArgs : VmConfigArgs) (st : VirtualMachineStatus) :
  PowerState (Spec vm) ≠ VirtualMachinePoweredOn →
  PowerState (Spec vm) ≠ VirtualMachinePoweredOff →
  let run := UpdateVirtualMachine k s h vm vmConfigArgs st in
  hypervisorWrites (calls run.2) = []
  ∧ (∀ resVM moVM config,
       GetVirtualMachine h = Ok resVM →
       GetProperties h configProperties = Ok moVM →
       mo_Config moVM = Some config →
       let rest :=
         (updateVMStatus h vm resVM
          ≫= λ _, attachTagsAndModules k s h vm resVM (ResourcePolicy vmConfigArgs))
           (setStatusBiosUUID (config_Uuid config) st) in
       run = (rest.1,
              {| status := status rest.2;
                 calls := CallGetVirtualMachine :: CallGetProperties configProperties
                          :: calls rest.2 |})).
Proof.
  intros Hon Hoff run. unfold run. split.
  - rewrite UpdateVirtualMachine_writes.
    unfold convergePowerState, mbind, M_bind, call, liftResult, setStatus, mret, M_ret.
    rewrite (bool_decide_eq_false_2 _ Hon), (bool_decide_eq_false_2 _ Hoff).
    destruct (GetVirtualMachine h) as [resVM| |]; simpl; [|done..].
    destruct (GetProperties h configProperties) as [moVM| |]; simpl; [|done..].
    by destruct (mo_Config moVM) as [config|].
  - intros resVM moVM config HresVM HmoVM Hconfig.
    rewrite UpdateVirtualMachine_split.
    erewrite bind_Ok; cycle 1.
    { unfold convergePowerState, mbind, M_bind, call, liftResult, setStatus, mret, M_ret.
      rewrite (bool_decide_eq_false_2 _ Hon), (bool_decide_eq_false_2 _ Hoff).
      rewrite HresVM, HmoVM, Hconfig. simpl. reflexivity. }
    simpl. reflexivity.
Qed.

Lemma pass_without_a_power_goal_witness :
  let moVM := exampleMoVM (Some (exampleConfig [] [] None)) VirtualMachinePoweredOn
                          (Some "host-7") None in
  let h := exampleCollaborators (Ok moVM) (Ok moVM) (Ok "esx-1") (Ok tt) (Ok tt) in
  hypervisorWrites
    (calls (UpdateVirtualMachine exampleConstants (exampleSession false ∅) h
              (exampleVM "suspended" ∅ None)
              (exampleArgs false {| VGPUDevices := []; DynamicDirectPathIODevices := [] |})
              exampleStatus).2)
  = [].
Proof.
  intros moVM h.
  by apply (pass_without_a_power_goal exampleConstants (exampleSession false ∅) h
              (exampleVM "suspended" ∅ None)
              (exampleArgs false {| VGPUDevices := []; DynamicDirectPathIODevices := [] |})
              exampleStatus).
Defined.

(** X21. The pass starts with its two reads and does nothing before they
    have answered: when the VM lookup fails, its error is the result and
    the lookup the only call; when the property fetch fails, its error is
    the result and the two reads the only calls. Either way the status is
    left as it was found, and nothing is written to the hypervisor. *)
Theorem pass_stops_at_a_failed_read (k : Constants) (s : Session) (h : Collaborators)
    (vm : VirtualMachine) (vmConfigArgs : VmConfigArgs) (st : VirtualMachineStatus)
    (e : error) :
  (GetVirtualMachine h = Err e →
   UpdateVirtualMachine k s h vm vmConfigArgs st
   = (Err e, {| status := st; calls := [CallGetVirtualMachine] |}))
  ∧ ((∃ resVM, GetVirtualMachine h = Ok resVM) →
     GetProperties h configProperties = Err e →
     UpdateVirtualMachine k s h vm vmConfigArgs st
     = (Err e, {| status := st;
                  calls := [CallGetVirtualMachine; CallGetProperties configProperties] |})).
Proof.
  split.
  - intros Hlookup. unfold UpdateVirtualMachine. apply bind_Err. unfold call.
    by rewrite Hlookup.
  - intros [resVM HresVM] Hfetch. unfold UpdateVirtualMachine.
    erewrite bind_Ok; [|unfold call; by rewrite HresVM]. simpl.
    erewrite bind_Err; [|unfold call; by rewrite Hfetch]. reflexivity.
Qed.

Lemma pass_stops_at_a_failed_read_witness :
  let h := exampleCollaborators (Err (ExternalError "session expired")) Panic Panic Panic
                                Panic in
  UpdateVirtualMachine exampleConstants (exampleSession false ∅) h
    (exampleVM VirtualMachinePoweredOn ∅ None)
    (exampleArgs false {| VGPUDevices := []; DynamicDirectPathIODevices := [] |})
    exampleStatus
  = (Err (ExternalError "session expired"),
     {| status := exampleStatus;
        calls := [CallGetVirtualMachine; CallGetProperties configProperties] |}).
Proof.
  intros h.
  apply (pass_stops_at_a_failed_read exampleConstants (exampleSession false ∅) h
           (exampleVM VirtualMachinePoweredOn ∅ None)
           (exampleArgs false {| VGPUDevices := []; DynamicDirectPathIODevices := [] |})
           exampleStatus (ExternalError "session expired")).
  - by eexists.
  - reflexivity.
Defined.
